(** * Bulk registration upload: the validation engine of
      [website/registrations/utils.py]

    A shallow embedding of the classes [BulkRegistrationUpload], [Row],
    [Cell] and of the eight field validators, followed by the properties
    of the engine that were checked against it.

    Python objects that the code mutates ([self.errors], the
    [_parsed_value] of a field) are threaded explicitly: the error list
    and a log of the external lookups live in the state of a small
    state-and-exception monad, a field is a record that [parse] returns
    updated. *)

From Stdlib Require Import String Ascii.
From stdpp Require Import base option list gmap strings.

Local Open Scope string_scope.
Local Open Scope list_scope.

(** ** Text

    A [string] is a Python [str] whose code points are below 256; the
    character classes below are those of Python 3 on that range. *)

Module Text.

Definition code (c : ascii) : nat := nat_of_ascii c.

Definition between (lo hi : nat) (c : ascii) : bool :=
  (lo <=? code c)%nat && (code c <=? hi)%nat.

(** [str.isspace], the characters [str.strip()] removes. *)
Definition is_space (c : ascii) : bool :=
  between 9 13 c || between 28 32 c
  || (code c =? 133)%nat || (code c =? 160)%nat.

Definition is_digit (c : ascii) : bool := between 48 57 c.

(** [\w] of a [str] pattern: alphanumeric code points and [_]. *)
Definition is_word (c : ascii) : bool :=
  between 48 57 c || between 65 90 c || between 97 122 c
  || (code c =? 95)%nat
  || (code c =? 170)%nat || (code c =? 181)%nat || (code c =? 186)%nat
  || between 178 179 c || (code c =? 185)%nat || between 188 190 c
  || between 192 214 c || between 216 246 c || between 248 255 c.

(** [str.lower] on one character. *)
Definition lower_char (c : ascii) : ascii :=
  if between 65 90 c || between 192 214 c || between 216 222 c
  then ascii_of_nat (code c + 32) else c.

Fixpoint lower (s : string) : string :=
  match s with
  | "" => ""
  | String c s' => String (lower_char c) (lower s')
  end.

Fixpoint lstrip (s : string) : string :=
  match s with
  | "" => ""
  | String c s' => if is_space c then lstrip s' else s
  end.

Fixpoint rstrip (s : string) : string :=
  match s with
  | "" => ""
  | String c s' =>
      match rstrip s' with
      | "" => if is_space c then "" else String c ""
      | r => String c r
      end
  end.

(** [s.strip()] *)
Definition strip (s : string) : string := rstrip (lstrip s).

(** [s.split(sep)] for a one-character separator: never empty. *)
Fixpoint split (sep : ascii) (s : string) : list string :=
  match s with
  | "" => [""]
  | String c s' =>
      if Ascii.eqb c sep then "" :: split sep s'
      else match split sep s' with
           | t :: ts => String c t :: ts
           | [] => [String c ""]
           end
  end.

(** [[val.strip() for val in s.split(sep)]] *)
Definition split_strip (sep : ascii) (s : string) : list string :=
  strip <$> split sep s.

(** The longest prefix of [s] whose characters satisfy [p], and the
    rest: how a greedy character-class repetition consumes input. *)
Fixpoint span (p : ascii → bool) (s : string) : string * string :=
  match s with
  | "" => ("", "")
  | String c s' =>
      if p c then let '(a, b) := span p s' in (String c a, b)
      else ("", s)
  end.

(** [bool(s)] *)
Definition truthy (s : string) : bool :=
  match s with "" => false | _ => true end.

End Text.

Import Text.

(** ** Python values and exceptions *)

(** The values a validator produces: a string, a list, or a dict with
    string keys (in insertion order). *)
#[local] Set Warnings "-register-all".
Inductive pyval : Type :=
| PyStr (s : string)
| PyList (l : list pyval)
| PyDict (d : list (string * pyval)).

(** What can be raised. [ValidationError] carries the set of missing
    headers that the source joins (in the set's iteration order) into
    its message ['Invalid csv headers: ...']. *)
Inductive exn : Type :=
| NameError (name : string)
| AttributeError (what : string)
| KeyError (key : string)
| IndexError
| TypeError
| StopIteration
| NotFound (detail : string)
| ValidationError (missing_headers : gset string).

Inductive result (A : Type) : Type :=
| Ok (a : A)
| Raise (e : exn).
Arguments Ok {A} a.
Arguments Raise {A} e.

(** ** The error list and the lookup log *)

(** One entry of [BulkRegistrationUpload.errors], as [log_error] builds
    it. *)
Record ErrorRecord : Type := {
  header : string;
  column_index : nat;
  row_index : nat;
  missing : bool;
  invalid : bool
}.

(** A read against an external data source. *)
Inductive query : Type :=
| QProvider (provider_id : string)
| QSchema (schema_id : string)
| QLicense (name : string)
| QSubjects (texts : list string)
| QInstitutions (names : list string)
| QNode (guid : string).

(** The mutable world of one upload: [errors] is the list every
    [log_error] closure appends to, [queries] records each external
    lookup in the order it is made. *)
Record world : Type := {
  errors : list ErrorRecord;
  queries : list query
}.

Definition world0 : world := {| errors := []; queries := [] |}.

(** State and exceptions: a raised exception keeps the effects made
    before it. *)
Definition M (A : Type) : Type := world → result A * world.

Definition ret {A} (a : A) : M A := λ w, (Ok a, w).

Definition bind {A B} (m : M A) (k : A → M B) : M B :=
  λ w, match m w with
       | (Ok a, w') => k a w'
       | (Raise e, w') => (Raise e, w')
       end.

Definition raise {A} (e : exn) : M A := λ w, (Raise e, w).

(** A computation without effects. *)
Definition lift {A} (r : result A) : M A := λ w, (r, w).

Declare Scope py_scope.
Delimit Scope py_scope with py.
Notation "x <- m ;; k" := (bind m (λ x, k))
  (at level 100, m at next level, right associativity) : py_scope.
Notation "m ;;; k" := (bind m (λ _, k))
  (at level 100, right associativity) : py_scope.
Local Open Scope py_scope.

Definition ask_source (q : query) : M unit :=
  λ w, (Ok (), {| errors := errors w; queries := queries w ++ [q] |}).

(** [for x in xs: body(x)] *)
Fixpoint for_each {A} (xs : list A) (body : A → M unit) : M unit :=
  match xs with
  | [] => ret ()
  | x :: xs' => body x ;;; for_each xs' body
  end.

(** [[f(x) for x in xs]] *)
Fixpoint for_list {A B} (xs : list A) (f : A → M B) : M (list B) :=
  match xs with
  | [] => ret []
  | x :: xs' => y <- f x ;; ys <- for_list xs' f ;; ret (y :: ys)
  end.

(** ** Validation rules *)

(** A rule is a dict whose keys may be absent. *)
Record validation : Type := {
  v_required : option bool;
  v_format : option string;
  v_type : option string;
  v_options : option (list string)
}.

Definition metadata_rule (fmt : string) (req : option bool) : validation :=
  {| v_required := req; v_format := Some fmt;
     v_type := None; v_options := None |}.

Definition METADATA_FIELDS : gmap string validation :=
  list_to_map
    [ ("title", metadata_rule "string" (Some true));
      ("description", metadata_rule "string" (Some true));
      ("admin", metadata_rule "list" (Some true));
      ("read-write", metadata_rule "list" None);
      ("read-only", metadata_rule "list" None);
      ("bibliographic contributors", metadata_rule "list" None);
      ("category", metadata_rule "string" None);
      ("affiliated institutions", metadata_rule "list" None);
      ("license", metadata_rule "object" (Some true));
      ("subjects", metadata_rule "list" (Some true));
      ("tags", metadata_rule "list" None);
      ("project guid", metadata_rule "string" None);
      ("external id", metadata_rule "string" None) ].

Definition CONTRIBUTOR_METADATA_FIELDS : list string :=
  ["admin"; "read-write"; "read-only"; "bibliographic contributors"].

(** ** The registration schema document

    [registration_schema.schema]: pages of questions; a question may
    carry a [properties] list of nested questions. The keys read with
    [.get] are optional, those read with [[...]] are fields. *)
Record question_keys : Type := {
  q_required : option bool;
  q_format : option string;
  q_type : option string;
  q_options : option (list string)
}.

Record nested_question : Type := {
  nested_id : string;
  nested_keys : question_keys
}.

Record question : Type := {
  qid : string;
  keys : question_keys;
  properties : option (list nested_question)
}.

Record page : Type := { questions : list question }.

Record RegistrationSchema : Type := { pages : list page }.

(** ** External data sources *)

Record NodeLicense : Type := {
  license_name : string;
  license_properties : list string
}.

(** Modelled from the spec: the schemas of one registration provider,
    queried by schema id ([registration_provider.schemas.get(_id=...)];
    [None] is [RegistrationSchema.DoesNotExist]). The provider model is
    not part of the sources at hand. *)
Record RegistrationProvider : Type := {
  schemas_get : string → option RegistrationSchema
}.

(** Modelled from the spec: the outcome of [RegistrationProvider.load],
    whose definition is not part of the sources at hand. An unknown id is
    signalled either by returning [None] or by raising
    [RegistrationProvider.DoesNotExist]; both are covered. *)
Inductive load_result : Type :=
| Loaded (p : RegistrationProvider)
| LoadedNone
| LoadDoesNotExist.

(** Modelled from the spec: the collaborator interfaces the engine
    reads. [license_get] is [NodeLicense.objects.get(name__iexact=...)]
    ([None] is [DoesNotExist]); [subject_texts] and [institution_names]
    are the [text] and [name] columns of the vocabularies, in query
    order; [node_exists] tells whether a non-deleted project has the
    given guid; [NODE_CATEGORY_MAP] is the category table of the
    settings. *)
Record Env : Type := {
  provider_load : string → load_result;
  license_get : string → option NodeLicense;
  subject_texts : list string;
  institution_names : list string;
  node_exists : string → bool;
  NODE_CATEGORY_MAP : gmap string string
}.

(** [Model.objects.filter(col__in=wanted).values_list(col, flat=True)] *)
Definition filter_in (column wanted : list string) : list string :=
  filter (λ t, t ∈ wanted) column.

(** ** Fields

    One record for the instances of the eight field classes: the class
    decides which [_validate] runs. [log_error] holds what the nested
    [functools.partial] closures have bound by the time a field calls
    them: the row index, the column index and the header. *)

Inductive field_class : Type :=
| RegistrationResponseField
| MetadataField
| ContributorField
| LicenseField
| CategoryField
| SubjectsField
| InstitutionsField
| ProjectIDField.

Record log_error_closure : Type := {
  bound_header : string;
  bound_column_index : nat;
  bound_row_index : nat
}.

Module Field.

Record t : Type := {
  class : field_class;
  required : bool;
  type : string;
  format : option string;
  options : list string;
  value : string;
  log_error : log_error_closure;
  _parsed_value : option pyval
}.

Definition set_parsed_value (self : t) (v : option pyval) : t :=
  {| class := class self; required := required self; type := type self;
     format := format self; options := options self;
     value := value self; log_error := log_error self;
     _parsed_value := v |}.

End Field.

(** [BulkRegistrationUpload.log_error] as a field calls it, with the
    keyword [missing] or [invalid]; each defaults to [False]. *)
Definition log_error (c : log_error_closure) (is_missing is_invalid : bool)
  : M unit :=
  λ w, (Ok (),
        {| errors := errors w ++
                     [ {| header := bound_header c;
                          column_index := bound_column_index c;
                          row_index := bound_row_index c;
                          missing := is_missing;
                          invalid := is_invalid |} ];
           queries := queries w |}).

(** The record a field logs with [invalid=True]. *)
Definition invalid_record (c : log_error_closure) : ErrorRecord :=
  {| header := bound_header c; column_index := bound_column_index c;
     row_index := bound_row_index c; missing := false; invalid := true |}.

(** The record a field logs with [missing=True]. *)
Definition missing_record (c : log_error_closure) : ErrorRecord :=
  {| header := bound_header c; column_index := bound_column_index c;
     row_index := bound_row_index c; missing := true; invalid := false |}.

Definition log_missing (self : Field.t) : M unit :=
  log_error (Field.log_error self) true false.

Definition log_invalid (self : Field.t) : M unit :=
  log_error (Field.log_error self) false true.

(** [self.required and not bool(self.value)] *)
Definition required_and_empty (self : Field.t) : bool :=
  Field.required self && negb (truthy (Field.value self)).

(** ** Regular expressions of the field classes

    Each pattern is matched with [re.match], anchored at the start only.
    In all three a greedy character-class repetition is followed by a
    literal that lies outside the class, so the repetition takes the
    longest run and giving characters back can never help: the matcher
    is deterministic. *)

Module Regex.

(** [[\w ]] *)
Definition name_char (c : ascii) : bool :=
  is_word c || Ascii.eqb c " ".

(** [[\w -,]]: [\w] and the range from space to comma. *)
Definition holder_char (c : ascii) : bool :=
  is_word c || between 32 44 c.

(** [[\w -]]: [\w], space and hyphen. *)
Definition full_name_char (c : ascii) : bool :=
  is_word c || Ascii.eqb c " " || Ascii.eqb c "-".

(** [(?P<name>[\w ]+)]: the group [name]. *)
Definition no_required_fields_regex (s : string) : option string :=
  match span name_char s with
  | ("", _) => None
  | (name, _) => Some name
  end.

(** [(?P<name>[\w ]+);(?P<year>[ ][1-3][0-9]{3});(?P<copyright_holders>[\w -,]+)]:
    the groups [name], [year], [copyright_holders]. *)
Definition with_required_fields_regex (s : string)
  : option (string * string * string) :=
  match span name_char s with
  | ("", _) => None
  | (name, String ";" (String " " (String m (String c (String d
             (String u (String ";" rest))))))) =>
      if between 49 51 m && is_digit c && is_digit d && is_digit u then
        match span holder_char rest with
        | ("", _) => None
        | (holders, _) =>
            Some (name,
                  String " " (String m (String c (String d (String u "")))),
                  holders)
        end
      else None
  | _ => None
  end.

(** [.*?] followed by [>]: the characters before the first [>], none
    of which may be a newline. *)
Fixpoint lazy_until_gt (s : string) : option string :=
  match s with
  | "" => None
  | String c s' =>
      if Ascii.eqb c ">" then Some ""
      else if (code c =? 10)%nat then None
      else String c <$> lazy_until_gt s'
  end.

(** [(?P<full_name>[\w -]+)<(?P<email>.*?)>]: the groups [full_name]
    and [email]. *)
Definition contributor_regex (s : string) : option (string * string) :=
  match span full_name_char s with
  | ("", _) => None
  | (full_name, String "<" rest) =>
      email ← lazy_until_gt rest; Some (full_name, email)
  | _ => None
  end.

End Regex.

(** ** The field validators *)

Module RegistrationResponseField.
Import Field.

(** [RegistrationResponseField.__init__] *)
Definition __init__ (value : string) (validations : validation)
    (log_error : log_error_closure) : Field.t :=
  {| class := RegistrationResponseField;
     required := default false (v_required validations);
     type := default "string" (v_type validations);
     format := v_format validations;
     options := default [] (v_options validations);
     value := strip value;
     log_error := log_error;
     _parsed_value := None |}.

(** The body of the multi-select loop. The [else] branch appends to
    [parse_value], a name that is bound nowhere. *)
Definition multiselect_step (self : Field.t) (choice : string) : M unit :=
  if decide (choice ∉ options self) then log_invalid self
  else raise (NameError "parse_value").

(** [RegistrationResponseField._validate] *)
Definition _validate (self : Field.t) : M Field.t :=
  if required_and_empty self then
    log_missing self ;;; ret self
  else
    parsed_value <-
      (if decide (type self = "string") then
         ret (Some (PyStr (value self)))
       else if decide (type self = "choose"
                       ∧ format self ∈ [Some "singleselect";
                                        Some "multiselect"]) then
         if decide (format self = Some "singleselect") then
           if decide (value self ∉ options self) then
             log_invalid self ;;; ret None
           else ret (Some (PyStr (value self)))
         else
           let choices := split_strip ";" (value self) in
           for_each choices (multiselect_step self) ;;;
           ret (Some (PyList []))
       else ret None) ;;
    ret (set_parsed_value self parsed_value).

End RegistrationResponseField.

Module MetadataField.
Import Field.

(** [MetadataField.__init__], inherited by the six subclasses. *)
Definition __init__ (cls : field_class) (value : string)
    (validations : validation) (log_error : log_error_closure) : Field.t :=
  {| class := cls;
     required := default false (v_required validations);
     type := "string";
     format := Some (default "string" (v_format validations));
     options := [];
     value := strip value;
     log_error := log_error;
     _parsed_value := None |}.

(** [MetadataField._validate] *)
Definition _validate (self : Field.t) : M Field.t :=
  if required_and_empty self then
    log_missing self ;;; ret self
  else
    let parsed_value :=
      if decide (format self = Some "string") then
        Some (PyStr (value self))
      else if decide (format self = Some "list") then
        Some (PyList (PyStr <$> split_strip ";" (value self)))
      else None in
    ret (set_parsed_value self parsed_value).

End MetadataField.

Module ContributorField.
Import Field.

(** One turn of the loop over the contributors: a token the pattern
    does not match is skipped. Reading the two groups of a match
    cannot fail, so the [except AttributeError] branch is dead. *)
Definition contributor (contrib : string) : list pyval :=
  match Regex.contributor_regex (strip contrib) with
  | Some (full_name, email) =>
      [PyDict [("full_name", PyStr full_name); ("email", PyStr email)]]
  | None => []
  end.

(** [ContributorField._validate] *)
Definition _validate (self : Field.t) : M Field.t :=
  if required_and_empty self then
    log_missing self ;;; ret self
  else
    let parsed_contributor_list := split_strip ";" (value self) in
    let parsed_value := parsed_contributor_list ≫= contributor in
    ret (set_parsed_value self (Some (PyList parsed_value))).

End ContributorField.

Module LicenseField.
Import Field.

(** [LicenseField._validate] *)
Definition _validate (env : Env) (self : Field.t) : M Field.t :=
  if required_and_empty self then
    log_missing self ;;; ret self
  else
    match Regex.no_required_fields_regex (value self) with
    | Some node_license_name =>
        ask_source (QLicense node_license_name) ;;;
        match license_get env node_license_name with
        | None => log_invalid self ;;; ret self
        | Some node_license =>
            let has_required_fields :=
              bool_decide (license_properties node_license ≠ []) in
            let parsed_value :=
              if has_required_fields then
                match Regex.with_required_fields_regex (value self) with
                | Some (name, year, copyright_holders) =>
                    Some (PyDict
                      [("name", PyStr name);
                       ("required_field",
                        PyDict
                          [("year", PyStr year);
                           ("copyright_holders",
                            PyList (PyStr <$>
                                    split_strip "," copyright_holders))])])
                | None => None
                end
              else Some (PyDict [("name", PyStr node_license_name)]) in
            ret (set_parsed_value self parsed_value)
        end
    | None => log_invalid self ;;; ret self
    end.

End LicenseField.

Module CategoryField.
Import Field.

(** [CategoryField._validate] *)
Definition _validate (env : Env) (self : Field.t) : M Field.t :=
  match NODE_CATEGORY_MAP env !! value self with
  | Some category => ret (set_parsed_value self (Some (PyStr category)))
  | None => log_invalid self ;;; ret self
  end.

End CategoryField.

(** The shared body of [SubjectsField._validate] and
    [InstitutionsField._validate]: [column] is the vocabulary queried,
    [asked] the lookup made. *)
Definition validate_against (column : list string)
    (asked : list string → query) (self : Field.t) : M Field.t :=
  let wanted := split_strip ";" (Field.value self) in
  ask_source (asked wanted) ;;;
  let valid := filter_in column wanted in
  let invalid : gset string := list_to_set wanted ∖ list_to_set valid in
  if decide (size invalid ≠ 0) then
    log_invalid self ;;; ret self
  else
    ret (Field.set_parsed_value self (Some (PyList (PyStr <$> valid)))).

Module SubjectsField.
Import Field.

(** [SubjectsField._validate] *)
Definition _validate (env : Env) (self : Field.t) : M Field.t :=
  validate_against (subject_texts env) QSubjects self.

End SubjectsField.

Module InstitutionsField.
Import Field.

(** [InstitutionsField._validate] *)
Definition _validate (env : Env) (self : Field.t) : M Field.t :=
  validate_against (institution_names env) QInstitutions self.

End InstitutionsField.

Module ProjectIDField.
Import Field.

(** [ProjectIDField._validate] *)
Definition _validate (env : Env) (self : Field.t) : M Field.t :=
  ask_source (QNode (value self)) ;;;
  if node_exists env (value self) then
    ret (set_parsed_value self (Some (PyStr (value self))))
  else log_invalid self ;;; ret self.

End ProjectIDField.

(** [self._validate()]: the method of the instance's class. *)
Definition _validate (env : Env) (self : Field.t) : M Field.t :=
  match Field.class self with
  | RegistrationResponseField => RegistrationResponseField._validate self
  | MetadataField => MetadataField._validate self
  | ContributorField => ContributorField._validate self
  | LicenseField => LicenseField._validate env self
  | CategoryField => CategoryField._validate env self
  | SubjectsField => SubjectsField._validate env self
  | InstitutionsField => InstitutionsField._validate env self
  | ProjectIDField => ProjectIDField._validate env self
  end.

(** [parse], the same code in [RegistrationResponseField] and in
    [MetadataField]: validate unless a value is cached, then return the
    cached value, or [''] when there is none. *)
Definition parse (env : Env) (self : Field.t) : M (pyval * Field.t) :=
  self' <- (match Field._parsed_value self with
            | None => _validate env self
            | Some _ => ret self
            end) ;;
  ret (default (PyStr "") (Field._parsed_value self'), self').

(** ** Dicts in insertion order *)

(** [d[k] = v]: a present key keeps its place, a new key goes last. *)
Fixpoint dict_set {K V} `{EqDecision K} (k : K) (v : V) (d : list (K * V))
  : list (K * V) :=
  match d with
  | [] => [(k, v)]
  | (k', v') :: d' =>
      if decide (k = k') then (k, v) :: d' else (k', v') :: dict_set k v d'
  end.

Fixpoint dict_get {K V} `{EqDecision K} (k : K) (d : list (K * V))
  : option V :=
  match d with
  | [] => None
  | (k', v') :: d' => if decide (k = k') then Some v' else dict_get k d'
  end.

(** [d.update(items)] *)
Definition dict_update {K V} `{EqDecision K} (d items : list (K * V))
  : list (K * V) :=
  foldl (λ acc kv, dict_set kv.1 kv.2 acc) d items.

(** ** The rows [csv.DictReader] yields

    The document is given as the rows of [csv.reader], header row
    first; a blank line is the empty row. Every row is taken to lie on
    one physical line, so that the reader's [line_num] after a row is
    the 1-based position of that row. *)

(** A value of a row dict: a string, [None] for a field the line lacks
    ([restval]), or the list of surplus fields (under [restkey]). *)
Inductive csv_value : Type :=
| CsvStr (s : string)
| CsvNone
| CsvRest (surplus : list string).

(** A row dict; the key [None] is [restkey]. *)
Definition row_dict : Type := list (option string * csv_value).

Module DictReader.

(** [dict(zip(fieldnames, row))] *)
Fixpoint zip_dict (fieldnames row : list string) (d : row_dict) : row_dict :=
  match fieldnames, row with
  | f :: fs, v :: vs => zip_dict fs vs (dict_set (Some f) (CsvStr v) d)
  | _, _ => d
  end.

(** The dict of one non-blank row. *)
Definition to_dict (fieldnames row : list string) : row_dict :=
  let d := zip_dict fieldnames row [] in
  let lf := length fieldnames in
  let lr := length row in
  if decide (lf < lr) then dict_set None (CsvRest (drop lf row)) d
  else if decide (lr < lf) then
    foldl (λ acc key, dict_set (Some key) CsvNone acc) d (drop lr fieldnames)
  else d.

(** What iterating the reader yields from line [line_num] on: blank
    rows are skipped, every dict comes with its line number. *)
Fixpoint iterate (fieldnames : list string) (line_num : nat)
    (rows : list (list string)) : list (nat * row_dict) :=
  match rows with
  | [] => []
  | [] :: rows' => iterate fieldnames (S line_num) rows'
  | row :: rows' =>
      (line_num, to_dict fieldnames row)
        :: iterate fieldnames (S line_num) rows'
  end.

End DictReader.

(** An item the reader took from a line under one of the field names. *)
Definition from_line (fieldnames : list string)
    (item : option string * csv_value) : Prop :=
  ∃ k s, item = (Some k, CsvStr s) ∧ k ∈ fieldnames.

(** ** Cells *)

Module Cell.

Record t : Type := {
  header : string;
  value : string;
  validations : validation;
  field : Field.t
}.

Definition set_field (self : t) (f : Field.t) : t :=
  {| header := header self; value := value self;
     validations := validations self; field := f |}.

(** [Cell.is_metadata] *)
Definition is_metadata (self : t) : bool :=
  bool_decide (header self ∈ dom METADATA_FIELDS).

(** The class [Cell.field_instance_for] instantiates for a header. *)
Definition field_class_for (name : string) : field_class :=
  if decide (name ∈ dom METADATA_FIELDS) then
    if decide (name ∈ CONTRIBUTOR_METADATA_FIELDS) then ContributorField
    else if decide (name = "license") then LicenseField
    else if decide (name = "category") then CategoryField
    else if decide (name = "subjects") then SubjectsField
    else if decide (name = "affiliated institutions") then InstitutionsField
    else if decide (name = "project guid") then ProjectIDField
    else MetadataField
  else RegistrationResponseField.

(** [Cell.field_instance_for] for a string value. *)
Definition field_instance_for (name : string) (value : string)
    (validations : validation) (log_error : log_error_closure) : Field.t :=
  match field_class_for name with
  | RegistrationResponseField =>
      RegistrationResponseField.__init__ value validations log_error
  | cls => MetadataField.__init__ cls value validations log_error
  end.

(** [Cell.__init__]. The field constructors call [.strip()] on the
    value, which only a string has. [row_index] and [column_index] are
    what the two enclosing [functools.partial] have bound. *)
Definition __init__ (header : string) (value : csv_value)
    (validations : validation) (row_index column_index : nat) : M t :=
  match value with
  | CsvStr v =>
      ret {| header := header; value := v; validations := validations;
             field := field_instance_for (lower header) v validations
                        {| bound_header := header;
                           bound_column_index := column_index;
                           bound_row_index := row_index |} |}
  | CsvNone => raise (AttributeError "'NoneType' object has no attribute 'strip'")
  | CsvRest _ => raise (AttributeError "'list' object has no attribute 'strip'")
  end.

(** [Cell.validate] *)
Definition validate (env : Env) (self : t) : M t :=
  r <- parse env (field self) ;; ret (set_field self r.2).

(** [Cell.get_parsed_value] *)
Definition get_parsed_value (env : Env) (self : t)
  : M (list (string * pyval) * t) :=
  r <- parse env (field self) ;;
  ret ([(header self, r.1)], set_field self r.2).

(** [Cell.get_raw_value] *)
Definition get_raw_value (self : t) : string := value self.

End Cell.

(** ** Rows

    When a validator raises in the middle of a pass, the model keeps
    the error list and the lookup log; the fields updated so far are
    not handed back, as no caller can go on with them. *)

Module Row.

Record t : Type := {
  row_dict_ : row_dict;
  cells : list Cell.t
}.

(** One element of the comprehension of [Row.__init__]: the header is
    lower-cased, its rule is read from the merged map, the cell is
    built. *)
Definition make_cell (validations : gmap string validation)
    (row_index column_index : nat) (item : option string * csv_value)
  : M Cell.t :=
  match item.1 with
  | None => raise (AttributeError "'NoneType' object has no attribute 'lower'")
  | Some header =>
      match validations !! lower header with
      | None => raise (KeyError (lower header))
      | Some rule =>
          Cell.__init__ (lower header) item.2 rule row_index column_index
      end
  end.

(** The comprehension over [enumerate(row_dict.items())], from column
    [column_index] on. *)
Fixpoint make_cells (validations : gmap string validation)
    (row_index column_index : nat) (items : row_dict) : M (list Cell.t) :=
  match items with
  | [] => ret []
  | item :: items' =>
      cell <- make_cell validations row_index column_index item ;;
      cells <- make_cells validations row_index (S column_index) items' ;;
      ret (cell :: cells)
  end.

(** [Row.__init__]; [row_index] is what [functools.partial] has bound
    in the [log_error] handed over. *)
Definition __init__ (row_dict : row_dict)
    (validations : gmap string validation) (row_index : nat) : M t :=
  cells <- make_cells validations row_index 0 row_dict ;;
  ret {| row_dict_ := row_dict; cells := cells |}.

(** [Row.validate] *)
Definition validate (env : Env) (self : t) : M t :=
  cells <- for_list (cells self) (Cell.validate env) ;;
  ret {| row_dict_ := row_dict_ self; cells := cells |}.

(** The loops of [get_metadata] ([metadata = true]) and of
    [get_registration_responses] ([metadata = false]) over the cells,
    updating the dict [parsed]. *)
Fixpoint collect (env : Env) (metadata : bool) (cells : list Cell.t)
    (parsed : list (string * pyval))
  : M (list (string * pyval) * list Cell.t) :=
  match cells with
  | [] => ret (parsed, [])
  | cell :: cells' =>
      r <- (if bool_decide (Cell.is_metadata cell = metadata) then
              r <- Cell.get_parsed_value env cell ;;
              ret (dict_update parsed r.1, r.2)
            else ret (parsed, cell)) ;;
      rs <- collect env metadata cells' r.1 ;;
      ret (rs.1, r.2 :: rs.2)
  end.

(** [Row.get_parsed_value]: the dicts under ['metadata'] and under
    ['registration_responses']. *)
Definition get_parsed_value (env : Env) (self : t)
  : M (list (string * pyval) * list (string * pyval) * t) :=
  m <- collect env true (cells self) [] ;;
  r <- collect env false m.2 [] ;;
  ret (m.1, r.1, {| row_dict_ := row_dict_ self; cells := r.2 |}).

(** [','.join(...)] *)
Fixpoint join (sep : string) (parts : list string) : string :=
  match parts with
  | [] => ""
  | [p] => p
  | p :: parts' => (p ++ sep ++ join sep parts')%string
  end.

(** [Row.get_raw_value] *)
Definition get_raw_value (self : t) : string :=
  join "," (Cell.get_raw_value <$> cells self).

End Row.

(** ** The upload *)

(** The double quote, for the messages. *)
Definition dquote : string := String (ascii_of_nat 34) "".

Module BulkRegistrationUpload.

Record t : Type := {
  headers : list string;
  schema_id : option string;
  provider_id : string;
  registration_schema : RegistrationSchema;
  schema_questions : gmap string validation;
  validations : gmap string validation;
  rows : list Row.t
}.

Definition set_rows (self : t) (rs : list Row.t) : t :=
  {| headers := headers self; schema_id := schema_id self;
     provider_id := provider_id self;
     registration_schema := registration_schema self;
     schema_questions := schema_questions self;
     validations := validations self; rows := rs |}.

(** [BulkRegistrationUpload.is_valid], on the error list. *)
Definition is_valid (w : world) : bool :=
  negb (bool_decide (length (errors w) ≠ 0)).

(** The lambda [get_question_validations]. *)
Definition get_question_validations (question : question_keys)
  : validation :=
  {| v_required := Some (default false (q_required question));
     v_format := Some (default "" (q_format question));
     v_type := Some (default "string" (q_type question));
     v_options := Some (default [] (q_options question)) |}.

(** The body of the loop over the questions of a page. *)
Definition add_question (schema_questions : gmap string validation)
    (question : question) : gmap string validation :=
  let with_question :=
    <[qid question := get_question_validations (keys question)]>
      schema_questions in
  match properties question with
  | Some nested =>
      foldl (λ acc nested_question,
               <[(qid question ++ nested_id nested_question)%string :=
                   get_question_validations (nested_keys nested_question)]>
                 acc)
            with_question nested
  | None => with_question
  end.

(** [BulkRegistrationUpload.get_questions_validations] *)
Definition get_questions_validations (registration_schema : RegistrationSchema)
  : gmap string validation :=
  foldl (λ acc page, foldl add_question acc (questions page))
        ∅ (pages registration_schema).

(** The [try] block of [__init__] with its two handlers. A provider
    that [load] returns as [None] has no [schemas]; the handler for a
    missing provider calls [.format] on the [NotFound] instance it has
    just built, which has no such attribute. *)
Definition lookup (env : Env) (provider_id schema_id : string)
  : M RegistrationSchema :=
  ask_source (QProvider provider_id) ;;;
  match provider_load env provider_id with
  | Loaded registration_provider =>
      ask_source (QSchema schema_id) ;;;
      match schemas_get registration_provider schema_id with
      | Some registration_schema => ret registration_schema
      | None =>
          raise (NotFound ("Schema with id " ++ dquote ++ schema_id
                           ++ dquote ++ " was not found")%string)
      end
  | LoadedNone =>
      raise (AttributeError "'NoneType' object has no attribute 'schemas'")
  | LoadDoesNotExist =>
      raise (AttributeError "'NotFound' object has no attribute 'format'")
  end.

(** [self.errors = []] *)
Definition reset_errors : M unit :=
  λ w, (Ok (), {| errors := []; queries := queries w |}).

(** The value under the first field name, as a schema id: a string or
    [None] (a surplus list is only ever stored under [restkey]). *)
Definition as_schema_id (v : csv_value) : option string :=
  match v with
  | CsvStr s => Some s
  | _ => None
  end.

(** The first lines of [__init__], up to [self.schema_id]: the
    lower-cased headers, the value the schema-id row holds under the
    first field name, and the rows left in the reader, each with its
    line number. Without a header row [fieldnames] is [None], which
    cannot be iterated. *)
Definition open_reader (bulk_upload_csv : list (list string))
  : result (list string * option string * list (nat * row_dict)) :=
  match bulk_upload_csv with
  | [] => Raise TypeError
  | fieldnames :: lines =>
      let headers := lower <$> fieldnames in
      match DictReader.iterate fieldnames 2 lines with
      | [] => Raise StopIteration
      | (_, schema_id_row) :: data_rows =>
          match fieldnames with
          | [] => Raise IndexError
          | first :: _ =>
              match dict_get (Some first) schema_id_row with
              | None => Raise (KeyError first)
              | Some v => Ok (headers, as_schema_id v, data_rows)
              end
          end
      end
  end.

(** [if self.schema_id: ...]: the schema found, or [None] when the
    [if] is skipped and [self.registration_schema] stays unassigned. *)
Definition assign_schema (env : Env) (provider_id : string)
    (schema_id : option string) : M (option RegistrationSchema) :=
  match schema_id with
  | Some id =>
      if truthy id then s <- lookup env provider_id id ;; ret (Some s)
      else ret None
  | None => ret None
  end.

(** [BulkRegistrationUpload.__init__] on the rows read from
    [bulk_upload_csv]. *)
Definition __init__ (env : Env) (bulk_upload_csv : list (list string))
    (provider_id : string) : M t :=
  opened <- lift (open_reader bulk_upload_csv) ;;
  let '(headers, schema_id, data_rows) := opened in
  assigned <- assign_schema env provider_id schema_id ;;
  match assigned with
  | None =>
      raise (AttributeError
        "'BulkRegistrationUpload' object has no attribute 'registration_schema'")
  | Some registration_schema =>
      let schema_questions :=
        get_questions_validations registration_schema in
      let validations := METADATA_FIELDS ∪ schema_questions in
      reset_errors ;;;
      rows <- for_list data_rows
                (λ r, Row.__init__ r.2 validations r.1) ;;
      ret {| headers := headers; schema_id := schema_id;
             provider_id := provider_id;
             registration_schema := registration_schema;
             schema_questions := schema_questions;
             validations := validations; rows := rows |}
  end.

(** [set(expected_headers) - set(actual_headers)] *)
Definition missing_headers (self : t) : gset string :=
  dom (validations self) ∖ list_to_set (headers self).

(** [BulkRegistrationUpload.validate_csv_header_list] *)
Definition validate_csv_header_list (self : t) : M unit :=
  let diff := missing_headers self in
  if decide (size diff ≠ 0) then raise (ValidationError diff)
  else ret ().

(** [BulkRegistrationUpload.validate] *)
Definition validate (env : Env) (self : t) : M t :=
  validate_csv_header_list self ;;;
  rows <- for_list (rows self) (Row.validate env) ;;
  ret (set_rows self rows).

(** One entry of ['registrations']: [csv_raw], then the two dicts of
    [csv_parsed]. *)
Definition registration : Type :=
  string * (list (string * pyval) * list (string * pyval)).

(** [BulkRegistrationUpload.get_parsed] *)
Definition get_parsed (env : Env) (self : t)
  : M (option string * list registration * t) :=
  parsed <- for_list (rows self)
              (λ row, r <- Row.get_parsed_value env row ;;
                      ret ((Row.get_raw_value row, r.1), r.2)) ;;
  ret (schema_id self, parsed.*1, set_rows self parsed.*2).

End BulkRegistrationUpload.

(** ** A sample installation, for the concrete runs *)

Module Sample.

(** Modelled from the spec: the license name lookup over a table of
    licenses, a case-insensitive exact match on the name; the license
    model is not part of the sources at hand. *)
Definition license_by_name (table : list NodeLicense) (name : string)
  : option NodeLicense :=
  head (filter (λ l, lower (license_name l) = lower name) table).

Definition licenses : list NodeLicense :=
  [ {| license_name := "MIT"; license_properties := [] |};
    {| license_name := "CC-BY";
       license_properties := ["year"; "copyrightHolders"] |};
    {| license_name := "CCBY";
       license_properties := ["year"; "copyrightHolders"] |};
    {| license_name := "No license";
       license_properties := ["year"; "copyrightHolders"] |} ].

(** A schema with a multi-select question [q1] and a text question
    [q2] that has one nested question. *)
Definition schema : RegistrationSchema :=
  {| pages :=
       [ {| questions :=
              [ {| qid := "q1";
                   keys := {| q_required := Some false;
                              q_format := Some "multiselect";
                              q_type := Some "choose";
                              q_options := Some ["a"; "b"] |};
                   properties := None |};
                {| qid := "q2";
                   keys := {| q_required := Some true;
                              q_format := None;
                              q_type := None;
                              q_options := None |};
                   properties :=
                     Some [ {| nested_id := ".note";
                               nested_keys :=
                                 {| q_required := None;
                                    q_format := None;
                                    q_type := Some "string";
                                    q_options := None |} |} ] |} ] |} ] |}.

Definition provider : RegistrationProvider :=
  {| schemas_get := λ id, if decide (id = "schema-1") then Some schema
                          else None |}.

Definition env : Env :=
  {| provider_load := λ id, if decide (id = "osf") then Loaded provider
                            else LoadedNone;
     license_get := license_by_name licenses;
     subject_texts := ["Psychology"; "Biology"];
     institution_names := ["Center For Open Science"];
     node_exists := λ guid, bool_decide (guid = "abc12");
     NODE_CATEGORY_MAP := {[ "project" := "Project"; "data" := "Data" ]} |}.

(** The same installation with a [load] that raises for an unknown
    provider. *)
Definition env_raising : Env :=
  {| provider_load := λ id, if decide (id = "osf") then Loaded provider
                            else LoadDoesNotExist;
     license_get := license_get env;
     subject_texts := subject_texts env;
     institution_names := institution_names env;
     node_exists := node_exists env;
     NODE_CATEGORY_MAP := NODE_CATEGORY_MAP env |}.

Definition closure : log_error_closure :=
  {| bound_header := "q1"; bound_column_index := 13;
     bound_row_index := 3 |}.

(** The header row that names every expected header. *)
Definition header_row : list string :=
  [ "Title"; "Description"; "Admin"; "Read-Write"; "Read-Only";
    "Bibliographic Contributors"; "Category"; "Affiliated Institutions";
    "License"; "Subjects"; "Tags"; "Project GUID"; "External ID";
    "q1"; "q2"; "q2.note" ].

Definition schema_id_row : list string := ["schema-1"].

Definition registration_row : list string :=
  [ "A title"; "A description"; "Jane Doe<jane@example.com>"; ""; "";
    ""; "project"; "Center For Open Science"; "MIT"; "Psychology";
    "t1; t2"; "abc12"; ""; "c"; "an answer"; "" ].

(** A well-formed document with one registration. *)
Definition document : list (list string) :=
  [header_row; schema_id_row; registration_row].

(** The same without the [Tags] column. *)
Definition without_tags (row : list string) : list string :=
  take 10 row ++ drop 11 row.

Definition document_missing_tags : list (list string) :=
  without_tags <$> [header_row; schema_id_row; registration_row].

(** A header row with one more column, [Funder], a schema-id row and
    no registration. *)
Definition document_extra_header_no_rows : list (list string) :=
  [header_row ++ ["Funder"]; schema_id_row].

(** The same with one registration. *)
Definition document_extra_header : list (list string) :=
  [header_row ++ ["Funder"]; schema_id_row;
   registration_row ++ ["NSF"]].

(** The well-formed document with a blank title. *)
Definition document_blank_title : list (list string) :=
  [header_row; schema_id_row; " " :: drop 1 registration_row].

(** A document whose schema-id row starts with an empty field. *)
Definition document_no_schema_id : list (list string) :=
  [header_row; [""; "x"]; registration_row].

(** Two documents whose header row repeats its first name, and whose
    schema-id row starts with an empty field: the second field names a
    schema the provider has, or one it does not have. *)
Definition document_repeated_header : list (list string) :=
  [["Title"; "Title"]; [""; "schema-1"]].

Definition document_repeated_header_unknown : list (list string) :=
  [["Title"; "Title"]; [""; "schema-0"]].

End Sample.

(** ** Notions used in the statements *)

(** A computation that only adds to the world: it appends records, all
    of them satisfying [P], to the error list, appends to the lookup
    log, and changes nothing that was there. *)
Definition appends {A} (P : ErrorRecord → Prop) (m : M A) : Prop :=
  ∀ w, ∃ logged asked,
    (m w).2 = {| errors := errors w ++ logged;
                 queries := queries w ++ asked |}
    ∧ Forall P logged.

(** Two states of one field object: all but the cached value agree. *)
Definition same_but_cache (self self' : Field.t) : Prop :=
  Field.class self' = Field.class self
  ∧ Field.required self' = Field.required self
  ∧ Field.type self' = Field.type self
  ∧ Field.format self' = Field.format self
  ∧ Field.options self' = Field.options self
  ∧ Field.value self' = Field.value self
  ∧ Field.log_error self' = Field.log_error self.

(** Two states of one cell: header, raw value and rule agree, and so
    does the field but for its cache. *)
Definition same_cell (cell cell' : Cell.t) : Prop :=
  Cell.header cell' = Cell.header cell
  ∧ Cell.value cell' = Cell.value cell
  ∧ Cell.validations cell' = Cell.validations cell
  ∧ same_but_cache (Cell.field cell) (Cell.field cell').

(** What a cell built at a given column is. *)
Definition built_from (validations : gmap string validation)
    (row_index column_index : nat) (item : option string * csv_value)
    (cell : Cell.t) : Prop :=
  ∃ k s,
    item = (Some k, CsvStr s)
    ∧ Cell.header cell = lower k
    ∧ Cell.value cell = s
    ∧ validations !! lower k = Some (Cell.validations cell)
    ∧ Field.class (Cell.field cell) = Cell.field_class_for (lower k)
    ∧ Field.value (Cell.field cell) = strip s
    ∧ Field._parsed_value (Cell.field cell) = None
    ∧ Field.log_error (Cell.field cell)
      = {| bound_header := lower k; bound_column_index := column_index;
           bound_row_index := row_index |}.

(** Every character of [s] satisfies [p]. *)
Fixpoint all_chars (p : ascii → bool) (s : string) : bool :=
  match s with
  | "" => true
  | String c s' => p c && all_chars p s'
  end.

(** How often the character [sep] occurs in [s]. *)
Fixpoint count_char (sep : ascii) (s : string) : nat :=
  match s with
  | "" => 0
  | String c s' => (if Ascii.eqb c sep then 1 else 0) + count_char sep s'
  end.

(** What [.] matches, short of the closing bracket. *)
Definition email_char (c : ascii) : bool :=
  negb (Ascii.eqb c ">") && negb (code c =? 10)%nat.

(** The keys a question contributes to the rules: its id, then the id
    followed by the id of each nested question. *)
Definition question_ids (q : question) : list string :=
  qid q :: ((λ n, (qid q ++ nested_id n)%string) <$>
            default [] (properties q)).

(** The keys the questions of a schema contribute, page by page. *)
Definition schema_ids (schema : RegistrationSchema) : list string :=
  pages schema ≫= (λ p, questions p ≫= question_ids).

(** A record with exactly one of the two flags set. *)
Definition one_flag (r : ErrorRecord) : Prop := missing r = negb (invalid r).

(** * Properties *)

(** ** The memo of [parse] *)

Section Memo.

Context (env : Env).

(** A cached value is returned as it is: nothing is validated, logged
    or looked up. *)
Lemma parse_cached (self : Field.t) (v : pyval) (w : world) :
  Field._parsed_value self = Some v →
  parse env self w = (Ok (v, self), w).
Proof. intros Hv. unfold parse, bind, ret. rewrite Hv. simpl. by rewrite Hv. Qed.

(** Without a cached value [parse] is one run of [_validate]. *)
Lemma parse_uncached (self : Field.t) (w : world) :
  Field._parsed_value self = None →
  parse env self w =
    match _validate env self w with
    | (Ok self', w') =>
        (Ok (default (PyStr "") (Field._parsed_value self'), self'), w')
    | (Raise e, w') => (Raise e, w')
    end.
Proof. intros Hv. unfold parse, bind, ret. by rewrite Hv. Qed.

(** Once a parse has produced a value, every later parse returns the
    same value and leaves the field, the error list and the lookup log
    alone. *)
Lemma parse_value_is_memoized (self self' : Field.t) (v : pyval)
    (w w' : world) :
  parse env self w = (Ok (v, self'), w') →
  is_Some (Field._parsed_value self') →
  parse env self' w' = (Ok (v, self'), w').
Proof.
  intros Hp [v' Hv']. rewrite (parse_cached _ v') by done.
  assert (v = default (PyStr "") (Field._parsed_value self')) as ->.
  { unfold parse, bind, ret in Hp.
    destruct (Field._parsed_value self);
      [|destruct (_validate env self w) as [[s|e] w1]];
      simpl in Hp; by simplify_eq. }
  by rewrite Hv'.
Qed.

End Memo.

(** ** Vocabulary look-ups *)

(** The set difference the two vocabulary validators test is non-empty
    exactly when some token is not in the column queried. *)
Lemma unmatched_token (column wanted : list string) :
  size (list_to_set wanted ∖ list_to_set (filter_in column wanted)
        : gset string) ≠ 0
  ↔ ∃ t, t ∈ wanted ∧ t ∉ column.
Proof.
  rewrite size_non_empty_iff. unfold filter_in. split.
  - intros Hne. apply set_choose in Hne as [t Ht].
    exists t. rewrite elem_of_difference, !elem_of_list_to_set in Ht.
    destruct Ht as [Hin Hout]. split; [done|].
    intros Hc. apply Hout. by apply list_elem_of_filter.
  - intros (t & Hin & Hout) Hempty.
    apply (not_elem_of_empty (C:=gset string) t). rewrite <- Hempty.
    rewrite elem_of_difference, !elem_of_list_to_set. split; [done|].
    intros Hf. apply list_elem_of_filter in Hf. tauto.
Qed.

(** The matched rows hold the same texts as the tokens when every token
    is in the column. *)
Lemma matched_all (column wanted : list string) :
  (∀ t, t ∈ wanted → t ∈ column) →
  ∀ t, t ∈ filter_in column wanted ↔ t ∈ wanted.
Proof.
  intros Hall t. unfold filter_in. rewrite list_elem_of_filter.
  split; [tauto|]. intros Ht. split; [done|]. by apply Hall.
Qed.

(** The shared vocabulary validator when some token is unknown: one
    [invalid] record, no value. *)
Lemma validate_against_unmatched (column : list string)
    (asked : list string → query) (self : Field.t) (w : world) :
  (∃ t, t ∈ split_strip ";" (Field.value self) ∧ t ∉ column) →
  validate_against column asked self w =
    (Ok self,
     {| errors := errors w ++
                  [ {| header := bound_header (Field.log_error self);
                       column_index :=
                         bound_column_index (Field.log_error self);
                       row_index := bound_row_index (Field.log_error self);
                       missing := false; invalid := true |} ];
        queries := queries w ++ [asked (split_strip ";" (Field.value self))] |}).
Proof.
  intros He. apply unmatched_token in He.
  unfold validate_against, bind, ask_source, log_invalid, log_error, ret.
  by destruct (decide (size _ ≠ 0)).
Qed.

(** The shared vocabulary validator when every token is known: the
    matched rows, no record. *)
Lemma validate_against_matched (column : list string)
    (asked : list string → query) (self : Field.t) (w : world) :
  (∀ t, t ∈ split_strip ";" (Field.value self) → t ∈ column) →
  validate_against column asked self w =
    (Ok (Field.set_parsed_value self
           (Some (PyList (PyStr <$>
              filter_in column (split_strip ";" (Field.value self)))))),
     {| errors := errors w;
        queries := queries w ++ [asked (split_strip ";" (Field.value self))] |}).
Proof.
  intros Hall.
  unfold validate_against, bind, ask_source, log_invalid, log_error, ret.
  destruct (decide (size _ ≠ 0)) as [Hs|Hs]; [|done].
  apply unmatched_token in Hs as (t & Hin & Hout). by apply Hall in Hin.
Qed.

(** ** The class instantiated for a header *)

Lemma field_class_for_subjects :
  Cell.field_class_for "subjects" = SubjectsField.
Proof. by vm_compute. Qed.

Lemma field_class_for_institutions :
  Cell.field_class_for "affiliated institutions" = InstitutionsField.
Proof. by vm_compute. Qed.

Lemma field_class_for_license :
  Cell.field_class_for "license" = LicenseField.
Proof. by vm_compute. Qed.

Lemma field_class_for_title :
  Cell.field_class_for "title" = MetadataField.
Proof. by vm_compute. Qed.

(** A header outside the fixed table gets a questionnaire field. *)
Lemma field_class_for_question (name : string) :
  name ∉ dom METADATA_FIELDS →
  Cell.field_class_for name = RegistrationResponseField.
Proof. intros Hn. unfold Cell.field_class_for. by rewrite decide_False. Qed.

(** ** Subjects and institutions *)

Section Vocabulary.

Context (env : Env) (value : string) (rule : validation)
        (closure : log_error_closure) (w : world).

Let tokens : list string := split_strip ";" (strip value).

(** A field of one of the two vocabulary classes, parsed for the
    first time. *)
Lemma parse_vocabulary (cls : field_class) (column : list string)
    (asked : list string → query) :
  let self := MetadataField.__init__ cls value rule closure in
  _validate env self = validate_against column asked self →
  ((∃ t, t ∈ tokens ∧ t ∉ column) →
   parse env self w =
     (Ok (PyStr "", self),
      {| errors := errors w ++ [invalid_record closure];
         queries := queries w ++ [asked tokens] |}))
  ∧ ((∀ t, t ∈ tokens → t ∈ column) →
     ∃ matched,
       parse env self w =
         (Ok (PyList (PyStr <$> matched),
              Field.set_parsed_value self
                (Some (PyList (PyStr <$> matched)))),
          {| errors := errors w; queries := queries w ++ [asked tokens] |})
       ∧ ∀ t, t ∈ matched ↔ t ∈ tokens).
Proof.
  intros self Hv. split.
  - intros He. rewrite parse_uncached by done. rewrite Hv.
    by rewrite validate_against_unmatched.
  - intros Hall. exists (filter_in column tokens). split.
    + rewrite parse_uncached by done. rewrite Hv.
      by rewrite validate_against_matched.
    + by apply matched_all.
Qed.

End Vocabulary.

(** C7. A subjects cell and an affiliated-institutions cell are all or
    nothing. With [tokens] the trimmed [;]-separated tokens of the raw
    value: if some token is not in the vocabulary, parsing makes the one
    lookup, logs exactly one [invalid] record for the cell and leaves it
    without a value ([parse] returns [''], nothing is cached); if every
    token is in the vocabulary, parsing logs nothing and the cell
    resolves to the matched rows, which hold exactly the tokens. *)
Theorem C7_vocabulary_cell_all_or_nothing (env : Env) (value : string)
    (rule : validation) (closure : log_error_closure) (w : world) :
  let tokens := split_strip ";" (strip value) in
  let subjects := Cell.field_instance_for "subjects" value rule closure in
  let institutions :=
    Cell.field_instance_for "affiliated institutions" value rule closure in
  (((∃ t, t ∈ tokens ∧ t ∉ subject_texts env) →
    parse env subjects w =
      (Ok (PyStr "", subjects),
       {| errors := errors w ++ [invalid_record closure];
          queries := queries w ++ [QSubjects tokens] |}))
   ∧ ((∀ t, t ∈ tokens → t ∈ subject_texts env) →
      ∃ matched,
        parse env subjects w =
          (Ok (PyList (PyStr <$> matched),
               Field.set_parsed_value subjects
                 (Some (PyList (PyStr <$> matched)))),
           {| errors := errors w; queries := queries w ++ [QSubjects tokens] |})
        ∧ ∀ t, t ∈ matched ↔ t ∈ tokens))
  ∧ (((∃ t, t ∈ tokens ∧ t ∉ institution_names env) →
      parse env institutions w =
        (Ok (PyStr "", institutions),
         {| errors := errors w ++ [invalid_record closure];
            queries := queries w ++ [QInstitutions tokens] |}))
     ∧ ((∀ t, t ∈ tokens → t ∈ institution_names env) →
        ∃ matched,
          parse env institutions w =
            (Ok (PyList (PyStr <$> matched),
                 Field.set_parsed_value institutions
                   (Some (PyList (PyStr <$> matched)))),
             {| errors := errors w;
                queries := queries w ++ [QInstitutions tokens] |})
          ∧ ∀ t, t ∈ matched ↔ t ∈ tokens)).
Proof.
  intros tokens subjects institutions. split.
  - subst subjects. unfold Cell.field_instance_for.
    rewrite field_class_for_subjects.
    by apply (parse_vocabulary env value rule closure w SubjectsField).
  - subst institutions. unfold Cell.field_instance_for.
    rewrite field_class_for_institutions.
    by apply (parse_vocabulary env value rule closure w InstitutionsField).
Qed.

(** The example of the specification: ["Psychology; NotARealSubject"]
    against a vocabulary without the second subject. *)
Lemma C7_vocabulary_witness :
  parse Sample.env
    (Cell.field_instance_for "subjects" "Psychology; NotARealSubject"
       (metadata_rule "list" (Some true)) Sample.closure) world0
  = (Ok (PyStr "",
         Cell.field_instance_for "subjects" "Psychology; NotARealSubject"
           (metadata_rule "list" (Some true)) Sample.closure),
     {| errors := [invalid_record Sample.closure];
        queries := [QSubjects ["Psychology"; "NotARealSubject"]] |}).
Proof.
  apply (C7_vocabulary_cell_all_or_nothing Sample.env
           "Psychology; NotARealSubject" (metadata_rule "list" (Some true))
           Sample.closure world0).
  exists "NotARealSubject". split; compute_done.
Defined.

(** ** Required fields *)

(** A blank value stays blank when a field constructor strips it. *)
Lemma required_and_empty_blank (self : Field.t) :
  Field.required self = true → Field.value self = "" →
  required_and_empty self = true.
Proof. intros Hr Hv. unfold required_and_empty. by rewrite Hr, Hv. Qed.

(** The four validators that test [required]: a required field with a
    blank value logs one [missing] record and nothing else, makes no
    lookup and has no value. [SubjectsField], [InstitutionsField],
    [CategoryField] and [ProjectIDField] override [_validate] without
    the test. *)
Lemma required_blank_is_missing (env : Env) (self : Field.t) (w : world) :
  Field.class self ∈ [RegistrationResponseField; MetadataField;
                      ContributorField; LicenseField] →
  Field.required self = true →
  Field.value self = "" →
  Field._parsed_value self = None →
  parse env self w =
    (Ok (PyStr "", self),
     {| errors := errors w ++ [missing_record (Field.log_error self)];
        queries := queries w |}).
Proof.
  intros Hc Hr Hv Hp. rewrite parse_uncached by done.
  pose proof (required_and_empty_blank self Hr Hv) as Hre.
  unfold _validate.
  repeat (apply elem_of_cons in Hc as [->|Hc]);
    [ unfold RegistrationResponseField._validate
    | unfold MetadataField._validate
    | unfold ContributorField._validate
    | unfold LicenseField._validate
    | by apply elem_of_nil in Hc ];
    rewrite Hre; unfold bind, log_missing, log_error, ret; simpl;
    by rewrite Hp.
Qed.

(** C3. The required [subjects] field does not take the [missing] path.
    Its rule in the fixed table is required, yet for a blank raw value
    the validator splits the value into the one empty token, queries the
    vocabulary for it and, the empty text not being a subject, logs one
    record with [invalid] set and [missing] unset. *)
Theorem C3_required_subjects_blank_logs_invalid (env : Env) (value : string)
    (closure : log_error_closure) (w : world) :
  strip value = "" →
  "" ∉ subject_texts env →
  let rule := metadata_rule "list" (Some true) in
  let self := Cell.field_instance_for "subjects" value rule closure in
  METADATA_FIELDS !! "subjects" = Some rule
  ∧ Field.required self = true
  ∧ parse env self w =
      (Ok (PyStr "", self),
       {| errors := errors w ++
                    [ {| header := bound_header closure;
                         column_index := bound_column_index closure;
                         row_index := bound_row_index closure;
                         missing := false; invalid := true |} ];
          queries := queries w ++ [QSubjects [""]] |}).
Proof.
  intros Hblank Hnot rule self. split; [by vm_compute|].
  subst self. unfold Cell.field_instance_for.
  rewrite field_class_for_subjects. split; [done|].
  destruct (parse_vocabulary env value rule closure w SubjectsField
              (subject_texts env) QSubjects) as [Hbad _]; [done|].
  rewrite Hblank in Hbad. apply Hbad.
  exists "". split; [|done]. compute_done.
Qed.

(** A subjects cell holding three spaces, against the sample
    vocabulary. *)
Lemma C3_required_subjects_blank_witness :
  parse Sample.env
    (Cell.field_instance_for "subjects" "   "
       (metadata_rule "list" (Some true)) Sample.closure) world0
  = (Ok (PyStr "",
         Cell.field_instance_for "subjects" "   "
           (metadata_rule "list" (Some true)) Sample.closure),
     {| errors := [invalid_record Sample.closure];
        queries := [QSubjects [""]] |}).
Proof.
  apply (C3_required_subjects_blank_logs_invalid Sample.env "   "
           Sample.closure world0); compute_done.
Defined.

(** C2. The memo of [parse] does not hold the outcome without a value.
    For a [title] cell with a blank raw value the first parse logs one
    [missing] record and returns ['']; the field still has no cached
    value, so the second parse validates again: it returns the same
    [''] and appends the same record a second time. *)
Theorem C2_absent_outcome_is_validated_again (env : Env) (value : string)
    (closure : log_error_closure) (w : world) :
  strip value = "" →
  let self :=
    Cell.field_instance_for "title" value
      (metadata_rule "string" (Some true)) closure in
  let once :=
    {| errors := errors w ++ [missing_record closure];
       queries := queries w |} in
  let twice :=
    {| errors := errors w ++ [missing_record closure; missing_record closure];
       queries := queries w |} in
  parse env self w = (Ok (PyStr "", self), once)
  ∧ parse env self once = (Ok (PyStr "", self), twice).
Proof.
  intros Hblank self once twice.
  assert (∀ w', parse env self w' =
                (Ok (PyStr "", self),
                 {| errors := errors w' ++ [missing_record closure];
                    queries := queries w' |})) as Hparse.
  { intros w'. subst self. unfold Cell.field_instance_for.
    rewrite field_class_for_title.
    apply required_blank_is_missing; [set_solver|done|done|done]. }
  split; [apply Hparse|]. rewrite Hparse. subst once twice. simpl.
  by rewrite <- app_assoc.
Qed.

(** A title cell holding one space, parsed twice. *)
Lemma C2_absent_outcome_witness :
  let self :=
    Cell.field_instance_for "title" " "
      (metadata_rule "string" (Some true)) Sample.closure in
  parse Sample.env self world0
  = (Ok (PyStr "", self),
     {| errors := [missing_record Sample.closure]; queries := [] |})
  ∧ parse Sample.env self
      {| errors := [missing_record Sample.closure]; queries := [] |}
    = (Ok (PyStr "", self),
       {| errors := [missing_record Sample.closure;
                     missing_record Sample.closure];
          queries := [] |}).
Proof.
  apply (C2_absent_outcome_is_validated_again Sample.env " "
           Sample.closure world0).
  compute_done.
Defined.

(** The same at the level of the upload: on the sample document with a
    blank title, [validate] logs the missing title (and the answer to
    [q1], which is not an option); [get_parsed] after it logs the
    missing title once more, and not the answer, whose empty list is
    cached. *)
Lemma validate_then_get_parsed_logs_again :
  let title := {| bound_header := "title"; bound_column_index := 0;
                  bound_row_index := 3 |} in
  let validated :=
    (self <- BulkRegistrationUpload.__init__ Sample.env
               Sample.document_blank_title "osf" ;;
     BulkRegistrationUpload.validate Sample.env self)%py in
  let parsed :=
    (self <- validated ;;
     BulkRegistrationUpload.get_parsed Sample.env self)%py in
  errors (validated world0).2
  = [missing_record title; invalid_record Sample.closure]
  ∧ errors (parsed world0).2
    = [missing_record title; invalid_record Sample.closure;
       missing_record title].
Proof. split; by vm_compute. Qed.

(** ** Licenses *)

(** A value the name pattern matches is not empty. *)
Lemma no_required_fields_regex_truthy (s name : string) :
  Regex.no_required_fields_regex s = Some name → truthy s = true.
Proof. by destruct s. Qed.

(** [LicenseField._validate] past the [required] test, for a value
    whose leading name is the name of a license. *)
Lemma license_validate_found (env : Env) (self : Field.t) (w : world)
    (name : string) (node_license : NodeLicense) :
  Regex.no_required_fields_regex (Field.value self) = Some name →
  license_get env name = Some node_license →
  LicenseField._validate env self w =
    (Ok (Field.set_parsed_value self
           (if bool_decide (license_properties node_license ≠ []) then
              match Regex.with_required_fields_regex (Field.value self) with
              | Some (n, year, copyright_holders) =>
                  Some (PyDict
                    [("name", PyStr n);
                     ("required_field",
                      PyDict
                        [("year", PyStr year);
                         ("copyright_holders",
                          PyList (PyStr <$>
                                  split_strip "," copyright_holders))])])
              | None => None
              end
            else Some (PyDict [("name", PyStr name)]))),
     {| errors := errors w; queries := queries w ++ [QLicense name] |}).
Proof.
  intros Hname Hget. unfold LicenseField._validate, required_and_empty.
  rewrite (no_required_fields_regex_truthy _ _ Hname), andb_false_r.
  rewrite Hname. unfold bind, ask_source, ret. simpl. by rewrite Hget.
Qed.

(** [LicenseField._validate] for a value whose leading name is not the
    name of a license. *)
Lemma license_validate_unknown (env : Env) (self : Field.t) (w : world)
    (name : string) :
  Regex.no_required_fields_regex (Field.value self) = Some name →
  license_get env name = None →
  LicenseField._validate env self w =
    (Ok self,
     {| errors := errors w ++ [invalid_record (Field.log_error self)];
        queries := queries w ++ [QLicense name] |}).
Proof.
  intros Hname Hget. unfold LicenseField._validate, required_and_empty.
  rewrite (no_required_fields_regex_truthy _ _ Hname), andb_false_r.
  rewrite Hname. unfold bind, ask_source, ret, log_invalid, log_error.
  simpl. by rewrite Hget.
Qed.

(** Method resolution for a license field. *)
Lemma _validate_license (env : Env) (self : Field.t) :
  Field.class self = LicenseField →
  _validate env self = LicenseField._validate env self.
Proof. intros Hc. unfold _validate. by rewrite Hc. Qed.

(** C8, amended. The name the code looks up is what the pattern
    [[\w ]+] matches at the start of the stripped raw value: its
    longest leading run of word characters and spaces. A license cell
    for which that run is the name of a license that declares required
    properties, and whose stripped value does not match the extended
    pattern, resolves to no value and logs nothing: the parse makes the
    one license lookup, returns [''], caches nothing and leaves the
    error list as it was. *)
Theorem C8_license_extended_mismatch_is_silent (env : Env) (value : string)
    (rule : validation) (closure : log_error_closure) (w : world)
    (name : string) (node_license : NodeLicense) :
  Regex.no_required_fields_regex (strip value) = Some name →
  license_get env name = Some node_license →
  license_properties node_license ≠ [] →
  Regex.with_required_fields_regex (strip value) = None →
  let self := Cell.field_instance_for "license" value rule closure in
  parse env self w =
    (Ok (PyStr "", self),
     {| errors := errors w; queries := queries w ++ [QLicense name] |})
  ∧ Field._parsed_value self = None.
Proof.
  intros Hname Hget Hprops Hext self. split; [|done].
  subst self. unfold Cell.field_instance_for.
  rewrite field_class_for_license. rewrite parse_uncached by done.
  rewrite _validate_license by done.
  erewrite license_validate_found by done.
  rewrite bool_decide_true by done. simpl Field.value. by rewrite Hext.
Qed.

(** ['No license'] declares required properties; a raw value that only
    names it is dropped without a record. *)
Lemma C8_license_extended_mismatch_witness :
  let self :=
    Cell.field_instance_for "license" "No license"
      (metadata_rule "object" (Some true)) Sample.closure in
  parse Sample.env self world0
  = (Ok (PyStr "", self),
     {| errors := []; queries := [QLicense "No license"] |})
  ∧ Field._parsed_value self = None.
Proof.
  apply (C8_license_extended_mismatch_is_silent Sample.env "No license"
           (metadata_rule "object" (Some true)) Sample.closure world0
           "No license"
           {| license_name := "No license";
              license_properties := ["year"; "copyrightHolders"] |});
    compute_done.
Defined.

(** C8, as the claim has it, fails on two raw values that begin with
    the name of a sample license declaring required properties and do
    not match the extended pattern. For ['CC-BY'] the leading run stops
    at the hyphen and for ['No license 2020'] it runs past the name, so
    the name looked up (['CC'], ['No license 2020']) is not a license,
    and the parse logs one [invalid] record. *)
Lemma C8_license_extended_mismatch_counterexample :
  (String.prefix "CC-BY" "CC-BY" = true
   ∧ license_get Sample.env "CC-BY"
     = Some {| license_name := "CC-BY";
               license_properties := ["year"; "copyrightHolders"] |}
   ∧ Regex.with_required_fields_regex (strip "CC-BY") = None
   ∧ parse Sample.env
       (Cell.field_instance_for "license" "CC-BY"
          (metadata_rule "object" (Some true)) Sample.closure) world0
     = (Ok (PyStr "",
            Cell.field_instance_for "license" "CC-BY"
              (metadata_rule "object" (Some true)) Sample.closure),
        {| errors := [invalid_record Sample.closure];
           queries := [QLicense "CC"] |}))
  ∧ (String.prefix "No license" "No license 2020" = true
     ∧ license_get Sample.env "No license"
       = Some {| license_name := "No license";
                 license_properties := ["year"; "copyrightHolders"] |}
     ∧ Regex.with_required_fields_regex (strip "No license 2020") = None
     ∧ parse Sample.env
         (Cell.field_instance_for "license" "No license 2020"
            (metadata_rule "object" (Some true)) Sample.closure) world0
       = (Ok (PyStr "",
              Cell.field_instance_for "license" "No license 2020"
                (metadata_rule "object" (Some true)) Sample.closure),
          {| errors := [invalid_record Sample.closure];
             queries := [QLicense "No license 2020"] |})).
Proof. repeat split; by vm_compute. Qed.

(** C4. The two license examples. ['MIT'] against a license of that
    name without required properties yields the dict with the name. For
    ['CC-BY; 2020; Jane Doe, John Roe'] the name pattern [[\w ]+] stops
    at the hyphen: the license looked up is ['CC'], so with the sample
    licenses (among them ['CC-BY'], with required properties) the cell
    logs one [invalid] record and has no value, and whatever the
    licenses are, a value, if there is one, is the dict of the name
    ['CC']. With a name free of hyphens the extended pattern matches,
    and the year it captures begins with the space that follows the
    semicolon. *)
Theorem C4_license_examples :
  let license value :=
    Cell.field_instance_for "license" value
      (metadata_rule "object" (Some true)) Sample.closure in
  (∀ (env : Env) (w : world) (mit : NodeLicense),
     license_get env "MIT" = Some mit →
     license_properties mit = [] →
     parse env (license "MIT") w =
       (Ok (PyDict [("name", PyStr "MIT")],
            Field.set_parsed_value (license "MIT")
              (Some (PyDict [("name", PyStr "MIT")]))),
        {| errors := errors w; queries := queries w ++ [QLicense "MIT"] |}))
  ∧ parse Sample.env (license "CC-BY; 2020; Jane Doe, John Roe") world0 =
      (Ok (PyStr "", license "CC-BY; 2020; Jane Doe, John Roe"),
       {| errors := [invalid_record Sample.closure];
          queries := [QLicense "CC"] |})
  ∧ (∀ (env : Env) (w w' : world) (v : pyval) (self' : Field.t),
       parse env (license "CC-BY; 2020; Jane Doe, John Roe") w =
         (Ok (v, self'), w') →
       v = PyStr "" ∨ v = PyDict [("name", PyStr "CC")])
  ∧ (parse Sample.env (license "CCBY; 2020; Jane Doe, John Roe") world0).1 =
      Ok (PyDict
            [("name", PyStr "CCBY");
             ("required_field",
              PyDict [("year", PyStr " 2020");
                      ("copyright_holders",
                       PyList [PyStr "Jane Doe"; PyStr "John Roe"])])],
          Field.set_parsed_value (license "CCBY; 2020; Jane Doe, John Roe")
            (Some (PyDict
               [("name", PyStr "CCBY");
                ("required_field",
                 PyDict [("year", PyStr " 2020");
                         ("copyright_holders",
                          PyList [PyStr "Jane Doe"; PyStr "John Roe"])])]))).
Proof.
  intros license. split; [|split; [|split]].
  - intros env w mit Hget Hprops.
    rewrite parse_uncached, _validate_license by done.
    erewrite license_validate_found; [|by vm_compute|done].
    by rewrite Hprops.
  - by vm_compute.
  - intros env w w' v self' Hparse.
    assert (Regex.no_required_fields_regex
              (Field.value (license "CC-BY; 2020; Jane Doe, John Roe"))
            = Some "CC") as Hname by (by vm_compute).
    assert (Regex.with_required_fields_regex
              (Field.value (license "CC-BY; 2020; Jane Doe, John Roe"))
            = None) as Hext by (by vm_compute).
    assert (Field._parsed_value (license "CC-BY; 2020; Jane Doe, John Roe")
            = None) as Hnone by (by vm_compute).
    assert (Field.class (license "CC-BY; 2020; Jane Doe, John Roe")
            = LicenseField) as Hclass by (by vm_compute).
    revert Hparse Hname Hext Hnone Hclass.
    generalize (license "CC-BY; 2020; Jane Doe, John Roe").
    intros self Hparse Hname Hext Hnone Hclass.
    rewrite parse_uncached, _validate_license in Hparse by done.
    destruct (license_get env "CC") as [cc|] eqn:Hget.
    + erewrite license_validate_found in Hparse by done.
      rewrite Hext in Hparse.
      destruct (bool_decide _); simpl in Hparse; simplify_eq; auto.
    + erewrite license_validate_unknown in Hparse by done.
      rewrite Hnone in Hparse. simplify_eq. auto.
  - by vm_compute.
Qed.

(** ** Questionnaire responses *)

Section Multiselect.

Context (self : Field.t).

Let record : ErrorRecord := invalid_record (Field.log_error self).

(** Tokens outside the options are each logged, and the loop goes on. *)
Lemma multiselect_loop_invalid (bad : list string) (w : world) :
  Forall (λ c, c ∉ Field.options self) bad →
  for_each bad (RegistrationResponseField.multiselect_step self) w
  = (Ok (), {| errors := errors w ++ replicate (length bad) record;
               queries := queries w |}).
Proof.
  intros Hbad. revert w. induction Hbad as [|c bad Hc _ IH]; intros w.
  - simpl. unfold ret. rewrite app_nil_r. by destruct w.
  - simpl. unfold bind.
    unfold RegistrationResponseField.multiselect_step at 1.
    rewrite decide_True by done.
    unfold log_invalid, log_error at 1. simpl.
    rewrite IH. simpl. by rewrite <- app_assoc.
Qed.

(** The first token that is among the options ends the loop with a
    [NameError]. *)
Lemma multiselect_loop_raises (bad rest : list string) (good : string)
    (w : world) :
  Forall (λ c, c ∉ Field.options self) bad →
  good ∈ Field.options self →
  for_each (bad ++ good :: rest)
    (RegistrationResponseField.multiselect_step self) w
  = (Raise (NameError "parse_value"),
     {| errors := errors w ++ replicate (length bad) record;
        queries := queries w |}).
Proof.
  intros Hbad Hgood. revert w.
  induction Hbad as [|c bad Hc _ IH]; intros w.
  - simpl. unfold bind.
    unfold RegistrationResponseField.multiselect_step at 1.
    rewrite decide_False by (by intros ?). unfold raise.
    rewrite app_nil_r. by destruct w.
  - simpl. unfold bind.
    unfold RegistrationResponseField.multiselect_step at 1.
    rewrite decide_True by done.
    unfold log_invalid, log_error at 1. simpl.
    rewrite IH. simpl. by rewrite <- app_assoc.
Qed.

End Multiselect.

(** A list with an element satisfying a decidable property splits at the
    first such element. *)
Lemma split_at_first {A} (P : A → Prop) `{∀ x, Decision (P x)} (l : list A) :
  (∃ x, x ∈ l ∧ P x) →
  ∃ bad good rest,
    l = bad ++ good :: rest ∧ Forall (λ x, ¬ P x) bad ∧ P good.
Proof.
  induction l as [|a l IH]; intros (x & Hin & HP).
  - by apply elem_of_nil in Hin.
  - destruct (decide (P a)) as [Ha|Ha].
    + by exists [], a, l.
    + apply elem_of_cons in Hin as [->|Hin]; [done|].
      destruct IH as (bad & good & rest & -> & Hbad & Hgood); [by eauto|].
      exists (a :: bad), good, rest. split; [done|]. split; [|done].
      by constructor.
Qed.

(** Method resolution for a questionnaire field. *)
Lemma _validate_response (env : Env) (self : Field.t) :
  Field.class self = RegistrationResponseField →
  _validate env self = RegistrationResponseField._validate self.
Proof. intros Hc. unfold _validate. by rewrite Hc. Qed.

(** [RegistrationResponseField._validate] in the multi-select branch:
    the loop over the choices, then the assignment of the empty list. *)
Lemma response_validate_multiselect (self : Field.t) (w : world) :
  required_and_empty self = false →
  Field.type self = "choose" →
  Field.format self = Some "multiselect" →
  RegistrationResponseField._validate self w =
    match for_each (split_strip ";" (Field.value self))
            (RegistrationResponseField.multiselect_step self) w with
    | (Ok _, w') =>
        (Ok (Field.set_parsed_value self (Some (PyList []))), w')
    | (Raise e, w') => (Raise e, w')
    end.
Proof.
  intros Hre Htype Hformat. unfold RegistrationResponseField._validate.
  rewrite Hre, Htype, Hformat.
  rewrite decide_False by done.
  rewrite decide_True by (split; [done|set_solver]).
  rewrite decide_False by done.
  unfold bind, ret.
  by destruct (for_each _ _ w) as [[[]|e] w'].
Qed.

(** When no token is among the options, the multi-select parse logs one
    [invalid] record per token and returns the empty list. *)
Lemma multiselect_all_invalid (env : Env) (self : Field.t) (w : world) :
  Field.class self = RegistrationResponseField →
  Field._parsed_value self = None →
  required_and_empty self = false →
  Field.type self = "choose" →
  Field.format self = Some "multiselect" →
  Forall (λ c, c ∉ Field.options self)
         (split_strip ";" (Field.value self)) →
  parse env self w =
    (Ok (PyList [], Field.set_parsed_value self (Some (PyList []))),
     {| errors :=
          errors w ++
          replicate (length (split_strip ";" (Field.value self)))
                    (invalid_record (Field.log_error self));
        queries := queries w |}).
Proof.
  intros Hc Hp Hre Htype Hformat Hbad.
  rewrite parse_uncached, _validate_response by done.
  rewrite response_validate_multiselect by done.
  by rewrite multiselect_loop_invalid.
Qed.

(** C1. A multi-select cell with a token among the allowed options does
    not come back from [parse]. The tokens before the first allowed one
    are each logged as [invalid]; at the first allowed token the
    validator appends to [parse_value], a name that is not bound, and
    the parse ends with a [NameError], no list being returned. *)
Theorem C1_multiselect_valid_token_raises (env : Env) (name value : string)
    (required : bool) (opts : list string) (closure : log_error_closure)
    (w : world) :
  name ∉ dom METADATA_FIELDS →
  (required = true → strip value ≠ "") →
  (∃ choice, choice ∈ split_strip ";" (strip value) ∧ choice ∈ opts) →
  let rule :=
    {| v_required := Some required; v_format := Some "multiselect";
       v_type := Some "choose"; v_options := Some opts |} in
  let self := Cell.field_instance_for name value rule closure in
  ∃ bad good rest,
    split_strip ";" (strip value) = bad ++ good :: rest
    ∧ Forall (λ c, c ∉ opts) bad
    ∧ good ∈ opts
    ∧ parse env self w =
        (Raise (NameError "parse_value"),
         {| errors := errors w ++
                      replicate (length bad) (invalid_record closure);
            queries := queries w |}).
Proof.
  intros Hname Hreq Hsome rule self.
  apply (split_at_first (λ c, c ∈ opts)) in Hsome
    as (bad & good & rest & Hsplit & Hbad & Hgood).
  exists bad, good, rest. repeat split; [done|done|done|].
  subst self. unfold Cell.field_instance_for.
  rewrite field_class_for_question by done.
  rewrite parse_uncached, _validate_response by done.
  rewrite response_validate_multiselect; [|
    unfold required_and_empty; simpl;
    destruct required; [|done];
    by destruct (strip value) eqn:Hs; [destruct Hreq|] | done | done].
  simpl Field.value. rewrite Hsplit.
  by rewrite multiselect_loop_raises.
Qed.

(** The question [q1] of the sample schema allows ["a"] and ["b"]; the
    answer ["a"] raises. *)
Lemma C1_multiselect_witness :
  ∃ bad good rest,
    split_strip ";" (strip "a") = bad ++ good :: rest
    ∧ Forall (λ c, c ∉ ["a"; "b"]) bad
    ∧ good ∈ ["a"; "b"]
    ∧ parse Sample.env
        (Cell.field_instance_for "q1" "a"
           {| v_required := Some false; v_format := Some "multiselect";
              v_type := Some "choose"; v_options := Some ["a"; "b"] |}
           Sample.closure) world0
      = (Raise (NameError "parse_value"),
         {| errors := [] ++ replicate (length bad)
                                      (invalid_record Sample.closure);
            queries := [] |}).
Proof.
  apply (C1_multiselect_valid_token_raises Sample.env "q1" "a" false
           ["a"; "b"] Sample.closure world0).
  - compute_done.
  - intros H. discriminate H.
  - exists "a". split; compute_done.
Defined.

(** ** Construction of the upload *)

Section Construction.

Context (env : Env) (provider_id : string).

Let unassigned : exn :=
  AttributeError
    "'BulkRegistrationUpload' object has no attribute 'registration_schema'".

(** [__init__] when the schema-id row holds a string without
    characters: the [if] is skipped, nothing is looked up, and the
    read of [self.registration_schema] fails. *)
Lemma init_schema_id_empty (csv : list (list string))
    (headers : list string) (data_rows : list (nat * row_dict))
    (w : world) :
  BulkRegistrationUpload.open_reader csv = Ok (headers, Some "", data_rows) →
  BulkRegistrationUpload.__init__ env csv provider_id w
  = (Raise unassigned, w).
Proof.
  intros Hopen. unfold BulkRegistrationUpload.__init__, bind, lift.
  by rewrite Hopen.
Qed.

(** [__init__] when the provider cannot be loaded: whichever way
    [load] signals it, what is raised is an [AttributeError], after
    the one provider lookup. *)
Lemma init_provider_unknown (csv : list (list string))
    (headers : list string) (id : string)
    (data_rows : list (nat * row_dict)) (w : world) :
  BulkRegistrationUpload.open_reader csv = Ok (headers, Some id, data_rows) →
  truthy id = true →
  (∀ p, provider_load env provider_id ≠ Loaded p) →
  ∃ what,
    BulkRegistrationUpload.__init__ env csv provider_id w
    = (Raise (AttributeError what),
       {| errors := errors w;
          queries := queries w ++ [QProvider provider_id] |})
    ∧ what ∈ ["'NoneType' object has no attribute 'schemas'";
              "'NotFound' object has no attribute 'format'"].
Proof.
  intros Hopen Hid Hload.
  unfold BulkRegistrationUpload.__init__, bind, lift. rewrite Hopen.
  unfold BulkRegistrationUpload.assign_schema. rewrite Hid.
  unfold BulkRegistrationUpload.lookup, bind, ask_source, raise.
  destruct (provider_load env provider_id) as [p| |] eqn:Hp.
  - by destruct (Hload p).
  - eexists. split; [done|set_solver].
  - eexists. split; [done|set_solver].
Qed.

(** [__init__] when the provider is found and has no schema of the id
    read: [NotFound], after the two lookups. *)
Lemma init_schema_unknown (csv : list (list string))
    (headers : list string) (id : string)
    (data_rows : list (nat * row_dict)) (w : world)
    (p : RegistrationProvider) :
  BulkRegistrationUpload.open_reader csv = Ok (headers, Some id, data_rows) →
  truthy id = true →
  provider_load env provider_id = Loaded p →
  schemas_get p id = None →
  BulkRegistrationUpload.__init__ env csv provider_id w
  = (Raise (NotFound ("Schema with id " ++ dquote ++ id ++ dquote
                      ++ " was not found")%string),
     {| errors := errors w;
        queries := queries w ++ [QProvider provider_id; QSchema id] |}).
Proof.
  intros Hopen Hid Hload Hget.
  unfold BulkRegistrationUpload.__init__, bind, lift. rewrite Hopen.
  unfold BulkRegistrationUpload.assign_schema. rewrite Hid.
  unfold BulkRegistrationUpload.lookup, bind, ask_source, raise.
  rewrite Hload. simpl. rewrite Hget. by rewrite <- app_assoc.
Qed.

(** [__init__] once the schema is found: the error list is emptied
    and the rows are built from the merged rules. *)
Lemma init_resolved (csv : list (list string))
    (headers : list string) (id : string)
    (data_rows : list (nat * row_dict)) (w : world)
    (p : RegistrationProvider) (schema : RegistrationSchema) :
  BulkRegistrationUpload.open_reader csv = Ok (headers, Some id, data_rows) →
  truthy id = true →
  provider_load env provider_id = Loaded p →
  schemas_get p id = Some schema →
  let validations :=
    METADATA_FIELDS ∪ BulkRegistrationUpload.get_questions_validations schema in
  BulkRegistrationUpload.__init__ env csv provider_id w
  = match for_list data_rows (λ r, Row.__init__ r.2 validations r.1)
            {| errors := [];
               queries := queries w ++ [QProvider provider_id; QSchema id] |}
    with
    | (Ok rows, w') =>
        (Ok {| BulkRegistrationUpload.headers := headers;
               BulkRegistrationUpload.schema_id := Some id;
               BulkRegistrationUpload.provider_id := provider_id;
               BulkRegistrationUpload.registration_schema := schema;
               BulkRegistrationUpload.schema_questions :=
                 BulkRegistrationUpload.get_questions_validations schema;
               BulkRegistrationUpload.validations := validations;
               BulkRegistrationUpload.rows := rows |}, w')
    | (Raise e, w') => (Raise e, w')
    end.
Proof.
  intros Hopen Hid Hload Hget validations.
  unfold BulkRegistrationUpload.__init__, bind, lift. rewrite Hopen.
  unfold BulkRegistrationUpload.assign_schema. rewrite Hid.
  unfold BulkRegistrationUpload.lookup, bind, ask_source, raise, ret.
  rewrite Hload. simpl. rewrite Hget.
  unfold BulkRegistrationUpload.reset_errors. simpl.
  rewrite <- app_assoc. simpl.
  by destruct (for_list data_rows _ _) as [[rows|e] w'].
Qed.

End Construction.

(** ** Reading the schema id *)

Lemma dict_get_set_ne {K V} `{EqDecision K} (k k' : K) (v : V)
    (d : list (K * V)) :
  k ≠ k' → dict_get k (dict_set k' v d) = dict_get k d.
Proof.
  intros Hne. induction d as [|[k0 v0] d IH]; simpl.
  - by rewrite decide_False.
  - destruct (decide (k' = k0)) as [->|Hk0]; simpl.
    + by rewrite !decide_False.
    + by rewrite IH.
Qed.

Lemma dict_get_set_eq {K V} `{EqDecision K} (k : K) (v : V)
    (d : list (K * V)) :
  dict_get k (dict_set k v d) = Some v.
Proof.
  induction d as [|[k0 v0] d IH]; simpl.
  - by rewrite decide_True.
  - destruct (decide (k = k0)) as [->|Hk0]; simpl.
    + by rewrite decide_True.
    + by rewrite decide_False.
Qed.

(** Zipping leaves the value of a key that is not among the field names
    zipped. *)
Lemma zip_dict_get_other (first : string) (fieldnames row : list string)
    (d : row_dict) :
  first ∉ fieldnames →
  dict_get (Some first) (DictReader.zip_dict fieldnames row d)
  = dict_get (Some first) d.
Proof.
  revert row d. induction fieldnames as [|f fs IH]; intros row d Hnot.
  - by destruct row.
  - destruct row as [|v vs]; [done|]. simpl.
    rewrite IH by set_solver. apply dict_get_set_ne. set_solver.
Qed.

Lemma fill_get_other (first : string) (keys : list string) (d : row_dict) :
  first ∉ keys →
  dict_get (Some first)
    (foldl (λ acc key, dict_set (Some key) CsvNone acc) d keys)
  = dict_get (Some first) d.
Proof.
  revert d. induction keys as [|k ks IH]; intros d Hnot; [done|].
  simpl. rewrite IH by set_solver. apply dict_get_set_ne. set_solver.
Qed.

(** When the first field name is not repeated in the header row, the
    schema id is the first field of the first non-blank line after the
    header row. *)
Lemma schema_id_is_first_column (first : string) (others : list string)
    (c : string) (cells : list string) (rest : list (list string)) :
  first ∉ others →
  BulkRegistrationUpload.open_reader
    ((first :: others) :: (c :: cells) :: rest)
  = Ok (lower <$> first :: others, Some c,
        DictReader.iterate (first :: others) 3 rest).
Proof.
  intros Hnot. unfold BulkRegistrationUpload.open_reader.
  cbn [DictReader.iterate].
  assert (dict_get (Some first)
            (DictReader.to_dict (first :: others) (c :: cells))
          = Some (CsvStr c)) as ->; [|done].
  unfold DictReader.to_dict. cbn [DictReader.zip_dict dict_set].
  assert (dict_get (Some first)
            (DictReader.zip_dict others cells [(Some first, CsvStr c)])
          = Some (CsvStr c)) as Hzip.
  { rewrite zip_dict_get_other by done. simpl. by rewrite decide_True. }
  repeat case_decide.
  - by rewrite dict_get_set_ne.
  - rewrite fill_get_other; [done|].
    intros Hin. apply Hnot. cbn [length drop] in Hin.
    by apply (subseteq_drop (length cells) others).
  - done.
Qed.

(** Blank lines before the first data line are skipped, and counted. *)
Lemma iterate_skips_blanks (fieldnames : list string) (line_num k : nat)
    (lines : list (list string)) :
  DictReader.iterate fieldnames line_num (replicate k [] ++ lines)
  = DictReader.iterate fieldnames (k + line_num) lines.
Proof.
  revert line_num. induction k as [|k IH]; intros n; [done|].
  cbn [replicate app DictReader.iterate]. rewrite IH. f_equal. lia.
Qed.

(** The same after any number of blank lines. *)
Lemma schema_id_after_blanks (first : string) (others : list string)
    (k : nat) (c : string) (cells : list string)
    (rest : list (list string)) :
  first ∉ others →
  BulkRegistrationUpload.open_reader
    ((first :: others) :: replicate k [] ++ (c :: cells) :: rest)
  = Ok (lower <$> first :: others, Some c,
        DictReader.iterate (first :: others) (S (k + 2)) rest).
Proof.
  intros Hnot.
  pose proof (schema_id_is_first_column first others c cells [] Hnot)
    as Hfirst.
  unfold BulkRegistrationUpload.open_reader in Hfirst |- *.
  rewrite iterate_skips_blanks. cbn [DictReader.iterate] in Hfirst |- *.
  destruct (dict_get (Some first)
              (DictReader.to_dict (first :: others) (c :: cells)))
    as [v|]; [|done].
  injection Hfirst as Hv. by rewrite Hv.
Qed.

(** C10, amended. The schema id the code reads is the value the first
    data line holds under the first header name, which is its first
    column only when that name is not repeated later in the header row
    (of two columns with one name the dict keeps the last). With a
    first header name that is not repeated: when the first column of
    the first data line (the first non-blank line after the header row)
    is empty, construction makes no lookup at all (the lookup log and
    the error list are left as they were, so no ['... was not found']
    error can arise) and ends with the [AttributeError] of reading
    [registration_schema], which was never assigned. *)
Theorem C10_empty_schema_id_skips_lookup (env : Env)
    (first : string) (others : list string) (blank_lines : nat)
    (cells : list string) (rest : list (list string))
    (provider_id : string) (w : world) :
  first ∉ others →
  BulkRegistrationUpload.__init__ env
    ((first :: others) :: replicate blank_lines [] ++ ("" :: cells) :: rest)
    provider_id w
  = (Raise (AttributeError
       "'BulkRegistrationUpload' object has no attribute 'registration_schema'"),
     w).
Proof.
  intros Hnot.
  by apply (init_schema_id_empty env provider_id _ _ _ w
              (schema_id_after_blanks first others blank_lines "" cells
                 rest Hnot)).
Qed.

(** The sample document whose schema-id row starts with an empty field. *)
Lemma C10_empty_schema_id_witness :
  BulkRegistrationUpload.__init__ Sample.env Sample.document_no_schema_id
    "osf" world0
  = (Raise (AttributeError
       "'BulkRegistrationUpload' object has no attribute 'registration_schema'"),
     world0).
Proof.
  apply (C10_empty_schema_id_skips_lookup Sample.env
           "Title" (drop 1 Sample.header_row) 0 ["x"]
           [Sample.registration_row] "osf" world0).
  compute_done.
Defined.

(** C10, as the claim has it, fails on a header row that repeats its
    first name: the first column of the first data line is empty, yet
    the schema id read is the second field. Both lookups are made; with
    a schema the provider has, construction succeeds, and with one it
    does not have, it ends in the schema's [NotFound]. *)
Lemma C10_empty_schema_id_counterexample :
  (head <$> Sample.document_repeated_header !! 1 = Some (Some "")
   ∧ ∃ self,
       BulkRegistrationUpload.__init__ Sample.env
         Sample.document_repeated_header "osf" world0
       = (Ok self,
          {| errors := [];
             queries := [QProvider "osf"; QSchema "schema-1"] |})
       ∧ BulkRegistrationUpload.schema_id self = Some "schema-1")
  ∧ (head <$> Sample.document_repeated_header_unknown !! 1 = Some (Some "")
     ∧ BulkRegistrationUpload.__init__ Sample.env
         Sample.document_repeated_header_unknown "osf" world0
       = (Raise (NotFound ("Schema with id " ++ dquote ++ "schema-0"
                           ++ dquote ++ " was not found")%string),
          {| errors := [];
             queries := [QProvider "osf"; QSchema "schema-0"] |})).
Proof.
  split; (split; [reflexivity|]).
  - destruct (BulkRegistrationUpload.__init__ Sample.env
                Sample.document_repeated_header "osf" world0)
      as [[self|e] w1] eqn:Hinit; [|by vm_compute in Hinit].
    exists self. vm_compute in Hinit. by simplify_eq.
  - by vm_compute.
Qed.

(** C5. Of the two failed lookups only the schema's ends in [NotFound].
    With a non-empty schema id read from the document: when the provider
    id does not resolve, construction ends, after the one provider
    lookup and with the error list untouched, in an [AttributeError] (of
    [None.schemas] when [load] returns [None], of [NotFound(...).format]
    when [load] raises), not in a [NotFound] with the provider detail;
    when the provider resolves and has no schema of that id, it ends in
    [NotFound] with detail [Schema with id "<id>" was not found]. *)
Theorem C5_unknown_provider_is_attribute_error (env : Env)
    (csv : list (list string)) (provider_id : string)
    (headers : list string) (id : string)
    (data_rows : list (nat * row_dict)) (w : world) :
  BulkRegistrationUpload.open_reader csv = Ok (headers, Some id, data_rows) →
  truthy id = true →
  ((∀ p, provider_load env provider_id ≠ Loaded p) →
   ∃ what,
     BulkRegistrationUpload.__init__ env csv provider_id w
     = (Raise (AttributeError what),
        {| errors := errors w;
           queries := queries w ++ [QProvider provider_id] |})
     ∧ what ∈ ["'NoneType' object has no attribute 'schemas'";
               "'NotFound' object has no attribute 'format'"])
  ∧ (∀ p, provider_load env provider_id = Loaded p →
          schemas_get p id = None →
          BulkRegistrationUpload.__init__ env csv provider_id w
          = (Raise (NotFound ("Schema with id " ++ dquote ++ id ++ dquote
                              ++ " was not found")%string),
             {| errors := errors w;
                queries := queries w ++
                           [QProvider provider_id; QSchema id] |})).
Proof.
  intros Hopen Hid. split.
  - by eapply init_provider_unknown.
  - intros p Hload Hget. by eapply init_schema_unknown.
Qed.

(** The sample document uploaded for a provider that does not exist,
    with a [load] that raises. *)
Lemma C5_unknown_provider_witness :
  ∃ what,
    BulkRegistrationUpload.__init__ Sample.env_raising Sample.document
      "no-such-provider" world0
    = (Raise (AttributeError what),
       {| errors := []; queries := [] ++ [QProvider "no-such-provider"] |})
    ∧ what ∈ ["'NoneType' object has no attribute 'schemas'";
              "'NotFound' object has no attribute 'format'"].
Proof.
  apply (C5_unknown_provider_is_attribute_error Sample.env_raising
           Sample.document "no-such-provider"
           (lower <$> Sample.header_row) "schema-1"
           [(3, DictReader.to_dict Sample.header_row
                  Sample.registration_row)] world0).
  - by vm_compute.
  - reflexivity.
  - intros p. by vm_compute.
Defined.

(** ** Building rows has no effect *)

Lemma make_cells_world (validations : gmap string validation)
    (row_index column_index : nat) (items : row_dict) (w : world) :
  (Row.make_cells validations row_index column_index items w).2 = w.
Proof.
  revert column_index. induction items as [|[k v] items IH];
    intros column_index; [done|].
  simpl. unfold bind, Row.make_cell. simpl.
  destruct k as [h|]; [|done].
  destruct (validations !! lower h) as [rule|]; [|done].
  destruct v; [|done|done]. simpl.
  specialize (IH (S column_index)).
  by destruct (Row.make_cells _ _ _ items w) as [[cells|e] w'].
Qed.

Lemma rows_world (validations : gmap string validation)
    (data_rows : list (nat * row_dict)) (w : world) :
  (for_list data_rows (λ r, Row.__init__ r.2 validations r.1) w).2 = w.
Proof.
  induction data_rows as [|[n d] data_rows IH]; [done|].
  simpl. unfold bind, Row.__init__ at 1, bind. simpl.
  pose proof (make_cells_world validations n 0 d w) as Hcells.
  destruct (Row.make_cells validations n 0 d w) as [[cells|e] w'];
    simpl in Hcells; subst w'; [|done].
  simpl. by destruct (for_list data_rows _ w) as [[rows|e] w'].
Qed.

(** What a successful [open_reader] has read. *)
Lemma open_reader_ok (csv : list (list string)) (headers : list string)
    (schema_id : option string) (data_rows : list (nat * row_dict)) :
  BulkRegistrationUpload.open_reader csv = Ok (headers, schema_id, data_rows) →
  ∃ fieldnames lines,
    csv = fieldnames :: lines ∧ headers = lower <$> fieldnames.
Proof.
  unfold BulkRegistrationUpload.open_reader. intros Hopen.
  destruct csv as [|fieldnames lines]; [done|].
  exists fieldnames, lines. split; [done|].
  destruct (DictReader.iterate fieldnames 2 lines) as [|[n d] rest]; [done|].
  destruct fieldnames as [|first others]; [done|].
  destruct (dict_get (Some first) d); by simplify_eq.
Qed.

(** What a successful construction has built: the headers are the
    lower-cased header row, the rules are the fixed table laid over the
    rules of the schema's questions, and the error list is empty. *)
Lemma init_ok (env : Env) (csv : list (list string)) (provider_id : string)
    (w0 w1 : world) (self : BulkRegistrationUpload.t) :
  BulkRegistrationUpload.__init__ env csv provider_id w0 = (Ok self, w1) →
  (∃ fieldnames lines,
     csv = fieldnames :: lines
     ∧ BulkRegistrationUpload.headers self = lower <$> fieldnames)
  ∧ BulkRegistrationUpload.validations self
    = METADATA_FIELDS ∪
      BulkRegistrationUpload.get_questions_validations
        (BulkRegistrationUpload.registration_schema self)
  ∧ errors w1 = [].
Proof.
  unfold BulkRegistrationUpload.__init__, bind, lift. intros Hinit.
  destruct (BulkRegistrationUpload.open_reader csv)
    as [[[headers schema_id] data_rows]|e] eqn:Hopen; [|done].
  apply open_reader_ok in Hopen.
  destruct (BulkRegistrationUpload.assign_schema env provider_id schema_id w0)
    as [[[schema|]|e] w'] eqn:Hassign; [|done|done].
  unfold BulkRegistrationUpload.reset_errors, ret in Hinit. simpl in Hinit.
  match type of Hinit with
  | context [for_list data_rows ?f ?w] =>
      pose proof (rows_world
                    (METADATA_FIELDS ∪
                     BulkRegistrationUpload.get_questions_validations schema)
                    data_rows w) as Hrows;
      destruct (for_list data_rows f w) as [[rows|e] w2]
  end; [|done].
  simpl in Hrows. simplify_eq. by simpl.
Qed.

(** The header check passes exactly when every expected header is among
    the actual ones; headers that are not expected play no part. *)
Lemma header_check_passes (self : BulkRegistrationUpload.t) (w : world) :
  BulkRegistrationUpload.validate_csv_header_list self w = (Ok (), w)
  ↔ ∀ h, h ∈ dom (BulkRegistrationUpload.validations self) →
         h ∈ BulkRegistrationUpload.headers self.
Proof.
  unfold BulkRegistrationUpload.validate_csv_header_list,
    BulkRegistrationUpload.missing_headers.
  destruct (decide (size _ ≠ 0)) as [Hsize|Hsize]; split; try done.
  - intros Hall. exfalso. apply Hsize. apply size_empty_iff.
    intros h. rewrite elem_of_difference, elem_of_list_to_set.
    split; [|set_solver]. intros [Hin Hout]. by apply Hall in Hin.
  - intros _ h Hin. apply dec_stable. intros Hout. apply Hsize.
    apply size_non_empty_iff. intros Hempty.
    apply (not_elem_of_empty (C:=gset string) h). rewrite <- Hempty.
    by rewrite elem_of_difference, elem_of_list_to_set.
Qed.

(** With an expected header missing the check raises, touching neither
    the error list nor the lookup log. *)
Lemma header_check_raises (self : BulkRegistrationUpload.t) (w : world)
    (h : string) :
  h ∈ dom (BulkRegistrationUpload.validations self) →
  h ∉ BulkRegistrationUpload.headers self →
  h ∈ BulkRegistrationUpload.missing_headers self
  ∧ BulkRegistrationUpload.validate_csv_header_list self w
    = (Raise (ValidationError (BulkRegistrationUpload.missing_headers self)),
       w).
Proof.
  intros Hin Hout.
  assert (h ∈ BulkRegistrationUpload.missing_headers self) as Hmissing.
  { unfold BulkRegistrationUpload.missing_headers.
    by rewrite elem_of_difference, elem_of_list_to_set. }
  split; [done|].
  unfold BulkRegistrationUpload.validate_csv_header_list.
  rewrite decide_True; [done|].
  apply size_non_empty_iff. intros Hempty. rewrite Hempty in Hmissing.
  by apply not_elem_of_empty in Hmissing.
Qed.

(** C6. A document whose header row lacks an expected header (a fixed
    metadata field name, or a question id or nested question id of the
    schema) is refused as a whole. Construction has logged nothing;
    [validate] raises the header error, which lists the missing header,
    and leaves the error list and the lookup log as construction left
    them: no row and no cell is validated, no record is produced. *)
Theorem C6_missing_header_is_fatal (env : Env) (csv : list (list string))
    (provider_id : string) (w0 w1 : world)
    (self : BulkRegistrationUpload.t) (h : string) :
  BulkRegistrationUpload.__init__ env csv provider_id w0 = (Ok self, w1) →
  h ∈ dom METADATA_FIELDS
  ∨ h ∈ dom (BulkRegistrationUpload.get_questions_validations
               (BulkRegistrationUpload.registration_schema self)) →
  h ∉ lower <$> default [] (head csv) →
  errors w1 = []
  ∧ h ∈ BulkRegistrationUpload.missing_headers self
  ∧ BulkRegistrationUpload.validate env self w1
    = (Raise (ValidationError (BulkRegistrationUpload.missing_headers self)),
       w1).
Proof.
  intros Hinit Hexpected Hmissing.
  apply init_ok in Hinit
    as ((fieldnames & lines & -> & Hheaders) & Hrules & Herrors).
  split; [done|]. simpl in Hmissing. rewrite <- Hheaders in Hmissing.
  destruct (header_check_raises self w1 h) as [Hin Hraise]; [|done|].
  { rewrite Hrules, dom_union. set_solver. }
  split; [done|].
  unfold BulkRegistrationUpload.validate, bind. by rewrite Hraise.
Qed.

(** The sample document without its [Tags] column: construction
    succeeds, validation stops at the header check. *)
Lemma C6_missing_header_witness :
  ∃ self w1,
    BulkRegistrationUpload.__init__ Sample.env Sample.document_missing_tags
      "osf" world0 = (Ok self, w1)
    ∧ errors w1 = []
    ∧ "tags" ∈ BulkRegistrationUpload.missing_headers self
    ∧ BulkRegistrationUpload.validate Sample.env self w1
      = (Raise (ValidationError
                  (BulkRegistrationUpload.missing_headers self)), w1).
Proof.
  destruct (BulkRegistrationUpload.__init__ Sample.env
              Sample.document_missing_tags "osf" world0)
    as [[self|e] w1] eqn:Hinit; [|by vm_compute in Hinit].
  exists self, w1. split; [done|].
  apply (C6_missing_header_is_fatal Sample.env Sample.document_missing_tags
           "osf" world0 w1 self "tags" Hinit).
  - left. compute_done.
  - compute_done.
Defined.

(** ** Row dicts *)

Lemma dict_set_Forall {K V} `{EqDecision K} (Q : K * V → Prop) (k : K)
    (v : V) (d : list (K * V)) :
  Forall Q d → Q (k, v) → Forall Q (dict_set k v d).
Proof.
  intros Hd Hkv. induction Hd as [|[k0 v0] d H0 Hd IH]; simpl.
  - by constructor.
  - case_decide; constructor; auto.
Qed.

Lemma dict_set_keys {K V} `{EqDecision K} (k k0 : K) (v : V)
    (d : list (K * V)) :
  k0 = k ∨ k0 ∈ d.*1 → k0 ∈ (dict_set k v d).*1.
Proof.
  induction d as [|[k1 v1] d IH]; simpl.
  - intros [->|Hin]; [by left|]. by apply elem_of_nil in Hin.
  - case_decide as Hk; simpl; rewrite !elem_of_cons.
    + subst k1. tauto.
    + intros [->|[->|Hin]]; [right; apply IH|left|right; apply IH]; auto.
Qed.

(** A key that is new goes last. *)
Lemma dict_set_fresh {K V} `{EqDecision K} (k : K) (v : V)
    (d : list (K * V)) :
  k ∉ d.*1 → dict_set k v d = d ++ [(k, v)].
Proof.
  induction d as [|[k1 v1] d IH]; simpl; [done|]. intros Hnot.
  apply not_elem_of_cons in Hnot as [Hne Hnot].
  rewrite decide_False by done. by rewrite IH.
Qed.

Lemma zip_dict_items (fieldnames fs row : list string) (d : row_dict) :
  fs ⊆ fieldnames →
  Forall (from_line fieldnames) d →
  Forall (from_line fieldnames) (DictReader.zip_dict fs row d).
Proof.
  revert row d. induction fs as [|f fs IH]; intros row d Hsub Hd.
  - by destruct row.
  - destruct row as [|v vs]; [done|]. simpl. apply IH; [set_solver|].
    apply dict_set_Forall; [done|]. exists f, v. split; [done|set_solver].
Qed.

Lemma zip_dict_keys (fs row : list string) (d : row_dict)
    (k : option string) :
  (length fs ≤ length row)%nat →
  k ∈ d.*1 ∨ (∃ f, f ∈ fs ∧ k = Some f) →
  k ∈ (DictReader.zip_dict fs row d).*1.
Proof.
  revert row d. induction fs as [|f fs IH]; intros row d Hlen Hk.
  - destruct Hk as [Hk|(f & Hf & _)]; [by destruct row|].
    by apply elem_of_nil in Hf.
  - destruct row as [|v vs]; [simpl in Hlen; lia|]. simpl in *.
    apply IH; [lia|]. destruct Hk as [Hk|(f' & Hf & ->)].
    + left. apply dict_set_keys. by right.
    + apply elem_of_cons in Hf as [->|Hf].
      * left. apply dict_set_keys. by left.
      * right. by exists f'.
Qed.

(** The dict of a line with at least as many fields as the header row:
    the zipped items, then the surplus if there is one. *)
Lemma to_dict_full_line (fieldnames row : list string) :
  (length fieldnames ≤ length row)%nat →
  ∃ surplus,
    DictReader.to_dict fieldnames row
    = DictReader.zip_dict fieldnames row [] ++ surplus
    ∧ Forall (from_line fieldnames) (DictReader.zip_dict fieldnames row [])
    ∧ ∀ f, f ∈ fieldnames →
           Some f ∈ (DictReader.zip_dict fieldnames row []).*1.
Proof.
  intros Hlen.
  assert (Forall (from_line fieldnames)
            (DictReader.zip_dict fieldnames row [])) as Hitems.
  { by apply zip_dict_items. }
  assert (∀ f, f ∈ fieldnames →
               Some f ∈ (DictReader.zip_dict fieldnames row []).*1) as Hkeys.
  { intros f Hf. apply zip_dict_keys; [done|]. right. by exists f. }
  unfold DictReader.to_dict. case_decide as Hlt.
  - eexists. split; [|done]. apply dict_set_fresh.
    intros Hnone. apply list_elem_of_fmap in Hnone as ([k v] & Hk & Hin).
    rewrite Forall_forall in Hitems. apply Hitems in Hin
      as (k' & s & Heq & _). by simplify_eq.
  - rewrite decide_False by lia. exists []. by rewrite app_nil_r.
Qed.

(** ** Unknown headers *)

Section UnknownHeader.

Context (validations : gmap string validation).

(** Cells are built up to the first header without a rule, where the
    read of the merged map fails. *)
Lemma make_cells_raises (row_index column_index : nat)
    (before after : row_dict) (k : string) (v : csv_value) (w : world) :
  Forall (λ item, ∃ k s, item = (Some k, CsvStr s)
                         ∧ is_Some (validations !! lower k)) before →
  validations !! lower k = None →
  Row.make_cells validations row_index column_index
    (before ++ (Some k, v) :: after) w
  = (Raise (KeyError (lower k)), w).
Proof.
  intros Hbefore Hk. revert column_index.
  induction Hbefore as [|item before (k0 & s & -> & [rule Hrule]) _ IH];
    intros column_index; simpl; unfold bind, Row.make_cell; simpl.
  - by rewrite Hk.
  - rewrite Hrule. simpl. by rewrite IH.
Qed.

(** The dict of a full line fails at its first field name without a
    rule. *)
Lemma full_line_raises (fieldnames row : list string) (row_index : nat)
    (w : world) :
  (length fieldnames ≤ length row)%nat →
  (∃ h, h ∈ fieldnames ∧ lower h ∉ dom validations) →
  ∃ h, h ∈ fieldnames ∧ (lower h ∉ dom validations)
       ∧ Row.__init__ (DictReader.to_dict fieldnames row) validations
           row_index w
         = (Raise (KeyError (lower h)), w).
Proof.
  intros Hlen (h & Hh & Hunknown).
  destruct (to_dict_full_line fieldnames row Hlen)
    as (surplus & -> & Hitems & Hkeys).
  apply Hkeys, list_elem_of_fmap in Hh as ([k0 v0] & Hk0 & Hin).
  simpl in Hk0. subst k0.
  pose (unknown := λ item : option string * csv_value,
                     ∃ k, item.1 = Some k ∧ lower k ∉ dom validations).
  assert (∀ item, Decision (unknown item)) as Hdec.
  { intros [[k|] v]; [|right; by intros (k & Hk & _)].
    destruct (decide (lower k ∈ dom validations)) as [Hk|Hk].
    - right. intros (k' & Hk' & Hnot). simpl in Hk'. by simplify_eq.
    - left. by exists k. }
  destruct (@split_at_first _ unknown Hdec
              (DictReader.zip_dict fieldnames row []))
    as (before & good & after & Hsplit & Hbefore & (k & Hgood & Hk)).
  { exists (Some h, v0). split; [done|]. by exists h. }
  rewrite Hsplit in Hitems.
  apply Forall_app in Hitems as [Hitems_before Hitems_good].
  apply Forall_cons in Hitems_good as [(k' & s & -> & Hk') _].
  simpl in Hgood. simplify_eq.
  exists k. split; [done|]. split; [done|].
  unfold Row.__init__, bind. rewrite Hsplit, <- app_assoc. simpl.
  rewrite make_cells_raises; [done| |by apply not_elem_of_dom].
  rewrite Forall_forall in Hitems_before, Hbefore |- *.
  intros item Hitem. destruct (Hitems_before item Hitem)
    as (k1 & s1 & -> & _).
  exists k1, s1. split; [done|]. apply elem_of_dom. apply dec_stable.
  intros Hnot. apply (Hbefore _ Hitem). by exists k1.
Qed.

End UnknownHeader.

(** C9, as the code has it. A header without a rule is met when a row
    is built, and only then. For a document whose schema id is not
    empty and resolves, and whose first registration line (the first
    non-blank line after the schema-id row) has at least as many fields
    as the header row: if some header, lower-cased, is neither a fixed
    metadata field name nor a question id of the schema, construction
    ends while building the first row with the [KeyError] of such a
    header; the error list is empty and nothing but the two lookups has
    happened. The header check, for its part, passes exactly when every
    expected header is present, whatever other headers there are. *)
Theorem C9_unknown_header_key_error (env : Env) (fieldnames : list string)
    (lines : list (list string)) (provider_id : string) (w : world)
    (headers : list string) (id : string) (line_num : nat)
    (line : list string) (more_rows : list (nat * row_dict))
    (p : RegistrationProvider) (schema : RegistrationSchema) :
  BulkRegistrationUpload.open_reader (fieldnames :: lines)
  = Ok (headers, Some id,
        (line_num, DictReader.to_dict fieldnames line) :: more_rows) →
  (length fieldnames ≤ length line)%nat →
  truthy id = true →
  provider_load env provider_id = Loaded p →
  schemas_get p id = Some schema →
  let expected :=
    dom (METADATA_FIELDS ∪
         BulkRegistrationUpload.get_questions_validations schema) in
  (∃ h, h ∈ fieldnames ∧ lower h ∉ expected) →
  (∃ h, h ∈ fieldnames ∧ (lower h ∉ expected)
        ∧ BulkRegistrationUpload.__init__ env (fieldnames :: lines)
            provider_id w
          = (Raise (KeyError (lower h)),
             {| errors := [];
                queries := queries w ++ [QProvider provider_id; QSchema id] |}))
  ∧ (∀ (self : BulkRegistrationUpload.t) (w' : world),
       BulkRegistrationUpload.validate_csv_header_list self w' = (Ok (), w')
       ↔ ∀ h, h ∈ dom (BulkRegistrationUpload.validations self) →
              h ∈ BulkRegistrationUpload.headers self).
Proof.
  intros Hopen Hfull Hid Hload Hget expected Hunknown.
  split; [|apply header_check_passes].
  set (started := {| errors := [];
                     queries := queries w ++
                                [QProvider provider_id; QSchema id] |}).
  destruct (full_line_raises
              (METADATA_FIELDS ∪
               BulkRegistrationUpload.get_questions_validations schema)
              fieldnames line line_num started)
    as (h & Hh & Hnot & Hraise); [done|done|].
  exists h. split; [done|]. split; [done|].
  erewrite init_resolved by done. fold started.
  simpl. unfold bind. by rewrite Hraise.
Qed.

(** The sample document with the extra column [Funder] and one
    registration. *)
Lemma C9_unknown_header_witness :
  ∃ h, h ∈ Sample.header_row ++ ["Funder"]
       ∧ (lower h ∉ dom (METADATA_FIELDS ∪
            BulkRegistrationUpload.get_questions_validations Sample.schema))
       ∧ BulkRegistrationUpload.__init__ Sample.env
           Sample.document_extra_header "osf" world0
         = (Raise (KeyError (lower h)),
            {| errors := [];
               queries := [] ++ [QProvider "osf"; QSchema "schema-1"] |}).
Proof.
  apply (C9_unknown_header_key_error Sample.env
           (Sample.header_row ++ ["Funder"])
           [Sample.schema_id_row; Sample.registration_row ++ ["NSF"]]
           "osf" world0
           (lower <$> Sample.header_row ++ ["Funder"]) "schema-1" 3
           (Sample.registration_row ++ ["NSF"])
           [] Sample.provider Sample.schema).
  - by vm_compute.
  - vm_compute. lia.
  - reflexivity.
  - reflexivity.
  - reflexivity.
  - exists "Funder". split; compute_done.
Defined.

(** C9, as the claim has it, fails on the sample document with the
    extra column [Funder] and no registration: [Funder] is not an
    expected header, yet construction succeeds, with no row, and
    [validate] succeeds after it. *)
Lemma C9_unknown_header_counterexample :
  "Funder" ∈ Sample.header_row ++ ["Funder"]
  ∧ (lower "Funder" ∉ dom (METADATA_FIELDS ∪
       BulkRegistrationUpload.get_questions_validations Sample.schema))
  ∧ ∃ self w1,
      BulkRegistrationUpload.__init__ Sample.env
        Sample.document_extra_header_no_rows "osf" world0 = (Ok self, w1)
      ∧ BulkRegistrationUpload.rows self = []
      ∧ BulkRegistrationUpload.validate Sample.env self w1 = (Ok self, w1).
Proof.
  split; [compute_done|]. split; [compute_done|].
  destruct (BulkRegistrationUpload.__init__ Sample.env
              Sample.document_extra_header_no_rows "osf" world0)
    as [[self|e] w1] eqn:Hinit; [|by vm_compute in Hinit].
  exists self, w1. split; [done|].
  vm_compute in Hinit. by simplify_eq.
Qed.

(** * Further properties *)

#[local] Set Warnings "-clear-no-such-hyp".

(** ** Effects only accumulate *)

Lemma appends_ret {A} (P : ErrorRecord → Prop) (a : A) : appends P (ret a).
Proof.
  intros [es qs]. exists [], []. by rewrite !app_nil_r.
Qed.

Lemma appends_raise {A} (P : ErrorRecord → Prop) (e : exn) :
  appends P (raise (A:=A) e).
Proof.
  intros [es qs]. exists [], []. by rewrite !app_nil_r.
Qed.

Lemma appends_bind {A B} (P : ErrorRecord → Prop) (m : M A) (k : A → M B) :
  appends P m → (∀ a, appends P (k a)) → appends P (bind m k).
Proof.
  intros Hm Hk w. unfold bind.
  destruct (Hm w) as (l1 & q1 & Hw1 & Hl1).
  destruct (m w) as [[a|e] w1]; simpl in Hw1; subst w1.
  - destruct (Hk a {| errors := errors w ++ l1; queries := queries w ++ q1 |})
      as (l2 & q2 & Hw2 & Hl2).
    rewrite Hw2. simpl. exists (l1 ++ l2), (q1 ++ q2).
    rewrite !app_assoc. split; [done|]. by apply Forall_app.
  - by exists l1, q1.
Qed.

Lemma appends_log (P : ErrorRecord → Prop) (c : log_error_closure)
    (is_missing is_invalid : bool) :
  P {| header := bound_header c; column_index := bound_column_index c;
       row_index := bound_row_index c; missing := is_missing;
       invalid := is_invalid |} →
  appends P (log_error c is_missing is_invalid).
Proof.
  intros HP w. eexists [_], []. unfold log_error. simpl.
  rewrite app_nil_r. split; [done|]. by constructor.
Qed.

Lemma appends_ask (P : ErrorRecord → Prop) (q : query) :
  appends P (ask_source q).
Proof. intros w. by exists [], [q]; rewrite app_nil_r. Qed.

Lemma appends_for_each {A} (P : ErrorRecord → Prop) (xs : list A)
    (body : A → M unit) :
  (∀ x, appends P (body x)) → appends P (for_each xs body).
Proof.
  intros Hbody. induction xs as [|x xs IH]; simpl.
  - apply appends_ret.
  - by apply appends_bind.
Qed.

Lemma appends_for_list {A B} (P : ErrorRecord → Prop) (xs : list A)
    (f : A → M B) :
  (∀ x, appends P (f x)) → appends P (for_list xs f).
Proof.
  intros Hf. induction xs as [|x xs IH]; simpl.
  - apply appends_ret.
  - apply appends_bind; [done|]. intros y.
    apply appends_bind; [done|]. intros ys. apply appends_ret.
Qed.

Lemma appends_weaken {A} (P Q : ErrorRecord → Prop) (m : M A) :
  (∀ r, P r → Q r) → appends P m → appends Q m.
Proof.
  intros HPQ Hm w. destruct (Hm w) as (l & q & Hw & Hl).
  exists l, q. split; [done|]. by eapply Forall_impl.
Qed.

(** The records a field may log: its own [missing] record and its own
    [invalid] record. *)
Lemma appends_log_missing (self : Field.t) :
  appends (λ r, r = missing_record (Field.log_error self)
                ∨ r = invalid_record (Field.log_error self))
          (log_missing self).
Proof. apply appends_log. by left. Qed.

Lemma appends_log_invalid (self : Field.t) :
  appends (λ r, r = missing_record (Field.log_error self)
                ∨ r = invalid_record (Field.log_error self))
          (log_invalid self).
Proof. apply appends_log. by right. Qed.

Ltac appends_step :=
  first
    [ apply appends_ret
    | apply appends_raise
    | apply appends_log_missing
    | apply appends_log_invalid
    | apply appends_ask
    | apply appends_for_each; intros ?
    | apply appends_bind; [|intros ?] ].

Ltac appends_auto :=
  repeat first [ appends_step | case_decide | case_match ].

(** Every validator only appends, and what it logs are records of its
    own cell. *)
Lemma _validate_appends (env : Env) (self : Field.t) :
  appends (λ r, r = missing_record (Field.log_error self)
                ∨ r = invalid_record (Field.log_error self))
          (_validate env self).
Proof.
  unfold _validate. destruct (Field.class self).
  - unfold RegistrationResponseField._validate,
      RegistrationResponseField.multiselect_step. appends_auto.
  - unfold MetadataField._validate. appends_auto.
  - unfold ContributorField._validate. appends_auto.
  - unfold LicenseField._validate. appends_auto.
  - unfold CategoryField._validate. appends_auto.
  - unfold SubjectsField._validate, validate_against. appends_auto.
  - unfold InstitutionsField._validate, validate_against. appends_auto.
  - unfold ProjectIDField._validate. appends_auto.
Qed.

(** One [parse] only appends records of its own cell. *)
Lemma parse_appends (env : Env) (self : Field.t) :
  appends (λ r, r = missing_record (Field.log_error self)
                ∨ r = invalid_record (Field.log_error self))
          (parse env self).
Proof.
  unfold parse. apply appends_bind.
  - destruct (Field._parsed_value self).
    + apply appends_ret.
    + apply _validate_appends.
  - intros self'. apply appends_ret.
Qed.

(** X1. Whatever the field, the value and the data sources, and also
    when the validator raises, one [parse] leaves the records and the
    lookups already there in place and only appends to them; every
    record it appends carries the header, column index and row index of
    its own cell and is either that cell's [missing] record or its
    [invalid] record. *)
Theorem X1_parse_only_appends (env : Env) (self : Field.t) :
  appends (λ r, r = missing_record (Field.log_error self)
                ∨ r = invalid_record (Field.log_error self))
          (parse env self).
Proof. apply parse_appends. Qed.

Lemma parse_one_flag (env : Env) (self : Field.t) :
  appends one_flag (parse env self).
Proof.
  eapply appends_weaken; [|apply parse_appends].
  by intros r [->| ->].
Qed.

Lemma cell_validate_appends (env : Env) (cell : Cell.t) :
  appends one_flag (Cell.validate env cell).
Proof.
  unfold Cell.validate. apply appends_bind; [apply parse_one_flag|].
  intros r. apply appends_ret.
Qed.

Lemma row_validate_appends (env : Env) (row : Row.t) :
  appends one_flag (Row.validate env row).
Proof.
  unfold Row.validate. apply appends_bind.
  - apply appends_for_list. intros cell. apply cell_validate_appends.
  - intros cells. apply appends_ret.
Qed.

Lemma collect_appends (env : Env) (metadata : bool) (cells : list Cell.t)
    (parsed : list (string * pyval)) :
  appends one_flag (Row.collect env metadata cells parsed).
Proof.
  revert parsed. induction cells as [|cell cells IH]; intros parsed;
    cbn [Row.collect].
  - apply appends_ret.
  - apply appends_bind.
    + case_match; [|apply appends_ret].
      unfold Cell.get_parsed_value.
      apply appends_bind; [|intros r; apply appends_ret].
      apply appends_bind; [apply parse_one_flag|].
      intros r. apply appends_ret.
    + intros r. apply appends_bind; [apply IH|].
      intros rs. apply appends_ret.
Qed.

Lemma row_get_parsed_value_appends (env : Env) (row : Row.t) :
  appends one_flag (Row.get_parsed_value env row).
Proof.
  unfold Row.get_parsed_value.
  apply appends_bind; [apply collect_appends|]. intros m.
  apply appends_bind; [apply collect_appends|]. intros r.
  apply appends_ret.
Qed.

(** X2. [validate] and [get_parsed] never remove or rewrite what is in
    the error list or in the lookup log: whatever the upload and the
    state they start from, and also when they raise, the state they end
    in is the one they started from with records and lookups appended,
    and every record appended has exactly one of [missing] and
    [invalid] set. *)
Theorem X2_validate_and_get_parsed_only_append (env : Env)
    (self : BulkRegistrationUpload.t) :
  appends one_flag (BulkRegistrationUpload.validate env self)
  ∧ appends one_flag (BulkRegistrationUpload.get_parsed env self).
Proof.
  split.
  - unfold BulkRegistrationUpload.validate,
      BulkRegistrationUpload.validate_csv_header_list.
    apply appends_bind.
    + case_decide; [apply appends_raise|apply appends_ret].
    + intros _. apply appends_bind.
      * apply appends_for_list. intros row. apply row_validate_appends.
      * intros rows. apply appends_ret.
  - unfold BulkRegistrationUpload.get_parsed. apply appends_bind.
    + apply appends_for_list. intros row.
      apply appends_bind; [apply row_get_parsed_value_appends|].
      intros r. apply appends_ret.
    + intros parsed. apply appends_ret.
Qed.

(** ** The raw view *)

Lemma same_but_cache_refl (self : Field.t) : same_but_cache self self.
Proof. by repeat split. Qed.

Lemma same_but_cache_set (self : Field.t) (v : option pyval) :
  same_but_cache self (Field.set_parsed_value self v).
Proof. by repeat split. Qed.

Lemma same_cell_refl (cell : Cell.t) : same_cell cell cell.
Proof. repeat split. Qed.

Lemma same_cell_set_field (cell : Cell.t) (f : Field.t) :
  same_but_cache (Cell.field cell) f → same_cell cell (Cell.set_field cell f).
Proof. intros Hf. by split; [|split; [|split]]. Qed.

(** A validator that returns hands back the field it was given, with at
    most another cached value. *)
Lemma _validate_same (env : Env) (self self' : Field.t) (w w' : world) :
  _validate env self w = (Ok self', w') → same_but_cache self self'.
Proof.
  unfold _validate, RegistrationResponseField._validate,
    MetadataField._validate, ContributorField._validate,
    LicenseField._validate, CategoryField._validate,
    SubjectsField._validate, InstitutionsField._validate,
    ProjectIDField._validate, validate_against,
    bind, ret, raise, log_missing, log_invalid, log_error, ask_source.
  intros Hv.
  repeat (case_match || case_decide); simplify_eq;
    first [apply same_but_cache_refl | apply same_but_cache_set].
Qed.

Lemma parse_same (env : Env) (self self' : Field.t) (v : pyval)
    (w w' : world) :
  parse env self w = (Ok (v, self'), w') →
  same_but_cache self self'
  ∧ v = default (PyStr "") (Field._parsed_value self').
Proof.
  unfold parse, bind, ret. intros Hp.
  destruct (Field._parsed_value self).
  - simplify_eq. split; [apply same_but_cache_refl|done].
  - destruct (_validate env self w) as [[s|e] w1] eqn:Hv; simplify_eq.
    split; [by eapply _validate_same|done].
Qed.

Lemma cell_validate_same (env : Env) (cell cell' : Cell.t) (w w' : world) :
  Cell.validate env cell w = (Ok cell', w') → same_cell cell cell'.
Proof.
  unfold Cell.validate, bind, ret. intros Hc.
  destruct (parse env (Cell.field cell) w) as [[[v f]|e] w1] eqn:Hp;
    simplify_eq.
  apply parse_same in Hp as [Hsame _]. by apply same_cell_set_field.
Qed.

Lemma for_list_Forall2 {A B} (R : A → B → Prop) (f : A → M B)
    (xs : list A) (ys : list B) (w w' : world) :
  (∀ x y w w', f x w = (Ok y, w') → R x y) →
  for_list xs f w = (Ok ys, w') → Forall2 R xs ys.
Proof.
  intros Hf. revert ys w. induction xs as [|x xs IH]; intros ys w; simpl.
  - unfold ret. intros ?; simplify_eq. constructor.
  - unfold bind, ret. intros Hl.
    destruct (f x w) as [[y|e] w1] eqn:Hx; [|done].
    destruct (for_list xs f w1) as [[ys'|e] w2] eqn:Hxs; simplify_eq.
    constructor; eauto.
Qed.

Lemma collect_same (env : Env) (metadata : bool) (cells cells' : list Cell.t)
    (parsed parsed' : list (string * pyval)) (w w' : world) :
  Row.collect env metadata cells parsed w = (Ok (parsed', cells'), w') →
  Forall2 same_cell cells cells'.
Proof.
  revert cells' parsed w. induction cells as [|cell cells IH];
    intros cells' parsed w; cbn [Row.collect].
  - unfold ret. intros ?; simplify_eq. constructor.
  - unfold bind, ret, Cell.get_parsed_value, bind, ret. intros Hc.
    destruct (bool_decide (Cell.is_metadata cell = metadata)).
    + destruct (parse env (Cell.field cell) w) as [[[v f]|e] w1] eqn:Hp;
        [|done]. simpl in Hc.
      destruct (Row.collect env metadata cells _ w1)
        as [[[p cs]|e] w2] eqn:Hcs; simplify_eq.
      constructor; [|by eapply IH].
      apply parse_same in Hp as [Hsame _]. by apply same_cell_set_field.
    + simpl in Hc.
      destruct (Row.collect env metadata cells _ w)
        as [[[p cs]|e] w2] eqn:Hcs; simplify_eq.
      constructor; [apply same_cell_refl|by eapply IH].
Qed.

Lemma same_cell_trans (a b c : Cell.t) :
  same_cell a b → same_cell b c → same_cell a c.
Proof.
  intros (H1 & H2 & H3 & Hf1) (H1' & H2' & H3' & Hf2).
  repeat split; try congruence;
    destruct Hf1 as (?&?&?&?&?&?&?), Hf2 as (?&?&?&?&?&?&?); congruence.
Qed.

Lemma same_cells_raw (cells cells' : list Cell.t) :
  Forall2 same_cell cells cells' →
  Cell.get_raw_value <$> cells' = Cell.get_raw_value <$> cells
  ∧ Cell.header <$> cells' = Cell.header <$> cells.
Proof.
  induction 1 as [|c c' cs cs' (Hh & Hv & _) _ [IH1 IH2]]; [done|].
  rewrite !fmap_cons, IH1, IH2. unfold Cell.get_raw_value.
  by rewrite Hh, Hv.
Qed.

(** X3. Validation and parsing leave the raw view untouched. When
    [Row.validate] or [Row.get_parsed_value] returns, the row has the
    same cells in the same order, each with the header, the raw value
    and the rule it had; of a field only the cached value can have
    changed; so [get_raw_value] gives the same string before and
    after. *)
Theorem X3_validation_keeps_raw_view (env : Env) (row : Row.t) (w : world) :
  (∀ row' w',
     Row.validate env row w = (Ok row', w') →
     Forall2 same_cell (Row.cells row) (Row.cells row')
     ∧ Row.get_raw_value row' = Row.get_raw_value row)
  ∧ (∀ metadata responses row' w',
       Row.get_parsed_value env row w
       = (Ok (metadata, responses, row'), w') →
       Forall2 same_cell (Row.cells row) (Row.cells row')
       ∧ Row.get_raw_value row' = Row.get_raw_value row).
Proof.
  split.
  - intros row' w'. unfold Row.validate, bind, ret. intros Hv.
    destruct (for_list (Row.cells row) (Cell.validate env) w)
      as [[cells|e] w1] eqn:Hl; simplify_eq. simpl.
    apply (for_list_Forall2 same_cell) in Hl;
      [|intros ????; apply cell_validate_same].
    split; [done|]. unfold Row.get_raw_value. simpl.
    by destruct (same_cells_raw _ _ Hl) as [-> _].
  - intros metadata responses row' w'.
    unfold Row.get_parsed_value, bind, ret. intros Hg.
    destruct (Row.collect env true (Row.cells row) [] w)
      as [[[m cs]|e] w1] eqn:Hm; [|done]. simpl in Hg.
    destruct (Row.collect env false cs [] w1)
      as [[[r cs']|e] w2] eqn:Hr; simplify_eq. simpl.
    apply collect_same in Hm. apply collect_same in Hr.
    assert (Forall2 same_cell (Row.cells row) cs') as Hall.
    { clear -Hm Hr. revert cs' Hr.
      induction Hm as [|a b l l' Hab _ IH]; intros cs' Hr.
      - by inversion Hr.
      - inversion Hr as [|b' c m' l'' Hbc Hl'']; subst.
        constructor; [by eapply same_cell_trans|by apply IH]. }
    split; [done|]. unfold Row.get_raw_value. simpl.
    by destruct (same_cells_raw _ _ Hall) as [-> _].
Qed.

(** ** Cells know where they are *)

Lemma lower_char_lower_char (c : ascii) :
  lower_char (lower_char c) = lower_char c.
Proof. by destruct c as [[] [] [] [] [] [] [] []]. Qed.

(** Lower-casing twice is lower-casing once. *)
Lemma lower_lower (s : string) : lower (lower s) = lower s.
Proof.
  induction s as [|c s IH]; [done|]. simpl.
  by rewrite lower_char_lower_char, IH.
Qed.

Lemma make_cell_built (validations : gmap string validation)
    (row_index column_index : nat) (item : option string * csv_value)
    (cell : Cell.t) (w w' : world) :
  Row.make_cell validations row_index column_index item w = (Ok cell, w') →
  built_from validations row_index column_index item cell.
Proof.
  unfold Row.make_cell. destruct item as [[k|] v]; simpl; [|done].
  destruct (validations !! lower k) as [rule|] eqn:Hrule; [|done].
  destruct v as [s| |]; [|done|done]. unfold Cell.__init__, ret.
  intros ?; simplify_eq.
  exists k, s. unfold Cell.field_instance_for. rewrite lower_lower.
  by destruct (Cell.field_class_for (lower k)).
Qed.

Lemma make_cells_built (validations : gmap string validation)
    (row_index column_index : nat) (items : row_dict)
    (cells : list Cell.t) (w w' : world) :
  Row.make_cells validations row_index column_index items w
  = (Ok cells, w') →
  length cells = length items
  ∧ ∀ i cell, cells !! i = Some cell →
      ∃ item, items !! i = Some item
              ∧ built_from validations row_index (column_index + i)
                  item cell.
Proof.
  revert column_index cells w.
  induction items as [|item items IH]; intros column_index cells w; simpl.
  - unfold ret. intros ?; simplify_eq. split; [done|]. by intros i cell ?.
  - unfold bind, ret. intros Hm.
    destruct (Row.make_cell validations row_index column_index item w)
      as [[c|e] w1] eqn:Hc; [|done].
    destruct (Row.make_cells validations row_index (S column_index) items w1)
      as [[cs|e] w2] eqn:Hcs; simplify_eq.
    apply make_cell_built in Hc. apply IH in Hcs as [Hlen Hcells].
    split; [by rewrite !length_cons, Hlen|].
    intros [|i] cell Hi; simpl in Hi.
    + simplify_eq. exists item. by rewrite Nat.add_0_r.
    + apply Hcells in Hi as (it & Hit & Hb). exists it.
      split; [done|]. by rewrite <- Nat.add_succ_comm.
Qed.

(** X4. Every cell of a row that could be built knows its place. The
    row has one cell per item of the row dict, in order; the cell at
    position [i] has the lower-cased header of the item as its header,
    the item's string as its raw value and the merged map's rule for
    that header as its rule; its field holds the stripped value and no
    cached value; and the records the field can log are bound to that
    header, to column index [i] (0-based) and to the row index given
    to the row. Building the row changes neither the error list nor the
    lookup log. *)
Theorem X4_cells_know_their_place (validations : gmap string validation)
    (items : row_dict) (row_index : nat) (row : Row.t) (w w' : world) :
  Row.__init__ items validations row_index w = (Ok row, w') →
  w' = w
  ∧ length (Row.cells row) = length items
  ∧ ∀ i cell, Row.cells row !! i = Some cell →
      ∃ item, items !! i = Some item
              ∧ built_from validations row_index i item cell.
Proof.
  intros Hinit.
  pose proof (make_cells_world validations row_index 0 items w) as Hworld.
  unfold Row.__init__, bind, ret in Hinit.
  destruct (Row.make_cells validations row_index 0 items w)
    as [[cells|e] w1] eqn:Hcells; simplify_eq.
  split; [done|]. by apply make_cells_built in Hcells.
Qed.

(** The registration line of the sample document under the merged rules
    of the sample schema. *)
Lemma X4_cells_know_their_place_witness :
  ∃ row,
    Row.__init__
      (DictReader.to_dict Sample.header_row Sample.registration_row)
      (METADATA_FIELDS ∪
       BulkRegistrationUpload.get_questions_validations Sample.schema)
      3 world0 = (Ok row, world0)
    ∧ length (Row.cells row)
      = length (DictReader.to_dict Sample.header_row Sample.registration_row)
    ∧ ∀ i cell, Row.cells row !! i = Some cell →
        ∃ item,
          DictReader.to_dict Sample.header_row Sample.registration_row !! i
          = Some item
          ∧ built_from
              (METADATA_FIELDS ∪
               BulkRegistrationUpload.get_questions_validations Sample.schema)
              3 i item cell.
Proof.
  destruct (Row.__init__
              (DictReader.to_dict Sample.header_row Sample.registration_row)
              (METADATA_FIELDS ∪
               BulkRegistrationUpload.get_questions_validations Sample.schema)
              3 world0) as [[row|e] w1] eqn:Hinit;
    [|by vm_compute in Hinit].
  exists row.
  destruct (X4_cells_know_their_place _ _ _ _ _ _ Hinit) as (-> & Hlen & Hcells).
  split; [reflexivity|]. split; assumption.
Defined.

(** ** The rules of a schema *)

Section SchemaRules.

(** A rule with all four keys, as the lambda builds it. *)
Let complete (rule : validation) : Prop :=
  is_Some (v_required rule) ∧ is_Some (v_format rule)
  ∧ is_Some (v_type rule) ∧ is_Some (v_options rule).

Lemma nested_rules (id : string) (nested : list nested_question)
    (acc : gmap string validation) :
  let added :=
    foldl (λ acc n,
             <[(id ++ nested_id n)%string :=
                 BulkRegistrationUpload.get_question_validations
                   (nested_keys n)]> acc) acc nested in
  dom added
  = dom acc ∪ list_to_set ((λ n, (id ++ nested_id n)%string) <$> nested)
  ∧ (map_Forall (λ _, complete) acc → map_Forall (λ _, complete) added).
Proof.
  revert acc. induction nested as [|n nested IH]; intros acc; simpl.
  - split; [set_solver|done].
  - destruct (IH (<[(id ++ nested_id n)%string :=
                      BulkRegistrationUpload.get_question_validations
                        (nested_keys n)]> acc)) as [Hdom Hcomplete].
    split.
    + rewrite Hdom, dom_insert_L. set_solver.
    + intros Hacc. apply Hcomplete. apply map_Forall_insert_2; [|done].
      by repeat split.
Qed.

Lemma question_rules (acc : gmap string validation) (q : question) :
  dom (BulkRegistrationUpload.add_question acc q)
  = dom acc ∪ list_to_set (question_ids q)
  ∧ (map_Forall (λ _, complete) acc →
     map_Forall (λ _, complete) (BulkRegistrationUpload.add_question acc q)).
Proof.
  unfold BulkRegistrationUpload.add_question, question_ids.
  assert (map_Forall (λ _, complete) acc →
          map_Forall (λ _, complete)
            (<[qid q := BulkRegistrationUpload.get_question_validations
                          (keys q)]> acc)) as Hq.
  { intros Hacc. apply map_Forall_insert_2; [|done]. by repeat split. }
  destruct (properties q) as [nested|]; simpl.
  - destruct (nested_rules (qid q) nested
                (<[qid q := BulkRegistrationUpload.get_question_validations
                              (keys q)]> acc)) as [Hdom Hcomplete].
    split; [|by intros Hacc; apply Hcomplete, Hq].
    rewrite Hdom, dom_insert_L. set_solver.
  - split; [|done]. rewrite dom_insert_L. set_solver.
Qed.

Lemma questions_rules (acc : gmap string validation) (qs : list question) :
  dom (foldl BulkRegistrationUpload.add_question acc qs)
  = dom acc ∪ list_to_set (qs ≫= question_ids)
  ∧ (map_Forall (λ _, complete) acc →
     map_Forall (λ _, complete)
       (foldl BulkRegistrationUpload.add_question acc qs)).
Proof.
  revert acc. induction qs as [|q qs IH]; intros acc; simpl.
  - split; [set_solver|done].
  - destruct (IH (BulkRegistrationUpload.add_question acc q))
      as [Hdom Hcomplete].
    destruct (question_rules acc q) as [Hdom_q Hcomplete_q].
    split; [|by intros Hacc; apply Hcomplete, Hcomplete_q].
    rewrite Hdom, Hdom_q, list_to_set_app_L. set_solver.
Qed.

Lemma pages_rules (acc : gmap string validation) (ps : list page) :
  let rules :=
    foldl (λ acc page,
             foldl BulkRegistrationUpload.add_question acc (questions page))
          acc ps in
  dom rules
  = dom acc ∪ list_to_set (ps ≫= (λ p, questions p ≫= question_ids))
  ∧ (map_Forall (λ _, complete) acc → map_Forall (λ _, complete) rules).
Proof.
  revert acc. induction ps as [|p ps IH]; intros acc; simpl.
  - split; [set_solver|done].
  - destruct (IH (foldl BulkRegistrationUpload.add_question acc
                    (questions p))) as [Hdom Hcomplete].
    destruct (questions_rules acc (questions p)) as [Hdom_p Hcomplete_p].
    split; [|by intros Hacc; apply Hcomplete, Hcomplete_p].
    rewrite Hdom, Hdom_p, list_to_set_app_L. set_solver.
Qed.

(** X5. The rules extracted from a schema have exactly these keys: the
    id of every question of every page and, for a question with nested
    questions, its id followed without separator by the id of each
    nested question. Every extracted rule has all four keys [required],
    [format], [type] and [options]. The headers a constructed upload
    expects are therefore the fixed metadata names together with those
    keys. *)
Theorem X5_schema_rule_keys (schema : RegistrationSchema) :
  dom (BulkRegistrationUpload.get_questions_validations schema)
  = list_to_set (schema_ids schema)
  ∧ (∀ k rule,
       BulkRegistrationUpload.get_questions_validations schema !! k
       = Some rule →
       is_Some (v_required rule) ∧ is_Some (v_format rule)
       ∧ is_Some (v_type rule) ∧ is_Some (v_options rule))
  ∧ (∀ env csv provider_id w0 w1 self,
       BulkRegistrationUpload.__init__ env csv provider_id w0
       = (Ok self, w1) →
       BulkRegistrationUpload.registration_schema self = schema →
       dom (BulkRegistrationUpload.validations self)
       = dom METADATA_FIELDS ∪ list_to_set (schema_ids schema)).
Proof.
  destruct (pages_rules ∅ (pages schema)) as [Hdom Hcomplete].
  assert (dom (BulkRegistrationUpload.get_questions_validations schema)
          = list_to_set (schema_ids schema)) as Hkeys.
  { unfold BulkRegistrationUpload.get_questions_validations, schema_ids.
    rewrite Hdom, dom_empty_L. set_solver. }
  split; [done|]. split.
  - intros k rule Hk. by apply (Hcomplete (map_Forall_empty _) k rule).
  - intros env csv provider_id w0 w1 self Hinit <-.
    apply init_ok in Hinit as (_ & -> & _).
    rewrite dom_union_L. f_equal.
    destruct (pages_rules ∅ (pages
                (BulkRegistrationUpload.registration_schema self)))
      as [Hdom' _].
    unfold BulkRegistrationUpload.get_questions_validations, schema_ids.
    rewrite Hdom', dom_empty_L. set_solver.
Qed.

End SchemaRules.

(** ** Contributors *)

(** [span] cuts its argument in two, the first part within the class. *)
Lemma span_spec (p : ascii → bool) (s a b : string) :
  span p s = (a, b) →
  s = (a ++ b)%string ∧ all_chars p a = true.
Proof.
  revert a b. induction s as [|c s IH]; intros a b; simpl.
  - by intros ?; simplify_eq.
  - destruct (p c) eqn:Hc; [|by intros ?; simplify_eq].
    destruct (span p s) as [a' b'] eqn:Hs. intros Heq.
    injection Heq as <- <-.
    destruct (IH a' b' eq_refl) as [-> Ha]. simpl. by rewrite Hc, Ha.
Qed.

Lemma lazy_until_gt_spec (s e : string) :
  Regex.lazy_until_gt s = Some e →
  ∃ rest, s = (e ++ ">" ++ rest)%string ∧ all_chars email_char e = true.
Proof.
  revert e. induction s as [|c s IH]; intros e; simpl; [done|].
  destruct (Ascii.eqb c ">") eqn:Hgt.
  - intros ?; simplify_eq. apply Ascii.eqb_eq in Hgt as ->. by exists s.
  - destruct (code c =? 10)%nat eqn:Hnl; [done|].
    destruct (Regex.lazy_until_gt s) as [e'|]; [|done].
    simpl. intros Heq. injection Heq as <-.
    destruct (IH e' eq_refl) as (rest & -> & He).
    exists rest. split; [done|]. simpl. unfold email_char at 1.
    by rewrite Hgt, Hnl, He.
Qed.

(** A match of the contributor pattern is a literal reading of the
    start of the token. *)
Lemma contributor_regex_sound (s full_name email : string) :
  Regex.contributor_regex s = Some (full_name, email) →
  ∃ rest,
    s = (full_name ++ "<" ++ email ++ ">" ++ rest)%string
    ∧ full_name ≠ ""
    ∧ all_chars Regex.full_name_char full_name = true
    ∧ all_chars email_char email = true.
Proof.
  unfold Regex.contributor_regex.
  destruct (span Regex.full_name_char s) as [a b] eqn:Hspan.
  apply span_spec in Hspan as [-> Ha].
  destruct a as [|c a]; [done|].
  destruct b as [|[[] [] [] [] [] [] [] []] b]; try done.
  destruct (Regex.lazy_until_gt b) as [e|] eqn:He; [|done].
  simpl. intros ?; simplify_eq.
  apply lazy_until_gt_spec in He as (rest & -> & He).
  by exists rest.
Qed.

Lemma field_class_for_contributors (name : string) :
  name ∈ CONTRIBUTOR_METADATA_FIELDS →
  Cell.field_class_for name = ContributorField.
Proof.
  intros Hin. unfold CONTRIBUTOR_METADATA_FIELDS in Hin.
  repeat (apply elem_of_cons in Hin as [->|Hin]); [by vm_compute..|].
  by apply elem_of_nil in Hin.
Qed.

Lemma bind_at_most_one {A B} (f : A → list B) (l : list A) :
  (∀ x, (length (f x) ≤ 1)%nat) → (length (l ≫= f) ≤ length l)%nat.
Proof.
  intros Hf. induction l as [|x l IH]; [done|].
  rewrite bind_cons, length_app, length_cons. specialize (Hf x). lia.
Qed.

(** X6. A contributor cell never logs [invalid]. For each of the four
    contributor headers, unless the rule is required and the value
    blank, one parse returns and caches a list and leaves the error
    list and the lookup log as they were, whatever the raw value: a
    token that does not match the pattern is dropped without a trace,
    so the list can be shorter than the token list, down to empty.
    Every entry of the list is the dict of a full name and an email
    read literally off the start of one token: the token is the full
    name (not empty, made of word characters, spaces and hyphens), then
    [<], the email (without [>] and newline), then [>], then anything. *)
Theorem X6_contributors_drop_silently (env : Env) (name value : string)
    (rule : validation) (closure : log_error_closure) (w : world) :
  name ∈ CONTRIBUTOR_METADATA_FIELDS →
  (default false (v_required rule) = true → strip value ≠ "") →
  let self := Cell.field_instance_for name value rule closure in
  let tokens := split_strip ";" (strip value) in
  ∃ contributors,
    parse env self w
    = (Ok (PyList contributors,
           Field.set_parsed_value self (Some (PyList contributors))), w)
    ∧ (length contributors ≤ length tokens)%nat
    ∧ ∀ c, c ∈ contributors →
        ∃ token full_name email rest,
          token ∈ tokens
          ∧ c = PyDict [("full_name", PyStr full_name);
                        ("email", PyStr email)]
          ∧ strip token
            = (full_name ++ "<" ++ email ++ ">" ++ rest)%string
          ∧ full_name ≠ ""
          ∧ all_chars Regex.full_name_char full_name = true
          ∧ all_chars email_char email = true.
Proof.
  intros Hname Hreq self tokens.
  exists (tokens ≫= ContributorField.contributor).
  subst self. unfold Cell.field_instance_for.
  rewrite field_class_for_contributors by done. split; [|split].
  - rewrite parse_uncached by done. unfold _validate. simpl Field.class.
    unfold ContributorField._validate, required_and_empty. simpl.
    destruct (default false (v_required rule)); [|done].
    by destruct (strip value); [destruct Hreq|].
  - apply bind_at_most_one. intros token.
    unfold ContributorField.contributor.
    by destruct (Regex.contributor_regex _) as [[??]|]; simpl; lia.
  - intros c Hc. apply list_elem_of_bind in Hc as (token & Hc & Htoken).
    unfold ContributorField.contributor in Hc.
    destruct (Regex.contributor_regex (strip token))
      as [[full_name email]|] eqn:Hmatch; [|by apply elem_of_nil in Hc].
    apply list_elem_of_singleton in Hc as ->.
    apply contributor_regex_sound in Hmatch as (rest & Hs & Hn & Hf & He).
    by exists token, full_name, email, rest.
Qed.

(** The example of two contributors, and a token without brackets
    between them. *)
Lemma X6_contributors_witness :
  let self :=
    Cell.field_instance_for "admin"
      "Jane Doe<jane@example.com>; nobody ;John Roe<john@example.com>"
      (metadata_rule "list" (Some true)) Sample.closure in
  let tokens :=
    split_strip ";"
      (strip "Jane Doe<jane@example.com>; nobody ;John Roe<john@example.com>") in
  ∃ contributors,
    parse Sample.env self world0
    = (Ok (PyList contributors,
           Field.set_parsed_value self (Some (PyList contributors))),
       world0)
    ∧ (length contributors ≤ length tokens)%nat
    ∧ ∀ c, c ∈ contributors →
        ∃ token full_name email rest,
          token ∈ tokens
          ∧ c = PyDict [("full_name", PyStr full_name);
                        ("email", PyStr email)]
          ∧ strip token
            = (full_name ++ "<" ++ email ++ ">" ++ rest)%string
          ∧ full_name ≠ ""
          ∧ all_chars Regex.full_name_char full_name = true
          ∧ all_chars email_char email = true.
Proof.
  apply (X6_contributors_drop_silently Sample.env "admin"
           "Jane Doe<jane@example.com>; nobody ;John Roe<john@example.com>"
           (metadata_rule "list" (Some true)) Sample.closure world0).
  - compute_done.
  - intros _. by vm_compute.
Defined.

(** ** The value of a license cell *)

(** A match on one character literal is a test of equality. *)
Lemma match_semicolon {A} (c : ascii) (X Y : A) :
  match c with ";"%char => X | _ => Y end
  = if Ascii.eqb c ";" then X else Y.
Proof. by destruct c as [[] [] [] [] [] [] [] []]. Qed.

Lemma match_space {A} (c : ascii) (X Y : A) :
  match c with " "%char => X | _ => Y end
  = if Ascii.eqb c " " then X else Y.
Proof. by destruct c as [[] [] [] [] [] [] [] []]. Qed.

Lemma match_less_than {A} (c : ascii) (X Y : A) :
  match c with "<"%char => X | _ => Y end
  = if Ascii.eqb c "<" then X else Y.
Proof. by destruct c as [[] [] [] [] [] [] [] []]. Qed.

(** A match of the extended pattern reads the value literally, and its
    name is the name the simple pattern takes. *)
Lemma with_required_fields_regex_sound (s name year holders : string) :
  Regex.with_required_fields_regex s = Some (name, year, holders) →
  Regex.no_required_fields_regex s = Some name
  ∧ ∃ y rest,
      year = String " " y
      ∧ String.length y = 4
      ∧ holders ≠ ""
      ∧ s = (name ++ ";" ++ year ++ ";" ++ holders ++ rest)%string.
Proof.
  unfold Regex.with_required_fields_regex, Regex.no_required_fields_regex.
  destruct (span Regex.name_char s) as [a b] eqn:Hspan.
  apply span_spec in Hspan as [-> _].
  destruct a as [|c0 a]; [done|].
  destruct b as [|c1 b]; [done|]. rewrite match_semicolon.
  destruct (Ascii.eqb_spec c1 ";") as [->|_]; [|done].
  destruct b as [|c2 b]; [done|]. rewrite match_space.
  destruct (Ascii.eqb_spec c2 " ") as [->|_]; [|done].
  destruct b as [|m [|c [|d [|u [|c3 rest]]]]]; try done.
  rewrite match_semicolon.
  destruct (Ascii.eqb_spec c3 ";") as [->|_]; [|done].
  destruct (between 49 51 m && is_digit c && is_digit d && is_digit u);
    [|done].
  destruct (span Regex.holder_char rest) as [h t] eqn:Hholders.
  apply span_spec in Hholders as [-> _].
  destruct h as [|c4 h]; [done|].
  intros Heq. injection Heq as <- <- <-. split; [done|].
  exists (String m (String c (String d (String u "")))), t.
  split; [done|]. split; [done|]. split; [done|].
  simpl. by f_equal.
Qed.

(** X7. What a license cell can resolve to. A parse that returns gives
    [''] (no value), or the dict of the name alone, or the dict of the
    name and the required fields; in the last two cases the name in the
    dict is the name the simple pattern reads at the start of the
    stripped raw value, a license of that name exists, and it has no
    required properties in the one case and some in the other. With
    required fields the stripped raw value reads: the name, a
    semicolon, one space, four characters, a semicolon, the holders;
    and the year in the dict is that space followed by the four
    characters, never the four characters alone. *)
Theorem X7_license_value_shapes (env : Env) (value : string)
    (rule : validation) (closure : log_error_closure) (w w' : world)
    (v : pyval) (self' : Field.t) :
  parse env (Cell.field_instance_for "license" value rule closure) w
  = (Ok (v, self'), w') →
  v = PyStr ""
  ∨ ∃ name node_license,
      Regex.no_required_fields_regex (strip value) = Some name
      ∧ license_get env name = Some node_license
      ∧ ((license_properties node_license = []
          ∧ v = PyDict [("name", PyStr name)])
         ∨ (license_properties node_license ≠ []
            ∧ ∃ y holders rest,
                String.length y = 4
                ∧ holders ≠ ""
                ∧ strip value
                  = (name ++ ";" ++ String " " y ++ ";" ++ holders
                     ++ rest)%string
                ∧ v = PyDict
                        [("name", PyStr name);
                         ("required_field",
                          PyDict
                            [("year", PyStr (String " " y));
                             ("copyright_holders",
                              PyList (PyStr <$>
                                      split_strip "," holders))])])).
Proof.
  unfold Cell.field_instance_for. rewrite field_class_for_license.
  rewrite parse_uncached, _validate_license by done.
  unfold LicenseField._validate.
  destruct (required_and_empty _).
  { unfold bind, log_missing, log_error, ret. simpl.
    intros ?; simplify_eq. by left. }
  change (Field.value (MetadataField.__init__ LicenseField value rule closure))
    with (strip value).
  destruct (Regex.no_required_fields_regex (strip value)) as [name|] eqn:Hname.
  2:{ unfold bind, log_invalid, log_error, ret. simpl.
      intros ?; simplify_eq. by left. }
  unfold bind, ask_source, log_invalid, log_error, ret. simpl.
  destruct (license_get env name) as [node_license|] eqn:Hget.
  2:{ simpl. intros ?; simplify_eq. by left. }
  case_bool_decide as Hprops.
  - destruct (Regex.with_required_fields_regex (strip value))
      as [[[n year] holders]|] eqn:Hext.
    2:{ simpl. intros ?; simplify_eq. by left. }
    simpl. intros ?; simplify_eq. right.
    apply with_required_fields_regex_sound in Hext
      as (Hn & y & rest & -> & Hy & Hholders & Hvalue).
    rewrite Hname in Hn. simplify_eq.
    exists n, node_license. split; [done|]. split; [done|]. right.
    split; [done|]. by exists y, holders, rest.
  - simpl. intros ?; simplify_eq. right.
    exists name, node_license. split; [done|]. split; [done|]. left.
    split; [|done].
    destruct (license_properties node_license); [done|]. by destruct Hprops.
Qed.

(** The hyphen-free example against the sample licenses. *)
Lemma X7_license_value_shapes_witness :
  let v :=
    PyDict
      [("name", PyStr "CCBY");
       ("required_field",
        PyDict [("year", PyStr " 2020");
                ("copyright_holders",
                 PyList [PyStr "Jane Doe"; PyStr "John Roe"])])] in
  v = PyStr ""
  ∨ ∃ name node_license,
      Regex.no_required_fields_regex (strip "CCBY; 2020; Jane Doe, John Roe")
      = Some name
      ∧ license_get Sample.env name = Some node_license
      ∧ ((license_properties node_license = []
          ∧ v = PyDict [("name", PyStr name)])
         ∨ (license_properties node_license ≠ []
            ∧ ∃ y holders rest,
                String.length y = 4
                ∧ holders ≠ ""
                ∧ strip "CCBY; 2020; Jane Doe, John Roe"
                  = (name ++ ";" ++ String " " y ++ ";" ++ holders
                     ++ rest)%string
                ∧ v = PyDict
                        [("name", PyStr name);
                         ("required_field",
                          PyDict
                            [("year", PyStr (String " " y));
                             ("copyright_holders",
                              PyList (PyStr <$>
                                      split_strip "," holders))])])).
Proof.
  intros v.
  eapply (X7_license_value_shapes Sample.env "CCBY; 2020; Jane Doe, John Roe"
            (metadata_rule "object" (Some true)) Sample.closure world0).
  vm_compute. reflexivity.
Defined.

(** ** The value of a questionnaire cell *)

(** The multi-select loop comes to its end only when no choice is among
    the options. *)
Lemma multiselect_loop_returns (self : Field.t) (choices : list string)
    (w w' : world) (u : unit) :
  for_each choices (RegistrationResponseField.multiselect_step self) w
  = (Ok u, w') →
  Forall (λ c, c ∉ Field.options self) choices.
Proof.
  revert w. induction choices as [|c choices IH]; intros w; simpl.
  - by constructor.
  - unfold bind, RegistrationResponseField.multiselect_step at 1.
    case_decide as Hc; [|done].
    unfold log_invalid, log_error at 1. simpl. intros Hloop.
    constructor; [done|]. by eapply IH.
Qed.

(** X8. What a questionnaire cell can resolve to. A parse that returns
    gives [''], or the empty list, or the stripped raw value. It gives
    the empty list only for a multi-select question none of whose
    tokens is an allowed option; it gives the stripped raw value only
    for a question of type [string], or for a single-select question
    when that value is one of the allowed options. So a parsed choice
    is never outside the options, and a parsed multi-select answer never
    holds a choice. *)
Theorem X8_response_value_shapes (env : Env) (name value : string)
    (rule : validation) (closure : log_error_closure) (w w' : world)
    (v : pyval) (self' : Field.t) :
  name ∉ dom METADATA_FIELDS →
  parse env (Cell.field_instance_for name value rule closure) w
  = (Ok (v, self'), w') →
  let type := default "string" (v_type rule) in
  let options := default [] (v_options rule) in
  v = PyStr ""
  ∨ (v = PyList []
     ∧ type = "choose" ∧ v_format rule = Some "multiselect"
     ∧ Forall (λ c, c ∉ options) (split_strip ";" (strip value)))
  ∨ (v = PyStr (strip value)
     ∧ (type = "string"
        ∨ (type = "choose" ∧ v_format rule = Some "singleselect"
           ∧ strip value ∈ options))).
Proof.
  intros Hname. unfold Cell.field_instance_for.
  rewrite field_class_for_question by done.
  rewrite parse_uncached, _validate_response by done.
  unfold RegistrationResponseField._validate.
  destruct (required_and_empty _).
  { unfold bind, log_missing, log_error, ret. simpl.
    intros ?; simplify_eq. by left. }
  set (self := RegistrationResponseField.__init__ value rule closure).
  change (Field.type self) with (default "string" (v_type rule)).
  change (Field.format self) with (v_format rule).
  change (Field.value self) with (strip value).
  change (Field.options self) with (default [] (v_options rule)).
  unfold bind, ret, log_invalid, log_error. intros Hparse. cbv zeta.
  case_decide as Hstring.
  { simpl in Hparse. simplify_eq. right. right. split; [done|]. by left. }
  case_decide as Hchoose.
  2:{ simpl in Hparse. simplify_eq. by left. }
  destruct Hchoose as [Hchoose Hformat].
  case_decide as Hsingle.
  - case_decide as Hoption.
    + simpl in Hparse. simplify_eq. by left.
    + simpl in Hparse. simplify_eq. right. right. split; [done|]. right.
      by split; [|split].
  - destruct (for_each _ _ w) as [[u|e] w1] eqn:Hloop; [|done].
    simpl in Hparse. simplify_eq. right. left. split; [done|].
    apply multiselect_loop_returns in Hloop.
    split; [done|]. split; [|done].
    apply elem_of_cons in Hformat as [Hformat|Hformat]; [done|].
    by apply list_elem_of_singleton in Hformat.
Qed.

(** The answer ["c"] to the multi-select question of the sample schema,
    which allows ["a"] and ["b"]. *)
Lemma X8_response_value_shapes_witness :
  let rule :=
    {| v_required := Some false; v_format := Some "multiselect";
       v_type := Some "choose"; v_options := Some ["a"; "b"] |} in
  let v := PyList [] in
  v = PyStr ""
  ∨ (v = PyList []
     ∧ default "string" (v_type rule) = "choose"
     ∧ v_format rule = Some "multiselect"
     ∧ Forall (λ c, c ∉ default [] (v_options rule))
              (split_strip ";" (strip "c")))
  ∨ (v = PyStr (strip "c")
     ∧ (default "string" (v_type rule) = "string"
        ∨ (default "string" (v_type rule) = "choose"
           ∧ v_format rule = Some "singleselect"
           ∧ strip "c" ∈ default [] (v_options rule)))).
Proof.
  intros rule v.
  eapply (X8_response_value_shapes Sample.env "q1" "c" rule Sample.closure
            world0).
  - compute_done.
  - vm_compute. reflexivity.
Defined.

(** X9. An answer to a question of another kind vanishes. For a
    questionnaire cell whose type is neither [string] nor [choose], or
    is [choose] with a format other than [singleselect] and
    [multiselect], and that is not both required and blank: one parse
    returns [''], logs nothing, looks nothing up and caches nothing,
    whatever the raw value. *)
Theorem X9_other_question_kinds_are_silent (env : Env) (name value : string)
    (rule : validation) (closure : log_error_closure) (w : world) :
  name ∉ dom METADATA_FIELDS →
  default "string" (v_type rule) ≠ "string" →
  ¬ (default "string" (v_type rule) = "choose"
     ∧ v_format rule ∈ [Some "singleselect"; Some "multiselect"]) →
  (default false (v_required rule) = true → strip value ≠ "") →
  let self := Cell.field_instance_for name value rule closure in
  parse env self w = (Ok (PyStr "", self), w)
  ∧ Field._parsed_value self = None.
Proof.
  intros Hname Hstring Hchoose Hreq. unfold Cell.field_instance_for.
  rewrite field_class_for_question by done. cbv zeta. split; [|done].
  rewrite parse_uncached, _validate_response by done.
  unfold RegistrationResponseField._validate, required_and_empty.
  set (self := RegistrationResponseField.__init__ value rule closure).
  change (Field.type self) with (default "string" (v_type rule)).
  change (Field.format self) with (v_format rule).
  change (Field.value self) with (strip value).
  change (Field.required self) with (default false (v_required rule)).
  assert (default false (v_required rule) && negb (truthy (strip value))
          = false) as ->.
  { destruct (default false (v_required rule)); [|done].
    by destruct (strip value); [destruct Hreq|]. }
  rewrite decide_False by done. rewrite decide_False by done.
  by unfold bind, ret.
Qed.

(** An uploaded-file question with a file name as its answer. *)
Lemma X9_other_question_kinds_witness :
  let self :=
    Cell.field_instance_for "q9" "data.csv"
      {| v_required := Some true; v_format := Some "";
         v_type := Some "osf-upload"; v_options := Some [] |}
      Sample.closure in
  parse Sample.env self world0 = (Ok (PyStr "", self), world0)
  ∧ Field._parsed_value self = None.
Proof.
  apply (X9_other_question_kinds_are_silent Sample.env "q9" "data.csv"
           {| v_required := Some true; v_format := Some "";
              v_type := Some "osf-upload"; v_options := Some [] |}
           Sample.closure world0).
  - compute_done.
  - compute_done.
  - intros [H _]. by vm_compute in H.
  - intros _. by vm_compute.
Defined.

(** ** Optional cells are validated all the same *)

Lemma field_class_for_category :
  Cell.field_class_for "category" = CategoryField.
Proof. by vm_compute. Qed.

Lemma field_class_for_project_guid :
  Cell.field_class_for "project guid" = ProjectIDField.
Proof. by vm_compute. Qed.

(** X10. The category and project-guid validators make no exception for
    a value that is blank or for a rule that is optional. With [v] the
    stripped raw value: a category cell resolves to the code the
    category table holds under [v] and logs one [invalid] record when
    [v] is not a key of the table, without any lookup; a project-guid
    cell makes one node lookup for [v], echoes [v] when a project has
    that guid and logs one [invalid] record when none has. So a cell of
    these two optional columns that is left empty is reported as
    invalid unless the empty string is itself a category key or a
    guid. *)
Theorem X10_category_and_project_cells (env : Env) (value : string)
    (rule : validation) (closure : log_error_closure) (w : world) :
  let v := strip value in
  let category := Cell.field_instance_for "category" value rule closure in
  let project := Cell.field_instance_for "project guid" value rule closure in
  (∀ code,
     NODE_CATEGORY_MAP env !! v = Some code →
     parse env category w
     = (Ok (PyStr code,
            Field.set_parsed_value category (Some (PyStr code))), w))
  ∧ (NODE_CATEGORY_MAP env !! v = None →
     parse env category w
     = (Ok (PyStr "", category),
        {| errors := errors w ++ [invalid_record closure];
           queries := queries w |}))
  ∧ (node_exists env v = true →
     parse env project w
     = (Ok (PyStr v, Field.set_parsed_value project (Some (PyStr v))),
        {| errors := errors w; queries := queries w ++ [QNode v] |}))
  ∧ (node_exists env v = false →
     parse env project w
     = (Ok (PyStr "", project),
        {| errors := errors w ++ [invalid_record closure];
           queries := queries w ++ [QNode v] |})).
Proof.
  intros v category project. subst v category project.
  unfold Cell.field_instance_for.
  rewrite field_class_for_category, field_class_for_project_guid.
  repeat split.
  - intros code Hcode. rewrite parse_uncached by done.
    unfold _validate, CategoryField._validate, ret. simpl.
    by rewrite Hcode.
  - intros Hcode. rewrite parse_uncached by done.
    unfold _validate, CategoryField._validate, bind, log_invalid,
      log_error, ret. simpl.
    by rewrite Hcode.
  - intros Hnode. rewrite parse_uncached by done.
    unfold _validate, ProjectIDField._validate, bind, ask_source, ret.
    simpl. by rewrite Hnode.
  - intros Hnode. rewrite parse_uncached by done.
    unfold _validate, ProjectIDField._validate, bind, ask_source,
      log_invalid, log_error, ret.
    simpl. by rewrite Hnode.
Qed.

(** ** Documents the reader cannot start on, and fresh uploads *)

Lemma iterate_blank (fieldnames : list string) (line_num : nat)
    (lines : list (list string)) :
  (∀ line, line ∈ lines → line = []) →
  DictReader.iterate fieldnames line_num lines = [].
Proof.
  revert line_num. induction lines as [|line lines IH]; intros n Hblank;
    [done|].
  rewrite (Hblank line) by (by left). simpl. apply IH.
  intros l Hl. apply Hblank. by right.
Qed.

Lemma iterate_length (fieldnames : list string) (line_num : nat)
    (lines : list (list string)) :
  length (DictReader.iterate fieldnames line_num lines)
  = length (filter (λ line, line ≠ []) lines).
Proof.
  revert line_num. induction lines as [|line lines IH]; intros n; [done|].
  destruct line as [|c cells]; cbn [DictReader.iterate].
  - rewrite filter_cons_False by (by intros ?). apply IH.
  - rewrite filter_cons_True by done. cbn [length]. by rewrite IH.
Qed.

(** X11. Three kinds of document on which construction fails before
    anything is looked up or logged. Without any row (an empty file)
    construction raises [TypeError]; with a header row followed by
    blank lines only, [StopIteration]; with a blank header row followed
    by some non-blank line, [IndexError]. In each case the error list
    and the lookup log are as they were. (A header row and a schema-id
    row without a registration line are not among them.) *)
Theorem X11_reader_cannot_start (env : Env) (provider_id : string)
    (w : world) :
  BulkRegistrationUpload.__init__ env [] provider_id w = (Raise TypeError, w)
  ∧ (∀ fieldnames lines,
       (∀ line, line ∈ lines → line = []) →
       BulkRegistrationUpload.__init__ env (fieldnames :: lines) provider_id w
       = (Raise StopIteration, w))
  ∧ (∀ lines,
       (∃ line, line ∈ lines ∧ line ≠ []) →
       BulkRegistrationUpload.__init__ env ([] :: lines) provider_id w
       = (Raise IndexError, w)).
Proof.
  split; [done|]. split.
  - intros fieldnames lines Hblank.
    unfold BulkRegistrationUpload.__init__, bind, lift,
      BulkRegistrationUpload.open_reader.
    by rewrite iterate_blank.
  - intros lines (line & Hin & Hne).
    unfold BulkRegistrationUpload.__init__, bind, lift,
      BulkRegistrationUpload.open_reader.
    destruct (DictReader.iterate [] 2 lines) as [|[n d] rest] eqn:Hrows;
      [|done].
    exfalso. pose proof (iterate_length [] 2 lines) as Hlen.
    rewrite Hrows in Hlen. simpl in Hlen. symmetry in Hlen.
    apply length_zero_iff_nil in Hlen.
    assert (line ∈ filter (λ line, line ≠ []) lines) as Hfiltered.
    { by apply list_elem_of_filter. }
    rewrite Hlen in Hfiltered. by apply elem_of_nil in Hfiltered.
Qed.

(** What lies behind a construction that succeeded. *)
Lemma init_inversion (env : Env) (fieldnames : list string)
    (lines : list (list string)) (provider_id : string) (w0 w1 : world)
    (self : BulkRegistrationUpload.t) :
  BulkRegistrationUpload.__init__ env (fieldnames :: lines) provider_id w0
  = (Ok self, w1) →
  ∃ id schema_id_row data_rows schema,
    DictReader.iterate fieldnames 2 lines = schema_id_row :: data_rows
    ∧ id ≠ ""
    ∧ w1 = {| errors := [];
              queries := queries w0 ++ [QProvider provider_id; QSchema id] |}
    ∧ for_list data_rows
        (λ r, Row.__init__ r.2
                (METADATA_FIELDS ∪
                 BulkRegistrationUpload.get_questions_validations schema) r.1)
        w1
      = (Ok (BulkRegistrationUpload.rows self), w1)
    ∧ BulkRegistrationUpload.headers self = lower <$> fieldnames
    ∧ BulkRegistrationUpload.schema_id self = Some id
    ∧ BulkRegistrationUpload.validations self
      = METADATA_FIELDS ∪
        BulkRegistrationUpload.get_questions_validations schema.
Proof.
  intros Hinit.
  destruct (BulkRegistrationUpload.open_reader (fieldnames :: lines))
    as [[[headers schema_id] data_rows]|e] eqn:Hopen;
    [|by unfold BulkRegistrationUpload.__init__, bind, lift in Hinit;
         rewrite Hopen in Hinit].
  destruct (open_reader_ok _ _ _ _ Hopen) as (fs & ls & Hcsv & ->).
  simplify_eq.
  assert (∃ schema_id_row,
            DictReader.iterate fs 2 ls = schema_id_row :: data_rows)
    as [schema_id_row Hrows].
  { unfold BulkRegistrationUpload.open_reader in Hopen.
    destruct (DictReader.iterate fs 2 ls) as [|[n d] rest]; [done|].
    destruct fs as [|first others]; [done|].
    destruct (dict_get (Some first) d); [|done]. simplify_eq.
    by exists (n, d). }
  destruct schema_id as [id|];
    [|by unfold BulkRegistrationUpload.__init__, bind, lift in Hinit;
         rewrite Hopen in Hinit].
  destruct (truthy id) eqn:Hid;
    [|by unfold BulkRegistrationUpload.__init__, bind, lift,
           BulkRegistrationUpload.assign_schema in Hinit;
         rewrite Hopen, Hid in Hinit].
  destruct (provider_load env provider_id) as [p| |] eqn:Hload;
    [|by unfold BulkRegistrationUpload.__init__, bind, lift,
           BulkRegistrationUpload.assign_schema,
           BulkRegistrationUpload.lookup, bind, ask_source in Hinit;
         rewrite Hopen, Hid, Hload in Hinit..].
  destruct (schemas_get p id) as [schema|] eqn:Hget;
    [|by erewrite init_schema_unknown in Hinit].
  erewrite init_resolved in Hinit by done.
  set (started := {| errors := [];
                     queries := queries w0 ++
                                [QProvider provider_id; QSchema id] |})
    in *.
  pose proof (rows_world
                (METADATA_FIELDS ∪
                 BulkRegistrationUpload.get_questions_validations schema)
                data_rows started) as Hworld.
  destruct (for_list data_rows _ started) as [[rows|e] w'] eqn:Hbuilt;
    simpl in Hworld; simplify_eq.
  exists id, schema_id_row, data_rows, schema.
  repeat split; try done. by intros ->.
Qed.

(** The rows of a construction, one per dict, each built from its dict
    with the dict's line number as row index. *)
Lemma rows_built (validations : gmap string validation)
    (data_rows : list (nat * row_dict)) (rows : list Row.t) (w w' : world) :
  for_list data_rows (λ r, Row.__init__ r.2 validations r.1) w
  = (Ok rows, w') →
  Forall2 (λ r row,
             length (Row.cells row) = length r.2
             ∧ ∀ i cell, Row.cells row !! i = Some cell →
                 ∃ item, r.2 !! i = Some item
                         ∧ built_from validations r.1 i item cell)
          data_rows rows.
Proof.
  apply for_list_Forall2. intros [n d] row w1 w2. simpl.
  unfold Row.__init__, bind, ret. intros Hrow.
  destruct (Row.make_cells validations n 0 d w1) as [[cells|e] w3] eqn:Hcells;
    simplify_eq.
  by apply make_cells_built in Hcells.
Qed.

(** X12. A fresh upload has validated nothing. After a construction
    that succeeds, the schema id read is a non-empty string; the
    headers are the lower-cased header row; the error list is empty,
    so [is_valid] holds whatever the cells contain; the lookup log has
    grown by exactly the provider lookup and the schema lookup; there
    is one row per non-blank line after the schema-id row; no field has
    a cached value; and under each fixed metadata name the rules hold
    the rule of the fixed table, whatever the schema says. *)
Theorem X12_fresh_upload (env : Env) (fieldnames : list string)
    (lines : list (list string)) (provider_id : string) (w0 w1 : world)
    (self : BulkRegistrationUpload.t) :
  BulkRegistrationUpload.__init__ env (fieldnames :: lines) provider_id w0
  = (Ok self, w1) →
  ∃ id,
    BulkRegistrationUpload.schema_id self = Some id
    ∧ id ≠ ""
    ∧ BulkRegistrationUpload.headers self = lower <$> fieldnames
    ∧ w1 = {| errors := [];
              queries := queries w0 ++ [QProvider provider_id; QSchema id] |}
    ∧ BulkRegistrationUpload.is_valid w1 = true
    ∧ S (length (BulkRegistrationUpload.rows self))
      = length (filter (λ line, line ≠ []) lines)
    ∧ (∀ row cell,
         row ∈ BulkRegistrationUpload.rows self →
         cell ∈ Row.cells row →
         Field._parsed_value (Cell.field cell) = None)
    ∧ (∀ h rule,
         METADATA_FIELDS !! h = Some rule →
         BulkRegistrationUpload.validations self !! h = Some rule).
Proof.
  intros Hinit.
  apply init_inversion in Hinit
    as (id & schema_id_row & data_rows & schema & Hrows & Hid & -> & Hbuilt
        & Hheaders & Hschema_id & Hrules).
  exists id. split; [done|]. split; [done|]. split; [done|].
  split; [done|]. split; [done|].
  apply rows_built in Hbuilt. split; [|split].
  - rewrite <- (iterate_length fieldnames 2), Hrows. cbn [length].
    by rewrite <- (Forall2_length _ _ _ Hbuilt).
  - intros row cell Hrow Hcell.
    apply list_elem_of_lookup in Hrow as [j Hj].
    destruct (Forall2_lookup_r _ _ _ _ _ Hbuilt Hj) as (r & _ & _ & Hcells).
    apply list_elem_of_lookup in Hcell as [i Hi].
    destruct (Hcells i cell Hi) as (item & _ & k & s & _ & _ & _ & _ & _ & _
                                    & Hnone & _).
    done.
  - intros h rule Hh. rewrite Hrules. by apply lookup_union_Some_l.
Qed.

(** The well-formed sample document. *)
Lemma X12_fresh_upload_witness :
  ∃ self w1 id,
    BulkRegistrationUpload.__init__ Sample.env Sample.document "osf" world0
    = (Ok self, w1)
    ∧ BulkRegistrationUpload.schema_id self = Some id
    ∧ id ≠ ""
    ∧ BulkRegistrationUpload.headers self = lower <$> Sample.header_row
    ∧ w1 = {| errors := [];
              queries := queries world0 ++ [QProvider "osf"; QSchema id] |}
    ∧ BulkRegistrationUpload.is_valid w1 = true
    ∧ S (length (BulkRegistrationUpload.rows self))
      = length (filter (λ line, line ≠ [])
                  [Sample.schema_id_row; Sample.registration_row])
    ∧ (∀ row cell,
         row ∈ BulkRegistrationUpload.rows self →
         cell ∈ Row.cells row →
         Field._parsed_value (Cell.field cell) = None)
    ∧ (∀ h rule,
         METADATA_FIELDS !! h = Some rule →
         BulkRegistrationUpload.validations self !! h = Some rule).
Proof.
  destruct (BulkRegistrationUpload.__init__ Sample.env Sample.document
              "osf" world0) as [[self|e] w1] eqn:Hinit;
    [|by vm_compute in Hinit].
  destruct (X12_fresh_upload Sample.env Sample.header_row
              [Sample.schema_id_row; Sample.registration_row] "osf"
              world0 w1 self Hinit) as (id & Hfresh).
  exists self, w1, id. split; [reflexivity|]. exact Hfresh.
Defined.

(** ** Where a record points *)

(** Each dict the reader yields is the dict of a non-blank line, and its
    number is the position of that line. *)
Lemma iterate_lookup (fieldnames : list string) (line_num : nat)
    (lines : list (list string)) (j m : nat) (d : row_dict) :
  DictReader.iterate fieldnames line_num lines !! j = Some (m, d) →
  ∃ k line,
    lines !! k = Some line ∧ line ≠ [] ∧ m = line_num + k
    ∧ d = DictReader.to_dict fieldnames line ∧ (j ≤ k)%nat.
Proof.
  revert line_num j. induction lines as [|line lines IH]; intros n j;
    [done|].
  destruct line as [|c cells]; cbn [DictReader.iterate].
  - intros Hj. apply IH in Hj as (k & l & Hk & Hne & -> & -> & Hle).
    exists (S k), l. repeat split; [done|done|lia|lia].
  - destruct j as [|j]; simpl.
    + intros ?; simplify_eq. exists 0, (c :: cells).
      repeat split; [done|lia|lia].
    + intros Hj. apply IH in Hj as (k & l & Hk & Hne & -> & -> & Hle).
      exists (S k), l. repeat split; [done|done|lia|lia].
Qed.

Lemma rows_dicts (validations : gmap string validation)
    (data_rows : list (nat * row_dict)) (rows : list Row.t) (w w' : world) :
  for_list data_rows (λ r, Row.__init__ r.2 validations r.1) w
  = (Ok rows, w') →
  Forall2 (λ r row, Row.row_dict_ row = r.2) data_rows rows.
Proof.
  apply for_list_Forall2. intros [n d] row w1 w2. simpl.
  unfold Row.__init__, bind, ret. intros Hrow.
  destruct (Row.make_cells validations n 0 d w1) as [[cells|e] w3];
    by simplify_eq.
Qed.

(** X13. The coordinates of a record are those of its cell in the
    document. In a constructed upload every row was read from a
    non-blank line that comes after the header row and the schema-id
    row; with [k] the 0-based position of that line among the rows of
    the document, the field of the row's cell at position [i] logs
    under the cell's header, with column index [i] and with row index
    [k + 1], the 1-based number of the line. *)
Theorem X13_record_coordinates (env : Env) (fieldnames : list string)
    (lines : list (list string)) (provider_id : string) (w0 w1 : world)
    (self : BulkRegistrationUpload.t) (j : nat) (row : Row.t) :
  BulkRegistrationUpload.__init__ env (fieldnames :: lines) provider_id w0
  = (Ok self, w1) →
  BulkRegistrationUpload.rows self !! j = Some row →
  ∃ k line,
    (fieldnames :: lines) !! k = Some line
    ∧ line ≠ []
    ∧ (2 + j ≤ k)%nat
    ∧ Row.row_dict_ row = DictReader.to_dict fieldnames line
    ∧ ∀ i cell,
        Row.cells row !! i = Some cell →
        Field.log_error (Cell.field cell)
        = {| bound_header := Cell.header cell; bound_column_index := i;
             bound_row_index := k + 1 |}.
Proof.
  intros Hinit Hrow.
  apply init_inversion in Hinit
    as (id & schema_id_row & data_rows & schema & Hrows & _ & -> & Hbuilt
        & _ & _ & _).
  pose proof (rows_dicts _ _ _ _ _ Hbuilt) as Hdicts.
  apply rows_built in Hbuilt.
  destruct (Forall2_lookup_r _ _ _ _ _ Hbuilt Hrow)
    as ([m d] & Hdata & _ & Hcells).
  destruct (Forall2_lookup_r _ _ _ _ _ Hdicts Hrow)
    as ([m' d'] & Hdata' & Hdict).
  pose proof (eq_trans (eq_sym Hdata') Hdata) as Hsame.
  injection Hsame as -> ->. simpl in Hdict, Hcells.
  assert (DictReader.iterate fieldnames 2 lines !! S j = Some (m, d))
    as Hiter by (by rewrite Hrows).
  apply iterate_lookup in Hiter as (k & line & Hk & Hne & -> & -> & Hle).
  exists (S k), line. split; [done|]. split; [done|]. split; [lia|].
  split; [done|]. intros i cell Hi.
  destruct (Hcells i cell Hi)
    as (item & _ & key & s & _ & -> & _ & _ & _ & _ & _ & ->).
  f_equal. lia.
Qed.

(** The registration of the sample document, read from its third
    line. *)
Lemma X13_record_coordinates_witness :
  ∃ self w1 row k line,
    BulkRegistrationUpload.__init__ Sample.env Sample.document "osf" world0
    = (Ok self, w1)
    ∧ BulkRegistrationUpload.rows self !! 0 = Some row
    ∧ Sample.document !! k = Some line
    ∧ line ≠ []
    ∧ (2 + 0 ≤ k)%nat
    ∧ Row.row_dict_ row = DictReader.to_dict Sample.header_row line
    ∧ ∀ i cell,
        Row.cells row !! i = Some cell →
        Field.log_error (Cell.field cell)
        = {| bound_header := Cell.header cell; bound_column_index := i;
             bound_row_index := k + 1 |}.
Proof.
  destruct (BulkRegistrationUpload.__init__ Sample.env Sample.document
              "osf" world0) as [[self|e] w1] eqn:Hinit;
    [|by vm_compute in Hinit].
  destruct (BulkRegistrationUpload.rows self !! 0) as [row|] eqn:Hrow;
    [|by vm_compute in Hinit; simplify_eq].
  destruct (X13_record_coordinates Sample.env Sample.header_row
              [Sample.schema_id_row; Sample.registration_row] "osf"
              world0 w1 self 0 row Hinit Hrow) as (k & line & Hcoordinates).
  exists self, w1, row, k, line.
  split; [reflexivity|]. split; [exact Hrow|]. exact Hcoordinates.
Defined.

(** ** A row whose cells all have a value *)

Lemma set_field_same (cell : Cell.t) : Cell.set_field cell (Cell.field cell) = cell.
Proof. by destruct cell. Qed.

Lemma cell_validate_cached (env : Env) (cell : Cell.t) (w : world) :
  is_Some (Field._parsed_value (Cell.field cell)) →
  Cell.validate env cell w = (Ok cell, w).
Proof.
  intros [v Hv]. unfold Cell.validate, bind, ret.
  rewrite (parse_cached env _ v) by done. simpl. by rewrite set_field_same.
Qed.

Lemma cells_validate_cached (env : Env) (cells : list Cell.t) (w : world) :
  Forall (λ c, is_Some (Field._parsed_value (Cell.field c))) cells →
  for_list cells (Cell.validate env) w = (Ok cells, w).
Proof.
  induction 1 as [|cell cells Hcell _ IH]; [done|].
  cbn [for_list]. unfold bind, ret.
  rewrite cell_validate_cached by done. by rewrite IH.
Qed.

Lemma dict_set_elem {K V} `{EqDecision K} (k k' : K) (v v' : V)
    (d : list (K * V)) :
  (k', v') ∈ dict_set k v d → (k', v') = (k, v) ∨ (k', v') ∈ d.
Proof.
  induction d as [|[k0 v0] d IH]; simpl.
  - intros Hin. apply list_elem_of_singleton in Hin. by left.
  - case_decide.
    + rewrite !elem_of_cons. intros [?|?]; [by left|right; by right].
    + rewrite !elem_of_cons. intros [?|Hin]; [right; by left|].
      apply IH in Hin as [?|?]; [by left|right; by right].
Qed.

(** Collecting over cached cells: the cells and the world stay, and
    every entry collected is the cached value of a cell. *)
Lemma collect_cached (env : Env) (metadata : bool) (cells : list Cell.t)
    (parsed : list (string * pyval)) (w : world) :
  Forall (λ c, is_Some (Field._parsed_value (Cell.field c))) cells →
  ∃ parsed',
    Row.collect env metadata cells parsed w = (Ok (parsed', cells), w)
    ∧ ∀ h v, (h, v) ∈ parsed' →
        (h, v) ∈ parsed
        ∨ ∃ cell, cell ∈ cells ∧ Cell.header cell = h
                  ∧ Field._parsed_value (Cell.field cell) = Some v.
Proof.
  intros Hcached. revert parsed.
  induction Hcached as [|cell cells [v Hv] _ IH]; intros parsed;
    cbn [Row.collect].
  - exists parsed. split; [done|]. by left.
  - unfold bind, ret, Cell.get_parsed_value, bind, ret.
    destruct (bool_decide (Cell.is_metadata cell = metadata)).
    + rewrite (parse_cached env _ v) by done. cbn [fst snd].
      rewrite set_field_same.
      destruct (IH (dict_update parsed [(Cell.header cell, v)]))
        as (parsed' & -> & Hfrom).
      exists parsed'. split; [done|]. intros h v' Hin.
      apply Hfrom in Hin as [Hin|(c & Hc & Hh & Hcv)].
      * unfold dict_update in Hin. simpl in Hin.
        apply dict_set_elem in Hin as [Heq|Hin]; [|by left].
        simplify_eq. right. exists cell. split; [by left|done].
      * right. exists c. split; [by right|done].
    + cbn [fst snd]. destruct (IH parsed) as (parsed' & -> & Hfrom).
      exists parsed'. split; [done|]. intros h v' Hin.
      apply Hfrom in Hin as [Hin|(c & Hc & Hh & Hcv)]; [by left|].
      right. exists c. split; [by right|done].
Qed.

(** X14. A pass over a row whose cells all have a cached value costs
    nothing and changes nothing: [Row.validate] returns the row itself
    and leaves the error list and the lookup log as they are, and so
    does [Row.get_parsed_value], every entry of whose two dicts is the
    cached value of a cell under that cell's header. *)
Theorem X14_cached_row_is_stable (env : Env) (row : Row.t) (w : world) :
  Forall (λ c, is_Some (Field._parsed_value (Cell.field c)))
         (Row.cells row) →
  Row.validate env row w = (Ok row, w)
  ∧ ∃ metadata responses,
      Row.get_parsed_value env row w = (Ok (metadata, responses, row), w)
      ∧ ∀ h v, (h, v) ∈ metadata ++ responses →
          ∃ cell, cell ∈ Row.cells row ∧ Cell.header cell = h
                  ∧ Field._parsed_value (Cell.field cell) = Some v.
Proof.
  intros Hcached. split.
  - unfold Row.validate, bind, ret.
    rewrite cells_validate_cached by done. by destruct row.
  - unfold Row.get_parsed_value, bind, ret.
    destruct (collect_cached env true (Row.cells row) [] w Hcached)
      as (metadata & -> & Hmetadata).
    cbn [fst snd].
    destruct (collect_cached env false (Row.cells row) [] w Hcached)
      as (responses & -> & Hresponses).
    cbn [fst snd].
    exists metadata, responses. split; [by destruct row|].
    intros h v Hin. apply elem_of_app in Hin as [Hin|Hin].
    + apply Hmetadata in Hin as [Hin|?]; [|done].
      by apply elem_of_nil in Hin.
    + apply Hresponses in Hin as [Hin|?]; [|done].
      by apply elem_of_nil in Hin.
Qed.

(** A row with one title cell whose value is cached. *)
Lemma X14_cached_row_witness :
  let cell :=
    {| Cell.header := "title"; Cell.value := "A title";
       Cell.validations := metadata_rule "string" (Some true);
       Cell.field :=
         Field.set_parsed_value
           (Cell.field_instance_for "title" "A title"
              (metadata_rule "string" (Some true)) Sample.closure)
           (Some (PyStr "A title")) |} in
  let row :=
    {| Row.row_dict_ := [(Some "Title", CsvStr "A title")];
       Row.cells := [cell] |} in
  Row.validate Sample.env row world0 = (Ok row, world0)
  ∧ ∃ metadata responses,
      Row.get_parsed_value Sample.env row world0
      = (Ok (metadata, responses, row), world0)
      ∧ ∀ h v, (h, v) ∈ metadata ++ responses →
          ∃ cell, cell ∈ Row.cells row ∧ Cell.header cell = h
                  ∧ Field._parsed_value (Cell.field cell) = Some v.
Proof.
  intros cell row.
  apply (X14_cached_row_is_stable Sample.env row world0).
  repeat constructor. by eexists.
Defined.

(** ** The two dicts of a row *)

Lemma filter_same_cells (flag : bool) (cells cells' : list Cell.t) :
  Forall2 same_cell cells cells' →
  Cell.header <$> filter (λ c, Cell.is_metadata c = flag) cells'
  = Cell.header <$> filter (λ c, Cell.is_metadata c = flag) cells.
Proof.
  induction 1 as [|c c' cs cs' (Hh & _) _ IH]; [done|].
  assert (Cell.is_metadata c' = Cell.is_metadata c) as Hm.
  { unfold Cell.is_metadata. by rewrite Hh. }
  destruct (decide (Cell.is_metadata c = flag)) as [Hc|Hc].
  - rewrite !filter_cons_True by congruence. rewrite !fmap_cons.
    by rewrite Hh, IH.
  - by rewrite !filter_cons_False by congruence.
Qed.

Lemma filter_metadata_length (cells : list Cell.t) :
  length (filter (λ c, Cell.is_metadata c = true) cells)
  + length (filter (λ c, Cell.is_metadata c = false) cells)
  = length cells.
Proof.
  induction cells as [|c cells IH]; [done|].
  destruct (Cell.is_metadata c) eqn:Hc.
  - rewrite filter_cons_True, filter_cons_False by congruence.
    cbn [length]. lia.
  - rewrite filter_cons_False, filter_cons_True by congruence.
    cbn [length]. lia.
Qed.

(** The keys collected from cells with distinct headers, none of them
    already a key: the headers of the cells of the kind asked for, in
    order, after the keys there were. *)
Lemma collect_keys (env : Env) (metadata : bool) (cells cells' : list Cell.t)
    (parsed parsed' : list (string * pyval)) (w w' : world) :
  Row.collect env metadata cells parsed w = (Ok (parsed', cells'), w') →
  NoDup (parsed.*1 ++ (Cell.header <$> cells)) →
  parsed'.*1
  = parsed.*1
    ++ (Cell.header <$> filter (λ c, Cell.is_metadata c = metadata) cells).
Proof.
  revert cells' parsed w. induction cells as [|cell cells IH];
    intros cells' parsed w; cbn [Row.collect].
  - unfold ret. intros ? _; simplify_eq. by rewrite app_nil_r.
  - unfold bind, ret, Cell.get_parsed_value, bind, ret.
    rewrite fmap_cons. intros Hcollect Hnodup.
    case_bool_decide as Hkind.
    + destruct (parse env (Cell.field cell) w) as [[[v f]|e] w1]; [|done].
      cbn [fst snd] in Hcollect.
      destruct (Row.collect env metadata cells _ w1)
        as [[[p cs]|e] w2] eqn:Hrest; [|done].
      cbn [fst snd] in Hcollect. simplify_eq.
      assert (Cell.header cell ∉ parsed.*1) as Hfresh.
      { apply NoDup_app in Hnodup as (_ & Hdisjoint & _).
        intros Hin. apply (Hdisjoint _ Hin). by left. }
      assert (dict_update parsed [(Cell.header cell, v)]
              = parsed ++ [(Cell.header cell, v)]) as Hupdate.
      { unfold dict_update. cbn [foldl fst snd]. by apply dict_set_fresh. }
      rewrite Hupdate in Hrest. apply IH in Hrest.
      * rewrite Hrest, fmap_app, filter_cons_True by done.
        by rewrite fmap_cons, <- app_assoc.
      * rewrite fmap_app, <- app_assoc. done.
    + cbn [fst snd] in Hcollect.
      destruct (Row.collect env metadata cells parsed w)
        as [[[p cs]|e] w2] eqn:Hrest; [|done].
      cbn [fst snd] in Hcollect. simplify_eq.
      apply IH in Hrest.
      * by rewrite Hrest, filter_cons_False.
      * apply NoDup_app in Hnodup as (Hp & Hdisjoint & Hcells).
        apply NoDup_cons in Hcells as [_ Hcells].
        apply NoDup_app. split; [done|]. split; [|done].
        intros h Hh Hin. apply (Hdisjoint h Hh). by right.
Qed.

(** X15. Every header contributes to exactly one of the two dicts,
    provided the headers of the row are distinct. When
    [Row.get_parsed_value] returns for a row whose cells have pairwise
    distinct headers, the keys of the metadata dict are the headers of
    the cells under a fixed metadata name, in order, the keys of the
    responses dict are the headers of the other cells, in order, and
    the two dicts together have as many entries as the row has
    cells. *)
Theorem X15_two_dicts_partition_the_headers (env : Env) (row row' : Row.t)
    (metadata responses : list (string * pyval)) (w w' : world) :
  Row.get_parsed_value env row w = (Ok (metadata, responses, row'), w') →
  NoDup (Cell.header <$> Row.cells row) →
  metadata.*1
  = Cell.header <$> filter (λ c, Cell.is_metadata c = true) (Row.cells row)
  ∧ responses.*1
    = Cell.header <$> filter (λ c, Cell.is_metadata c = false) (Row.cells row)
  ∧ length metadata + length responses = length (Row.cells row).
Proof.
  unfold Row.get_parsed_value, bind, ret. intros Hparsed Hnodup.
  destruct (Row.collect env true (Row.cells row) [] w)
    as [[[m cs]|e] w1] eqn:Hm; [|done]. cbn [fst snd] in Hparsed.
  destruct (Row.collect env false cs [] w1)
    as [[[r cs']|e] w2] eqn:Hr; [|done]. cbn [fst snd] in Hparsed.
  simplify_eq.
  pose proof (collect_same _ _ _ _ _ _ _ _ Hm) as Hsame.
  destruct (same_cells_raw _ _ Hsame) as [_ Hheaders].
  apply collect_keys in Hm; [|done].
  apply collect_keys in Hr; [|by rewrite Hheaders].
  rewrite (filter_same_cells false _ _ Hsame) in Hr.
  simpl in Hm, Hr. split; [done|]. split; [done|].
  rewrite <- (length_fmap fst metadata), <- (length_fmap fst responses).
  rewrite Hm, Hr, !length_fmap. apply filter_metadata_length.
Qed.

(** A row of a title cell and an answer cell. *)
Lemma X15_two_dicts_witness :
  let title :=
    {| Cell.header := "title"; Cell.value := "A title";
       Cell.validations := metadata_rule "string" (Some true);
       Cell.field :=
         Cell.field_instance_for "title" "A title"
           (metadata_rule "string" (Some true)) Sample.closure |} in
  let answer :=
    {| Cell.header := "q2"; Cell.value := "an answer";
       Cell.validations := metadata_rule "string" None;
       Cell.field :=
         Cell.field_instance_for "q2" "an answer"
           (metadata_rule "string" None) Sample.closure |} in
  let row := {| Row.row_dict_ := []; Row.cells := [title; answer] |} in
  ∃ metadata responses row' w',
    Row.get_parsed_value Sample.env row world0
    = (Ok (metadata, responses, row'), w')
    ∧ metadata.*1
      = Cell.header <$>
          filter (λ c, Cell.is_metadata c = true) (Row.cells row)
    ∧ responses.*1
      = Cell.header <$>
          filter (λ c, Cell.is_metadata c = false) (Row.cells row)
    ∧ length metadata + length responses = length (Row.cells row).
Proof.
  intros title answer row.
  destruct (Row.get_parsed_value Sample.env row world0)
    as [[[[metadata responses] row']|e] w'] eqn:Hparsed;
    [|by vm_compute in Hparsed].
  exists metadata, responses, row', w'. split; [reflexivity|].
  apply (X15_two_dicts_partition_the_headers Sample.env row row' metadata
           responses world0 w' Hparsed).
  compute_done.
Defined.

(** ** Plain metadata cells *)

Lemma split_length (sep : ascii) (s : string) :
  length (split sep s) = S (count_char sep s).
Proof.
  induction s as [|c s IH]; [done|]. cbn [split count_char].
  destruct (Ascii.eqb c sep).
  - cbn [length]. by rewrite IH.
  - destruct (split sep s) as [|t ts]; [done|].
    cbn [length Nat.add] in *. lia.
Qed.

Lemma split_no_separator (sep : ascii) (s : string) :
  Forall (λ t, all_chars (λ c, negb (Ascii.eqb c sep)) t = true)
         (split sep s).
Proof.
  induction s as [|c s IH]; cbn [split].
  - by repeat constructor.
  - destruct (Ascii.eqb c sep) eqn:Hc.
    + by constructor.
    + destruct (split sep s) as [|t ts].
      * repeat constructor. simpl. by rewrite Hc.
      * apply Forall_cons in IH as [Ht Hts]. constructor; [|done].
        simpl. by rewrite Hc, Ht.
Qed.

Lemma lstrip_all_chars (p : ascii → bool) (s : string) :
  all_chars p s = true → all_chars p (lstrip s) = true.
Proof.
  induction s as [|c s IH]; [done|]. cbn [lstrip].
  destruct (is_space c); [|done]. simpl.
  intros Hs. apply andb_true_iff in Hs as [_ Hs]. by apply IH.
Qed.

Lemma rstrip_all_chars (p : ascii → bool) (s : string) :
  all_chars p s = true → all_chars p (rstrip s) = true.
Proof.
  induction s as [|c s IH]; [done|]. cbn [rstrip all_chars].
  intros Hs. apply andb_true_iff in Hs as [Hc Hs]. specialize (IH Hs).
  destruct (rstrip s) as [|c' r].
  - destruct (is_space c); [done|]. simpl. by rewrite Hc.
  - cbn [all_chars] in IH |- *. by rewrite Hc, IH.
Qed.

Lemma rstrip_rstrip (s : string) : rstrip (rstrip s) = rstrip s.
Proof.
  induction s as [|c s IH]; [done|]. cbn [rstrip].
  destruct (rstrip s) as [|c' r] eqn:Hr.
  - destruct (is_space c) eqn:Hc; [done|]. cbn [rstrip]. by rewrite Hc.
  - cbn [rstrip]. cbn [rstrip] in IH. by rewrite IH.
Qed.

(** A string that does not begin with whitespace. *)
Lemma lstrip_rstrip_lstrip (s : string) :
  lstrip (rstrip (lstrip s)) = rstrip (lstrip s).
Proof.
  induction s as [|c s IH]; [done|]. cbn [lstrip].
  destruct (is_space c) eqn:Hc; [done|]. cbn [rstrip].
  destruct (rstrip s) as [|c' r].
  - rewrite Hc. cbn [lstrip]. by rewrite Hc.
  - cbn [lstrip]. by rewrite Hc.
Qed.

(** Stripping twice is stripping once. *)
Lemma strip_strip (s : string) : strip (strip s) = strip s.
Proof.
  unfold strip. by rewrite lstrip_rstrip_lstrip, rstrip_rstrip.
Qed.

Lemma strip_all_chars (p : ascii → bool) (s : string) :
  all_chars p s = true → all_chars p (strip s) = true.
Proof.
  intros Hs. unfold strip. by apply rstrip_all_chars, lstrip_all_chars.
Qed.

Lemma concat_cons (sep x p : string) (ps : list string) :
  String.concat sep (x :: p :: ps)
  = (x ++ sep ++ String.concat sep (p :: ps))%string.
Proof. done. Qed.

(** Joining the pieces of a split with the separator gives the string
    back. *)
Lemma concat_split (sep : ascii) (s : string) :
  String.concat (String sep "") (split sep s) = s.
Proof.
  induction s as [|c s IH]; [done|]. cbn [split].
  destruct (Ascii.eqb_spec c sep) as [->|Hc].
  - destruct (split sep s) as [|t ts] eqn:Hsplit.
    + pose proof (split_length sep s) as Hlen. by rewrite Hsplit in Hlen.
    + rewrite concat_cons, IH. done.
  - destruct (split sep s) as [|t ts]; [by subst s|].
    destruct ts as [|t' ts].
    + cbn [String.concat] in IH |- *. by rewrite IH.
    + rewrite concat_cons in IH |- *. by rewrite <- IH.
Qed.

Lemma split_one_piece (sep : ascii) (s : string) :
  all_chars (λ c, negb (Ascii.eqb c sep)) s = true → split sep s = [s].
Proof.
  induction s as [|c s IH]; [done|]. cbn [all_chars split].
  intros Hs. apply andb_true_iff in Hs as [Hc Hs].
  apply negb_true_iff in Hc. by rewrite Hc, IH.
Qed.

Lemma split_first_piece (sep : ascii) (piece s : string) :
  all_chars (λ c, negb (Ascii.eqb c sep)) piece = true →
  split sep (piece ++ String sep s)%string = piece :: split sep s.
Proof.
  induction piece as [|c piece IH]; cbn [all_chars].
  - intros _. change (split sep (String sep s) = "" :: split sep s).
    cbn [split]. by rewrite Ascii.eqb_refl.
  - intros Hs. apply andb_true_iff in Hs as [Hc Hs].
    apply negb_true_iff in Hc.
    change (split sep (String c (piece ++ String sep s)%string)
            = String c piece :: split sep s).
    cbn [split]. by rewrite Hc, IH.
Qed.

(** The pieces are the only way to cut a string at its separators. *)
Lemma split_concat (sep : ascii) (pieces : list string) :
  pieces ≠ [] →
  Forall (λ p, all_chars (λ c, negb (Ascii.eqb c sep)) p = true) pieces →
  split sep (String.concat (String sep "") pieces) = pieces.
Proof.
  induction pieces as [|p pieces IH]; [done|]. intros _ Hno.
  apply Forall_cons in Hno as [Hp Hno].
  destruct pieces as [|p' pieces].
  - by apply split_one_piece.
  - rewrite concat_cons.
    change (p ++ String sep "" ++ String.concat (String sep "") (p' :: pieces))%string
      with (p ++ String sep (String.concat (String sep "") (p' :: pieces)))%string.
    rewrite split_first_piece by done. by rewrite IH.
Qed.

(** X16. What a plain metadata cell resolves to. For a header that gets
    a plain [MetadataField] ([title], [description], [tags],
    [external id]), unless the rule is required and the value blank,
    one parse logs nothing and looks nothing up. With format [string]
    it returns the stripped raw value. With format [list] the stripped
    value is cut at its semicolons: the pieces, joined again with
    semicolons, are the stripped value, none holds a semicolon, and
    there is one more of them than there are semicolons (which fixes
    the pieces: [split_concat]); the value returned is the list of the
    pieces, each stripped, in their order and with duplicates; a blank
    value gives the list of the one empty token, not the empty list.
    With any other format it returns [''] and caches nothing. *)
Theorem X16_plain_metadata_values (env : Env) (name value : string)
    (rule : validation) (closure : log_error_closure) (w : world) :
  Cell.field_class_for name = MetadataField →
  (default false (v_required rule) = true → strip value ≠ "") →
  let self := Cell.field_instance_for name value rule closure in
  let format := default "string" (v_format rule) in
  (format = "string" →
   parse env self w
   = (Ok (PyStr (strip value),
          Field.set_parsed_value self (Some (PyStr (strip value)))), w))
  ∧ (format = "list" →
     ∃ pieces tokens,
       String.concat ";" pieces = strip value
       ∧ Forall (λ p, all_chars (λ c, negb (Ascii.eqb c ";")) p = true)
           pieces
       ∧ length pieces = S (count_char ";" (strip value))
       ∧ tokens = strip <$> pieces
       ∧ parse env self w
         = (Ok (PyList (PyStr <$> tokens),
                Field.set_parsed_value self
                  (Some (PyList (PyStr <$> tokens)))),
            w)
       ∧ (strip value = "" → tokens = [""])
       ∧ ∀ t, t ∈ tokens →
           strip t = t
           ∧ all_chars (λ c, negb (Ascii.eqb c ";")) t = true)
  ∧ (format ≠ "string" → format ≠ "list" →
     parse env self w = (Ok (PyStr "", self), w)).
Proof.
  intros Hclass Hreq. unfold Cell.field_instance_for. rewrite Hclass.
  cbv zeta.
  set (self := MetadataField.__init__ MetadataField value rule closure).
  assert (∀ w, _validate env self w
               = (Ok (Field.set_parsed_value self
                        (if decide (Field.format self = Some "string") then
                           Some (PyStr (strip value))
                         else if decide (Field.format self = Some "list") then
                           Some (PyList (PyStr <$>
                                         split_strip ";" (strip value)))
                         else None)), w)) as Hvalidate.
  { intros w0. unfold _validate, MetadataField._validate, required_and_empty.
    change (Field.class self) with MetadataField.
    change (Field.required self) with (default false (v_required rule)).
    change (Field.value self) with (strip value).
    destruct (default false (v_required rule)); [|done].
    by destruct (strip value); [destruct Hreq|]. }
  change (Field.format self)
    with (Some (default "string" (v_format rule))) in Hvalidate.
  split; [|split].
  - intros Hformat. rewrite parse_uncached, Hvalidate by done.
    by rewrite Hformat, decide_True.
  - intros Hformat.
    exists (split ";" (strip value)), (split_strip ";" (strip value)).
    split; [apply concat_split|]. split; [apply split_no_separator|].
    split; [apply split_length|]. split; [done|].
    split; [|split].
    + rewrite parse_uncached, Hvalidate by done.
      rewrite Hformat, decide_False by done. by rewrite decide_True.
    + by intros ->.
    + intros t Ht. unfold split_strip in Ht.
      apply list_elem_of_fmap in Ht as (t0 & -> & Ht0).
      split; [apply strip_strip|]. apply strip_all_chars.
      pose proof (split_no_separator ";" (strip value)) as Hno.
      rewrite Forall_forall in Hno. by apply Hno.
  - intros Hstring Hlist. rewrite parse_uncached, Hvalidate by done.
    rewrite decide_False by congruence.
    by rewrite decide_False by congruence.
Qed.

(** The tags ['a; b;c'] are returned as ['a'], ['b'], ['c']. *)
Lemma X16_plain_metadata_witness :
  parse Sample.env
    (Cell.field_instance_for "tags" "a; b;c" (metadata_rule "list" None)
       Sample.closure) world0
  = (Ok (PyList [PyStr "a"; PyStr "b"; PyStr "c"],
         Field.set_parsed_value
           (Cell.field_instance_for "tags" "a; b;c"
              (metadata_rule "list" None) Sample.closure)
           (Some (PyList [PyStr "a"; PyStr "b"; PyStr "c"]))),
     world0).
Proof.
  destruct (X16_plain_metadata_values Sample.env "tags" "a; b;c"
              (metadata_rule "list" None) Sample.closure world0)
    as (_ & Hlist & _).
  - by vm_compute.
  - intros H. by vm_compute in H.
  - destruct (Hlist eq_refl)
      as (pieces & tokens & Hjoin & Hno & Hlen & -> & Hparse & _).
    assert (pieces ≠ []) as Hne by (by destruct pieces).
    pose proof (split_concat ";" pieces Hne Hno) as Hpieces.
    change (String ";" "") with ";"%string in Hpieces.
    rewrite Hjoin in Hpieces. vm_compute in Hpieces. subst pieces.
    exact Hparse.
Defined.
